(** * Event listing of the Google Calendar plugin

    A shallow embedding of [GoogleListCalendars.ts] and [GoogleListEvents.ts]
    (calendar directory, paged fetch, multi-day expansion, day cache and
    the [googleListEvents] aggregator), followed by the properties of
    the pipeline.

    Conventions of the embedding.
    - A moment (and the instant denoted by a date-time string) is a [Z]:
      milliseconds of local wall-clock time since the local epoch.  The
      local zone has a fixed offset to UTC, so a day is always
      [msPerDay] long.  A date-only string ["YYYY-MM-DD"] is the number
      of its day, which is also what [format("YYYY-MM-DD")] yields.
    - JavaScript objects are records carrying the fields the code
      touches; [undefined] fields are [option]s.
    - The moment objects of the callers are mutable and live in a
      store, addressed by numbers; a moment that the plugin makes itself
      ([window.moment()], [clone()]) is a value.
    - Module-level and plugin state, the clock, the transport, the
      callers' moments and the notices shown to the user live in one
      [World] that the functions thread through a state-and-exception
      monad. *)

From Stdlib Require Import ZArith List Bool Lia Sorted Permutation.
From stdpp Require Import base option list gmap strings pretty.
Import ListNotations.

Local Open Scope string_scope.
Local Open Scope list_scope.
Local Open Scope Z_scope.

(** ** Moments *)

Module Moment.

Definition msPerSecond : Z := 1000.
Definition msPerMinute : Z := 60000.
Definition msPerDay : Z := 86400000.

(** The calendar day a moment falls on, [format("YYYY-MM-DD")]. *)
Definition dayOf (m : Z) : Z := m / msPerDay.

(** [startOf("day")] and [endOf("day")]. *)
Definition startOfDay (m : Z) : Z := m - m mod msPerDay.
Definition endOfDay (m : Z) : Z := startOfDay m + msPerDay - 1.

(** [add(n, "days")] and [add(n, "second")]. *)
Definition addDays (n m : Z) : Z := m + n * msPerDay.
Definition addSeconds (n m : Z) : Z := m + n * msPerSecond.

(** [a.diff(b, "days")]: whole days, truncated toward zero. *)
Definition diffDays (a b : Z) : Z := Z.quot (a - b) msPerDay.

(** [format("YYYY-MM-DD HH:mm")] read back as a moment: seconds and
    milliseconds are lost. *)
Definition formatMinute (m : Z) : Z := m - m mod msPerMinute.

(** [a.isSame(b, "day")], [a.isBefore(b, "day")], [a.isAfter(b, "day")]
    and [a.isSameOrAfter(b, "day")], written as moment.js computes
    them. *)
Definition isSameDay (a b : Z) : bool :=
  (startOfDay a <=? b) && (b <=? endOfDay a).
Definition isBeforeDay (a b : Z) : bool := endOfDay a <? b.
Definition isAfterDay (a b : Z) : bool := b <? startOfDay a.
Definition isSameOrAfterDay (a b : Z) : bool :=
  isSameDay a b || isAfterDay a b.

(** The moment at which a day starts. *)
Definition ofDay (d : Z) : Z := d * msPerDay.

End Moment.
Import Moment.

(** ** Data model ([helper/types]) *)

Record GoogleCalendar := mkCalendar {
  cal_id : string;
  cal_summary : string
}.

(** [start] and [end] of an event: [date] for all-day events, [dateTime]
    otherwise. *)
Record EventTime := mkEventTime {
  date : option Z;
  dateTime : option Z
}.

Record GoogleEvent := mkEvent {
  id : string;
  summary : string;
  status : string;
  eventType : option string;
  colorId : option string;
  start : EventTime;
  end_ : EventTime;
  parent : option GoogleCalendar
}.

Definition set_summary (s : string) (e : GoogleEvent) : GoogleEvent :=
  mkEvent (id e) s (status e) (eventType e) (colorId e) (start e) (end_ e)
          (parent e).
Definition set_eventType (t : string) (e : GoogleEvent) : GoogleEvent :=
  mkEvent (id e) (summary e) (status e) (Some t) (colorId e) (start e)
          (end_ e) (parent e).
Definition set_start_dateTime (m : Z) (e : GoogleEvent) : GoogleEvent :=
  mkEvent (id e) (summary e) (status e) (eventType e) (colorId e)
          (mkEventTime (date (start e)) (Some m)) (end_ e) (parent e).
Definition set_parent (c : GoogleCalendar) (e : GoogleEvent) : GoogleEvent :=
  mkEvent (id e) (summary e) (status e) (eventType e) (colorId e) (start e)
          (end_ e) (Some c).

Record GoogleEventList := mkEventList {
  items : list GoogleEvent;
  nextPageToken : option string
}.

Record EventCacheValue := mkCacheValue {
  events : list GoogleEvent;
  updated : Z
}.

(** The argument of [googleListEvents]; [startDate] and [endDate] are
    the addresses of the moment objects passed, which may be one and the
    same object. *)
Record ListOptions := mkListOptions {
  startDate : option Z;
  endDate : option Z;
  exclude : option (list string);
  include : option (list string)
}.

(** The parsed answer to the calendar-list request; an answer that
    reports an error has no [items]. *)
Record GoogleCalanderList := mkCalanderList {
  calendarItems : option (list GoogleCalendar)
}.

(** What [Array.prototype.sort] of the host engine makes of the
    criteria of [_.orderBy] when a key is an invalid date: comparisons
    with such a key yield 0, the comparator is no order, and the
    resulting order is up to the engine; it is some arrangement of the
    events. *)
Record SortEngine := mkSortEngine {
  sortInconsistent : list (option Z * GoogleEvent) -> list GoogleEvent;
  sortInconsistent_perm :
    forall keyed, Permutation (sortInconsistent keyed) (map snd keyed)
}.

(** The plugin settings read by the two modules. *)
Record Settings := mkSettings {
  googleApiToken : string;
  calendarBlackList : list (string * string);
  useCustomClient : bool;
  refreshInterval : Z
}.

Definition set_refreshInterval (n : Z) (s : Settings) : Settings :=
  mkSettings (googleApiToken s) (calendarBlackList s) (useCustomClient s) n.

(** ** Multi-day expansion *)

Module Expander.

(** The title of the [dayCount]-th occurrence. *)
Definition dayTitle (title : string) (dayCount totalDays : Z) : string :=
  title +:+ " (Day " +:+ pretty dayCount +:+ "/" +:+ pretty totalDays
        +:+ ")".

(** State of the [do ... while] loop: the occurrences cloned so far,
    [dayCount], [startMoment] and the event being rewritten in place. *)
Record LoopState := mkLoop {
  extraEventsTmp : list GoogleEvent;
  dayCount : Z;
  startMoment : Z;
  tmp : GoogleEvent
}.

(** One pass through the loop body. *)
Definition loopBody (title : string) (totalDays : Z) (s : LoopState)
  : LoopState :=
  let tmp1 := set_eventType "multiDay"
                (set_summary (dayTitle title (dayCount s) totalDays)
                             (tmp s)) in
  let startMoment' := addDays 1 (startMoment s) in
  mkLoop (extraEventsTmp s ++ [tmp1]) (dayCount s + 1) startMoment'
         (set_start_dateTime (formatMinute startMoment') tmp1).

(** The loop; [None] when [fuel] passes do not reach the exit. *)
Fixpoint doWhile (fuel : nat) (title : string) (totalDays endMoment : Z)
         (s : LoopState) : option LoopState :=
  match fuel with
  | O => None
  | S fuel' =>
      let s' := loopBody title totalDays s in
      if negb (isAfterDay (startMoment s') endMoment)
      then doWhile fuel' title totalDays endMoment s'
      else Some s'
  end.

(** Passes that always suffice: one, plus one per day between the two
    moments. *)
Definition loopFuel (startMoment endMoment : Z) : nat :=
  S (Z.to_nat (dayOf endMoment - dayOf startMoment)).

(** The occurrences of one multi-day event before the range filter,
    and the event as the loop leaves it. *)
Definition cloneDays (tmp0 : GoogleEvent) (start0 end0 : Z)
  : option LoopState :=
  let endMoment := endOfDay end0 in
  let startMoment := startOfDay start0 in
  let totalDays := diffDays endMoment startMoment + 1 in
  doWhile (loopFuel startMoment endMoment) (summary tmp0) totalDays
          endMoment (mkLoop [] 1 startMoment tmp0).

(** The range filter applied to the occurrences (which all carry a
    [dateTime]). *)
Definition inRange (date endDate : option Z) (event : GoogleEvent) : bool :=
  match dateTime (start event) with
  | None => true
  | Some startMoment =>
      if match date with
         | Some d => isBeforeDay startMoment d
         | None => false
         end then false
      else if match endDate with
              | Some e => isSameOrAfterDay startMoment e
              | None => false
              end then false
      else true
  end.

(** The callback of [forEach]: the event after the callback and the
    occurrences it contributes to [extraEvents].  The loop always
    reaches its exit within [loopFuel] passes ([cloneDays_stateAfter]
    below), so [cloneDays] never yields [None] here. *)
Definition resolveOne (date endDate : option Z) (tmp0 : GoogleEvent)
  : GoogleEvent * list GoogleEvent :=
  match dateTime (start tmp0), dateTime (end_ tmp0) with
  | Some start0, Some end0 =>
      if isSameDay start0 end0 then (tmp0, [])
      else
        match cloneDays tmp0 start0 end0 with
        | Some s =>
            (set_eventType "delete" (tmp s),
             List.filter (inRange date endDate) (extraEventsTmp s))
        | None => (tmp0, [])
        end
  | _, _ => (tmp0, [])
  end.

(** [resolveMultiDayEventsHelper]: the events, rewritten in place,
    followed by all the occurrences. *)
Definition resolveMultiDayEventsHelper (totalEventList : list GoogleEvent)
           (date endDate : option Z) : list GoogleEvent :=
  let resolved := map (resolveOne date endDate) totalEventList in
  map fst resolved ++ concat (map snd resolved).

End Expander.

(** ** The world the modules run in *)

(** What the URL of an event request depends on. *)
Record Request := mkRequest {
  req_calendar : string;
  req_timeMin : Z;
  req_timeMax : Z;
  req_pageToken : option string
}.

(** What [callRequest] comes back with: the time the call took and the
    parsed result, [None] when the call failed. *)
Record Response := mkResponse {
  latency : Z;
  body : option GoogleEventList
}.

(** - [settings]: [plugin.settings];
    - [cachedEvents]: the module-level [Map] of [GoogleListEvents.ts],
      keyed by the pair that [JSON.stringify({day, calendar})] encodes;
    - [cachedCalendars]: the module-level variable of
      [GoogleListCalendars.ts], [None] when it holds [undefined];
    - [clock]: what [window.moment()] returns;
    - [loggedIn]: what [settingsAreCompleteAndLoggedIn()] returns;
    - [calendarListResponse]: the parsed answer to the calendar-list
      request, [None] when [fetch] or [json()] throws;
    - [transport]: how the remote end answers the next event requests,
      one entry per request; once it is used up, requests fail;
    - [notices]: the messages passed to [createNotice];
    - [requests]: the event requests sent so far;
    - [moments]: the moment each moment object of the callers holds;
    - [colorsAndTokenLoad]: whether [getGoogleColors()] and
      [getGoogleAuthToken()] resolve, rather than reject;
    - [sortEngine]: the sort of the host engine on criteria that no
      order sorts. *)
Record World := mkWorld {
  settings : Settings;
  cachedEvents : gmap (Z * string) EventCacheValue;
  cachedCalendars : option (list GoogleCalendar);
  clock : Z;
  loggedIn : bool;
  calendarListResponse : option GoogleCalanderList;
  transport : list (Request -> Response);
  notices : list string;
  requests : list Request;
  moments : Z -> Z;
  colorsAndTokenLoad : bool;
  sortEngine : SortEngine
}.

Definition set_settings (s : Settings) (w : World) : World :=
  mkWorld s (cachedEvents w) (cachedCalendars w) (clock w) (loggedIn w)
          (calendarListResponse w) (transport w) (notices w) (requests w)
          (moments w) (colorsAndTokenLoad w) (sortEngine w).
Definition set_cachedEvents (c : gmap (Z * string) EventCacheValue)
           (w : World) : World :=
  mkWorld (settings w) c (cachedCalendars w) (clock w) (loggedIn w)
          (calendarListResponse w) (transport w) (notices w) (requests w)
          (moments w) (colorsAndTokenLoad w) (sortEngine w).
Definition set_cachedCalendars (l : option (list GoogleCalendar)) (w : World)
  : World :=
  mkWorld (settings w) (cachedEvents w) l (clock w) (loggedIn w)
          (calendarListResponse w) (transport w) (notices w) (requests w)
          (moments w) (colorsAndTokenLoad w) (sortEngine w).
Definition createNotice (text : string) (w : World) : World :=
  mkWorld (settings w) (cachedEvents w) (cachedCalendars w) (clock w)
          (loggedIn w) (calendarListResponse w) (transport w)
          (notices w ++ [text]) (requests w)
          (moments w) (colorsAndTokenLoad w) (sortEngine w).
Definition set_moments (held : Z -> Z) (w : World) : World :=
  mkWorld (settings w) (cachedEvents w) (cachedCalendars w) (clock w)
          (loggedIn w) (calendarListResponse w) (transport w) (notices w)
          (requests w) held (colorsAndTokenLoad w) (sortEngine w).

(** The effect of one event request on the world: the request is
    recorded, the transport moves on and the clock advances. *)
Definition sent (url : Request) (elapsed : Z)
           (rest : list (Request -> Response)) (w : World) : World :=
  mkWorld (settings w) (cachedEvents w) (cachedCalendars w)
          (clock w + elapsed) (loggedIn w) (calendarListResponse w) rest
          (notices w) (requests w ++ [url])
          (moments w) (colorsAndTokenLoad w) (sortEngine w).

(** [callRequest(url, "GET", null)]. *)
Definition callRequest (url : Request) (w : World)
  : option GoogleEventList * World :=
  match transport w with
  | [] => (None, sent url 0 [] w)
  | server :: rest =>
      (body (server url), sent url (latency (server url)) rest w)
  end.

(** What can be thrown: a [TypeError] of the engine, or the rejection
    of a call of another module that is awaited outside any [try]. *)
Inductive Exception : Type :=
| typeError
| rejection.

(** How a call ends: with a value, or with an exception thrown (for an
    [async] function, with its promise rejected). *)
Inductive Completion (A : Type) : Type :=
| Normal (a : A)
| Throw (e : Exception).
Arguments Normal {A} a.
Arguments Throw {A} e.

Abbreviation TypeError := (Throw typeError).

Definition M (A : Type) : Type := World -> Completion A * World.

Definition ret {A} (a : A) : M A := fun w => (Normal a, w).
Definition bind {A B} (c : M A) (k : A -> M B) : M B :=
  fun w =>
    match c w with
    | (Normal a, w') => k a w'
    | (Throw e, w') => (Throw e, w')
    end.

Notation "'await' x <- c ; k" := (bind c (fun x => k))
  (at level 10, x name, c at level 100, k at level 200).

(** An engine that leaves criteria that no order sorts as they are.
    The samples below run on it; their events all have a valid start,
    so it is never consulted. *)
Definition engineAsGiven : SortEngine :=
  mkSortEngine (map snd) (fun keyed => Permutation_refl (map snd keyed)).

(** The world before anything ran: both module-level stores are empty.
    The calendar-list request brings [calendars] (or throws), colours
    and token load, the callers hold the moments [objects], and the
    host sorts with [engine]. *)
Definition initialWorld (s : Settings) (now : Z) (logged : bool)
           (calendars : option (list GoogleCalendar))
           (servers : list (Request -> Response)) (objects : Z -> Z)
           (engine : SortEngine)
  : World :=
  mkWorld s ∅ (Some []) now logged
          (option_map (fun l => mkCalanderList (Some l)) calendars)
          servers [] [] objects true engine.

(** ** Calendar directory ([GoogleListCalendars.ts]) *)

Definition filterCalendarsByBlackList (s : Settings)
           (calendars : list GoogleCalendar) : list GoogleCalendar :=
  List.filter
    (fun calendar =>
       negb (existsb (fun c => String.eqb (fst c) (cal_id calendar))
                     (calendarBlackList s)))
    calendars.

(** [googleListCalendars].  Reading [length] of a store that holds
    [undefined] is a [TypeError]; a rejection of [getGoogleColors()] or
    [getGoogleAuthToken()] passes through.  Inside the [try], the store
    is assigned the [items] of the answer before they are filtered, so
    an answer without [items] leaves [undefined] in the store, and the
    [TypeError] of filtering it is caught like a failed request. *)
Definition googleListCalendars : M (list GoogleCalendar) :=
  fun w =>
    match cachedCalendars w with
    | None => (TypeError, w)
    | Some stored =>
        if (0 <? length stored)%nat
        then (Normal (filterCalendarsByBlackList (settings w) stored), w)
        else if negb (colorsAndTokenLoad w) then (Throw rejection, w)
        else
          match calendarListResponse w with
          | Some calendarList =>
              let w1 := set_cachedCalendars (calendarItems calendarList) w in
              match calendarItems calendarList with
              | Some listed =>
                  (Normal (filterCalendarsByBlackList (settings w) listed),
                   w1)
              | None =>
                  (Normal [],
                   createNotice "Could not load google calendars" w1)
              end
          | None =>
              (Normal [], createNotice "Could not load google calendars" w)
          end
    end.

(** ** Paged fetch *)

Module Fetcher.

Definition resultSizes : nat := 2500.

Definition notCancelled (event : GoogleEvent) : bool :=
  negb (String.eqb (status event) "cancelled").

(** The callback of [items.filter] stamps the calendar on every item. *)
Definition stampAndFilter (calendar : GoogleCalendar)
           (pageItems : list GoogleEvent) : list GoogleEvent :=
  List.filter notCancelled (map (set_parent calendar) pageItems).

(** The page token that goes into the url: the [nextPageToken] of the
    result before, when there is one and it is not the empty string
    ([tmpRequestResult && tmpRequestResult.nextPageToken]). *)
Definition truthyToken (tmpRequestResult : option GoogleEventList)
  : option string :=
  match tmpRequestResult ≫= nextPageToken with
  | Some token => if String.eqb token "" then None else Some token
  | None => None
  end.

Definition nextUrl (calendar : GoogleCalendar) (startString endString : Z)
           (tmpRequestResult : option GoogleEventList) : Request :=
  mkRequest (cal_id calendar) startString endString
            (truthyToken tmpRequestResult).

(** The [do ... while] loop, by recursion on the answers left in the
    transport ([servers] is [transport w] throughout).

    When a request fails, the notice is shown and [continue] jumps to
    the loop condition [tmpRequestResult.items.length == resultSizes],
    which reads [items] of the failed result: a [TypeError]. *)
Fixpoint requestLoop (servers : list (Request -> Response))
         (calendar : GoogleCalendar) (startString endString : Z)
         (tmpRequestResult : option GoogleEventList)
         (totalEventList : list GoogleEvent) (w : World)
  : Completion (list GoogleEvent) * World :=
  let url := nextUrl calendar startString endString tmpRequestResult in
  match servers with
  | [] =>
      (TypeError,
       createNotice "Could not list Google Events" (sent url 0 [] w))
  | server :: rest =>
      let w1 := sent url (latency (server url)) rest w in
      match body (server url) with
      | None => (TypeError, createNotice "Could not list Google Events" w1)
      | Some page =>
          let totalEventList' :=
            totalEventList ++ stampAndFilter calendar (items page) in
          if (length (items page) =? resultSizes)%nat
          then requestLoop rest calendar startString endString (Some page)
                           totalEventList' w1
          else (Normal totalEventList', w1)
      end
  end.

Definition requestEventsFromApi (calendar : GoogleCalendar)
           (startString endString : Z) : M (list GoogleEvent) :=
  fun w =>
    if negb (loggedIn w) then (Normal [], w)
    else requestLoop (transport w) calendar startString endString None []
                     w.

End Fetcher.

(** ** Day cache *)

Module DayCache.

(** The values [currentDate] takes in
    [while (currentDate <= endDate) { ...; currentDate.add(1, "day") }]. *)
Definition loopDates (startDate endDate : Z) : list Z :=
  map (fun k => addDays (Z.of_nat k) startDate)
      (seq 0 (Z.to_nat ((endDate - startDate) / msPerDay + 1))).

Definition cacheKey (currentDate : Z) (calendar : GoogleCalendar)
  : Z * string :=
  (dayOf currentDate, cal_id calendar).

(** The floor put on the refresh interval of the shared client. *)
Definition raiseRefreshInterval (s : Settings) : Settings :=
  if negb (useCustomClient s) && (refreshInterval s <? 60)
  then set_refreshInterval 60 s
  else s.

(** [updated.clone().add(refreshInterval, "second").isBefore(moment())]. *)
Definition expired (s : Settings) (entry : EventCacheValue) (now : Z)
  : bool :=
  addSeconds (refreshInterval s) (updated entry) <? now.

(** The loop of [checkForCachedEvents] over the dates still to visit. *)
Fixpoint checkLoop (calendar : GoogleCalendar) (dates : list Z)
         (cachedEventList : list GoogleEvent) (w : World)
  : option (list GoogleEvent) * World :=
  match dates with
  | [] => (Some cachedEventList, w)
  | currentDate :: dates' =>
      match cachedEvents w !! cacheKey currentDate calendar with
      | None => (None, w)
      | Some entry =>
          let w1 := set_settings (raiseRefreshInterval (settings w)) w in
          if expired (settings w1) entry (clock w1) then (None, w1)
          else checkLoop calendar dates' (cachedEventList ++ events entry)
                         w1
      end
  end.

Definition checkForCachedEvents (calendar : GoogleCalendar)
           (startDate endDate : Z) (w : World)
  : option (list GoogleEvent) * World :=
  checkLoop calendar (loopDates startDate endDate) [] w.

(** [_.groupBy]: the events under each key, in their order. *)
Definition groupBy (key : GoogleEvent -> Z) (l : list GoogleEvent)
  : gmap Z (list GoogleEvent) :=
  fold_left
    (fun groups event =>
       <[key event := default [] (groups !! key event) ++ [event]]> groups)
    l ∅.

(** The day an event is grouped under:
    [moment(event.start.dateTime ?? event.start.date).format("YYYY-MM-DD")];
    [moment(undefined)] is the current time. *)
Definition groupKey (now : Z) (event : GoogleEvent) : Z :=
  match dateTime (start event) with
  | Some m => dayOf m
  | None =>
      match date (start event) with
      | Some d => d
      | None => dayOf now
      end
  end.

(** The loop that writes one entry per day of the range. *)
Definition populate (calendar : GoogleCalendar)
           (groupedEvents : gmap Z (list GoogleEvent))
           (startDate endDate : Z) (w : World) : World :=
  set_cachedEvents
    (fold_left
       (fun cache currentDate =>
          <[cacheKey currentDate calendar :=
              mkCacheValue
                (default [] (groupedEvents !! dayOf currentDate))
                (clock w)]> cache)
       (loopDates startDate endDate) (cachedEvents w))
    w.

(** [googleClearCachedEvents]. *)
Definition googleClearCachedEvents (w : World) : World :=
  set_cachedEvents ∅ w.

End DayCache.

(** ** Aggregator *)

Import Expander Fetcher DayCache.

Section Aggregator.

(** The colour directory ([GoogleColors.ts]) and the offset of the
    local zone, local time minus UTC, in milliseconds. *)
Variable allColorNames : list string.
Variable getColorNameFromEvent : GoogleEvent -> string.
Variable utcOffset : Z.

(** [Array.prototype.includes] / [contains] on strings. *)
Definition includes (l : list string) (x : string) : bool :=
  existsb (String.eqb x) l.

(** The colour part of both [filter] callbacks. *)
Definition colorFilter (includeColors excludeColors : list string)
           (indexEvent : GoogleEvent) : bool :=
  if (0 <? length includeColors)%nat
  then includes includeColors (getColorNameFromEvent indexEvent)
  else if (0 <? length excludeColors)%nat
       then negb (includes excludeColors (getColorNameFromEvent indexEvent))
       else true.

Definition isDelete (indexEvent : GoogleEvent) : bool :=
  match eventType indexEvent with
  | Some t => String.eqb t "delete"
  | None => false
  end.

(** The [filter] callback of the fetch path. *)
Definition freshFilter (includeColors excludeColors : list string)
           (indexEvent : GoogleEvent) : bool :=
  if isDelete indexEvent then false
  else colorFilter includeColors excludeColors indexEvent.

(** What the fetch path does with the fetched events: expand, write
    the day buckets, filter. *)
Definition cacheAndFilter (calendar : GoogleCalendar)
           (startDate endDate : Z) (includeColors excludeColors : list string)
           (fetched : list GoogleEvent) : M (list GoogleEvent) :=
  fun w =>
    let totalEventList :=
      resolveMultiDayEventsHelper fetched (Some startDate) (Some endDate) in
    let groupedEvents := groupBy (groupKey (clock w)) totalEventList in
    (Normal (List.filter (freshFilter includeColors excludeColors)
                         totalEventList),
     populate calendar groupedEvents startDate endDate w).

Definition googleListEventsByCalendar (calendar : GoogleCalendar)
           (startDate endDate : Z) (includeColors excludeColors : list string)
  : M (list GoogleEvent) :=
  fun w =>
    match checkForCachedEvents calendar startDate endDate w with
    | (Some alreadyCachedEvents, w1) =>
        (Normal (List.filter (colorFilter includeColors excludeColors)
                             alreadyCachedEvents), w1)
    | (None, w1) =>
        (await fetched <- requestEventsFromApi calendar startDate endDate;
         cacheAndFilter calendar startDate endDate includeColors
                        excludeColors fetched) w1
    end.

(** The [reduce] that separates colour names from calendar names:
    the names that are no colour, then the colours. *)
Definition splitColors (names : option (list string))
  : list string * list string :=
  fold_left
    (fun acc elem =>
       if negb (includes allColorNames elem)
       then (fst acc ++ [elem], snd acc)
       else (fst acc, snd acc ++ [elem]))
    (default [] names) ([], []).

Definition named (names : list string) (calendar : GoogleCalendar) : bool :=
  includes names (cal_id calendar) || includes names (cal_summary calendar).

(** The calendars that are queried. *)
Definition selectCalendars (includeCalendars excludeCalendars : list string)
           (calendarList : list GoogleCalendar) : list GoogleCalendar :=
  if (0 <? length includeCalendars)%nat
  then List.filter (named includeCalendars) calendarList
  else if (0 <? length excludeCalendars)%nat
       then List.filter (fun c => negb (named excludeCalendars c))
                        calendarList
       else calendarList.

(** The loop over the calendars. *)
Fixpoint collectEvents (calendarList : list GoogleCalendar)
         (startDate endDate : Z) (includeColors excludeColors : list string)
         (eventList : list GoogleEvent) : M (list GoogleEvent) :=
  match calendarList with
  | [] => ret eventList
  | calendar :: calendarList' =>
      await events <- googleListEventsByCalendar calendar startDate endDate
                        includeColors excludeColors;
      collectEvents calendarList' startDate endDate includeColors
                    excludeColors (eventList ++ events)
  end.

(** The sort key [new Date(event.start.date ?? event.start.dateTime)]:
    a date-only string is read as midnight UTC, a date-time string as
    the moment it denotes (also in the form the expander writes, which
    the engine of the host application reads as local time); [None] is
    an invalid date. *)
Definition startKey (event : GoogleEvent) : option Z :=
  match date (start event) with
  | Some d => Some (ofDay d + utcOffset)
  | None => dateTime (start event)
  end.

(** The criteria of [_.orderBy], an event with its key, when every
    key is a valid date. *)
Fixpoint validCriteria (key : GoogleEvent -> option Z) (l : list GoogleEvent)
  : option (list (Z * GoogleEvent)) :=
  match l with
  | [] => Some []
  | event :: l' =>
      match key event, validCriteria key l' with
      | Some k, Some keyed => Some ((k, event) :: keyed)
      | _, _ => None
      end
  end.

(** An element goes behind those that are not greater than it. *)
Fixpoint insertBy (x : Z * GoogleEvent) (sorted : list (Z * GoogleEvent))
  : list (Z * GoogleEvent) :=
  match sorted with
  | [] => [x]
  | y :: sorted' =>
      if fst y <? fst x then y :: insertBy x sorted'
      else x :: y :: sorted'
  end.

(** [_.orderBy(l, [key], "asc")].  Its comparator puts the greater date
    behind, and of two equal dates the one with the greater index.  On
    valid dates this is a total order, and whatever way the engine
    sorts, the result is the one stable arrangement, built here by
    insertion.  With an invalid date among the keys the result is what
    the engine makes of it. *)
Definition orderBy (engine : SortEngine) (key : GoogleEvent -> option Z)
           (l : list GoogleEvent) : list GoogleEvent :=
  match validCriteria key l with
  | Some keyed => map snd (fold_right insertBy [] keyed)
  | None => sortInconsistent engine (map (fun event => (key event, event)) l)
  end.

(** A moment variable of [googleListEvents]: an object of the caller, or
    a moment made during the call. *)
Inductive MomentVar : Type :=
| Object (address : Z)
| Made (m : Z).

Definition readMoment (v : MomentVar) (w : World) : Z :=
  match v with
  | Object address => moments w address
  | Made m => m
  end.

(** [v.startOf("day")] and [v.endOf("day")] change the moment in
    place. *)
Definition mutateMoment (f : Z -> Z) (v : MomentVar) (w : World)
  : MomentVar * World :=
  match v with
  | Object address =>
      (v, set_moments (fun a => if a =? address then f (moments w address)
                                else moments w a) w)
  | Made m => (Made (f m), w)
  end.

(** The first lines of [googleListEvents]: the start and the end of the
    range as the rest of the function reads them, and the world in
    which the objects passed have been changed. *)
Definition normalizeDates (options : ListOptions) (w : World)
  : (Z * Z) * World :=
  let startVar0 := match startDate options with
                   | Some address => Object address
                   | None => Made (clock w)
                   end in
  let (startVar, w1) := mutateMoment startOfDay startVar0 w in
  let endVar0 := match endDate options with
                 | Some address => Object address
                 | None => Made (readMoment startVar w1)
                 end in
  let (endVar, w2) := mutateMoment endOfDay endVar0 w1 in
  ((readMoment startVar w2, readMoment endVar w2), w2).

Definition googleListEvents (options : ListOptions) : M (list GoogleEvent) :=
  fun w =>
    let (dates, w0) := normalizeDates options w in
    let startDate := fst dates in
    let endDate := snd dates in
    let includeCalendars := fst (splitColors (include options)) in
    let includeColors := snd (splitColors (include options)) in
    let excludeCalendars := fst (splitColors (exclude options)) in
    let excludeColors := snd (splitColors (exclude options)) in
    (await calendarList <- googleListCalendars;
     await eventList <-
       collectEvents
         (selectCalendars includeCalendars excludeCalendars calendarList)
         startDate endDate includeColors excludeColors [];
     fun w' => (Normal (orderBy (sortEngine w') startKey eventList), w')) w0.

End Aggregator.

(** * Vocabulary of the properties *)

(** The [i]-th occurrence the expander clones from [tmp0], an event
    that starts at [start0]: the first keeps the start of the event, the
    later ones start at midnight, [i - 1] days after the day of
    [start0]. *)
Definition occurrenceStart (start0 i : Z) : Z :=
  if i =? 1 then start0 else addDays (i - 1) (startOfDay start0).

Definition occurrence (tmp0 : GoogleEvent) (start0 totalDays i : Z)
  : GoogleEvent :=
  mkEvent (id tmp0) (dayTitle (summary tmp0) i totalDays) (status tmp0)
          (Some "multiDay") (colorId tmp0)
          (mkEventTime (date (start tmp0)) (Some (occurrenceStart start0 i)))
          (end_ tmp0) (parent tmp0).

(** The state of the expander loop after [k] passes. *)
Definition stateAfter (tmp0 : GoogleEvent) (start0 totalDays k : Z)
  : LoopState :=
  mkLoop (map (occurrence tmp0 start0 totalDays) (seqZ 1 k)) (k + 1)
         (addDays k (startOfDay start0))
         (if k =? 0 then tmp0
          else set_start_dateTime (addDays k (startOfDay start0))
                                  (occurrence tmp0 start0 totalDays k)).

(** The number of calendar days from the day of [start0] to the day of
    [end0], both included. *)
Definition daySpan (start0 end0 : Z) : Z := dayOf end0 - dayOf start0 + 1.

(** The refresh interval a lookup works with. *)
Definition effectiveInterval (s : Settings) : Z :=
  if negb (useCustomClient s) && (refreshInterval s <? 60) then 60
  else refreshInterval s.

(** The events cached for a calendar on day [d]; none when the day has
    no entry. *)
Definition cachedDay (w : World) (calendar : GoogleCalendar) (d : Z)
  : list GoogleEvent :=
  match cachedEvents w !! (d, cal_id calendar) with
  | Some entry => events entry
  | None => []
  end.

(** Day [d] has an entry for the calendar that is not older than the
    effective refresh interval. *)
Definition usable (w : World) (calendar : GoogleCalendar) (d : Z) : bool :=
  match cachedEvents w !! (d, cal_id calendar) with
  | Some entry =>
      negb (updated entry + effectiveInterval (settings w) * 1000 <? clock w)
  | None => false
  end.

(** The lookup loop runs at least once and finds an entry for its first
    day. *)
Definition firstDayCached (w : World) (calendar : GoogleCalendar)
           (startDate endDate : Z) : bool :=
  (startDate <=? endDate)
  && match cachedEvents w !! cacheKey startDate calendar with
     | Some _ => true
     | None => false
     end.

(** The start of an event as the words "its date-time if present,
    otherwise its all-day date parsed as midnight" read in the zone of
    the user: an all-day date stands for the midnight at which that day
    starts there. *)
Definition localStart (event : GoogleEvent) : option Z :=
  match dateTime (start event) with
  | Some m => Some m
  | None =>
      match date (start event) with
      | Some d => Some (ofDay d)
      | None => None
      end
  end.

(** [a] does not start after [b], by [localStart]. *)
Definition startsNoLaterLocally (a b : GoogleEvent) : Prop :=
  match localStart a, localStart b with
  | Some x, Some y => x <= y
  | _, _ => False
  end.

(** The effective start of an event with all-day dates read as
    midnight UTC: its date-time if it has one, otherwise the moment at
    which its all-day date starts in UTC, which on the clock of the
    user is [utcOffset] after midnight. *)
Definition effectiveStart (utcOffset : Z) (event : GoogleEvent) : option Z :=
  match dateTime (start event) with
  | Some m => Some m
  | None =>
      match date (start event) with
      | Some d => Some (ofDay d + utcOffset)
      | None => None
      end
  end.

(** Exactly one of [date] and [dateTime] is there. *)
Definition oneOf (t : EventTime) : Prop :=
  match date t, dateTime t with
  | Some _, None | None, Some _ => True
  | _, _ => False
  end.

(** [a] does not start after [b]. *)
Definition startsNoLater (utcOffset : Z) (a b : GoogleEvent) : Prop :=
  match effectiveStart utcOffset a, effectiveStart utcOffset b with
  | Some x, Some y => x <= y
  | _, _ => False
  end.

(** The same on sort keys. *)
Definition keyLe (key : GoogleEvent -> option Z) (a b : GoogleEvent) : Prop :=
  match key a, key b with
  | Some x, Some y => x <= y
  | _, _ => False
  end.

(** Criteria in ascending order of their dates. *)
Definition criteriaLe (x y : Z * GoogleEvent) : Prop := fst x <= fst y.

(** No cached event is cancelled. *)
Definition cacheClean (w : World) : Prop :=
  forall key entry,
    cachedEvents w !! key = Some entry ->
    Forall (fun e => notCancelled e = true) (events entry).

(** The worlds the plugin can be in: it starts with empty stores;
    [googleListEvents] runs, however it ends; the cache is cleared;
    something outside the two modules changes (the settings are edited,
    time passes, the remote end changes), which leaves the event cache
    as it is. *)
Inductive reachable (allColorNames : list string)
          (getColorNameFromEvent : GoogleEvent -> string) (utcOffset : Z)
  : World -> Prop :=
| reachable_initial s now logged calendars servers objects engine :
    reachable allColorNames getColorNameFromEvent utcOffset
              (initialWorld s now logged calendars servers objects engine)
| reachable_listEvents options w :
    reachable allColorNames getColorNameFromEvent utcOffset w ->
    reachable allColorNames getColorNameFromEvent utcOffset
              (snd (googleListEvents allColorNames getColorNameFromEvent
                                     utcOffset options w))
| reachable_clear w :
    reachable allColorNames getColorNameFromEvent utcOffset w ->
    reachable allColorNames getColorNameFromEvent utcOffset
              (googleClearCachedEvents w)
| reachable_outside w w' :
    reachable allColorNames getColorNameFromEvent utcOffset w ->
    cachedEvents w' = cachedEvents w ->
    reachable allColorNames getColorNameFromEvent utcOffset w'.

(** What a call returned, if it returned. *)
Definition returned {A} (r : Completion A * World) : option A :=
  match fst r with
  | Normal a => Some a
  | Throw _ => None
  end.

(** ** A sample calendar *)

Module Example.

(** The day number of 2024-01-[d], and the moment [hour] o'clock on a
    day. *)
Definition jan (d : Z) : Z := 19722 + d.
Definition at_ (day hour : Z) : Z := ofDay day + hour * 3600000.

(** One event, from Jan-01 14:00 to Jan-03 10:00. *)
Definition trip : GoogleEvent :=
  mkEvent "e1" "Trip" "confirmed" None None
          (mkEventTime None (Some (at_ (jan 1) 14)))
          (mkEventTime None (Some (at_ (jan 3) 10))) None.

Definition work : GoogleCalendar := mkCalendar "work" "Work".

Definition plainSettings : Settings := mkSettings "key" [] false 60.

(** A remote end that answers a request with one page. *)
Definition onePage (l : list GoogleEvent) : Request -> Response :=
  fun _ => mkResponse 0 (Some (mkEventList l None)).

(** A remote end whose request fails. *)
Definition failing : Request -> Response := fun _ => mkResponse 0 None.

(** A colour directory, and the pipeline in a zone that is on UTC. *)
Definition colorNames : list string := ["tomato"; "sage"].
Definition colorOf (event : GoogleEvent) : string :=
  default "" (colorId event).
Definition listEvents : ListOptions -> M (list GoogleEvent) :=
  googleListEvents colorNames colorOf 0.

(** The moment objects of the caller: for every day [d] of January
    2024 two objects, at the addresses [2 * d] and [2 * d + 1], that
    hold the midnight at which the day starts. *)
Definition callerMoments : Z -> Z := fun address => ofDay (jan (address / 2)).

(** Jan-01 09:00, logged in, nothing cached, one calendar that holds
    [trip]. *)
Definition world0 : World :=
  initialWorld plainSettings (at_ (jan 1) 9) true (Some [work])
               [onePage [trip]] callerMoments engineAsGiven.

(** The same, with a transport that fails. *)
Definition worldDown : World :=
  initialWorld plainSettings (at_ (jan 1) 9) true (Some [work]) [failing]
               callerMoments engineAsGiven.

(** The same, with a transport that answers with a full page and then
    fails. *)
Definition worldDownLater : World :=
  initialWorld plainSettings (at_ (jan 1) 9) true (Some [work])
               [onePage (replicate resultSizes trip); failing] callerMoments
               engineAsGiven.

(** The query from 2024-01-[d1] to 2024-01-[d2], with two different
    moment objects. *)
Definition query (d1 d2 : Z) : ListOptions :=
  mkListOptions (Some (2 * d1)) (Some (2 * d2 + 1)) None None.

(** Title, tag and start day of the events of a list. *)
Definition labels (l : list GoogleEvent)
  : list (string * option string * option Z) :=
  map (fun e => (summary e, eventType e,
                 option_map dayOf (dateTime (start e)))) l.

(** A first call, Jan-01 to Jan-05, which fetches, and a second call
    in the world the first one left. *)
Definition firstCall : Completion (list GoogleEvent) * World :=
  listEvents (query 1 5) world0.
Definition secondCall : Completion (list GoogleEvent) * World :=
  listEvents (query 1 5) (snd firstCall).

(** A calendar that also holds a cancelled meeting and an all-day
    event, and what the query for Jan-01 to Jan-03 returns from it. *)
Definition cancelledMeeting : GoogleEvent :=
  mkEvent "e2" "Review" "cancelled" None None
          (mkEventTime None (Some (at_ (jan 2) 9)))
          (mkEventTime None (Some (at_ (jan 2) 10))) None.
Definition holiday : GoogleEvent :=
  mkEvent "e3" "Holiday" "confirmed" None None
          (mkEventTime (Some (jan 2)) None) (mkEventTime (Some (jan 3)) None)
          None.
Definition worldMixed : World :=
  initialWorld plainSettings (at_ (jan 1) 9) true (Some [work])
               [onePage [trip; cancelledMeeting; holiday]] callerMoments
               engineAsGiven.
Definition mixedList : list GoogleEvent :=
  default [] (returned (listEvents (query 1 3) worldMixed)).

(** The pipeline in a zone five hours behind UTC, a calendar that holds
    an event on Jan-01 from 22:00 to 23:00 and the all-day event of
    Jan-02, and what the query for Jan-01 to Jan-02 returns from it. *)
Definition listEventsWest : ListOptions -> M (list GoogleEvent) :=
  googleListEvents colorNames colorOf (- 5 * 3600000).
Definition night : GoogleEvent :=
  mkEvent "e5" "Night" "confirmed" None None
          (mkEventTime None (Some (at_ (jan 1) 22)))
          (mkEventTime None (Some (at_ (jan 1) 23))) None.
Definition worldNight : World :=
  initialWorld plainSettings (at_ (jan 1) 9) true (Some [work])
               [onePage [night; holiday]] callerMoments engineAsGiven.
Definition nightList : list GoogleEvent :=
  default [] (returned (listEventsWest (query 1 2) worldNight)).

(** A world of the shared client with a refresh interval of ten
    seconds, in which the calendar has an entry for Jan-02 and none for
    Jan-01. *)
Definition worldSecondDay : World :=
  set_cachedEvents
    {[ (jan 2, "work") := mkCacheValue [] (at_ (jan 1) 9) ]}
    (initialWorld (mkSettings "key" [] false 10) (at_ (jan 1) 9) true
                  (Some [work]) [] callerMoments engineAsGiven).

(** What the fetch for Jan-02 alone returns from the first calendar,
    and the world it leaves. *)
Definition oneDayFetch : Completion (list GoogleEvent) * World :=
  googleListEventsByCalendar colorOf work (ofDay (jan 2))
                             (endOfDay (ofDay (jan 2))) [] [] world0.

(** The world after the first call, with a refresh interval of ten
    seconds. *)
Definition worldLow : World :=
  set_settings (mkSettings "key" [] false 10) (snd firstCall).

End Example.

(** ** Vocabulary of the further properties *)

(** A calendar the user put on the blacklist. *)
Definition blacklisted (s : Settings) (calendar : GoogleCalendar) : Prop :=
  In (cal_id calendar) (map fst (calendarBlackList s)).

(** The world in which the calendar-list request answers differently. *)
Definition set_calendarListResponse (r : option GoogleCalanderList)
           (w : World) : World :=
  mkWorld (settings w) (cachedEvents w) (cachedCalendars w) (clock w)
          (loggedIn w) r (transport w) (notices w) (requests w)
          (moments w) (colorsAndTokenLoad w) (sortEngine w).

(** An answer to the calendar-list request that brings [calendars]. *)
Definition listing (calendars : list GoogleCalendar)
  : option GoogleCalanderList :=
  Some (mkCalanderList (Some calendars)).

(** The stored calendar list, empty when the store holds none. *)
Definition storedCalendars (w : World) : list GoogleCalendar :=
  default [] (cachedCalendars w).

(** An event the expander has nothing to do with: it lacks a date-time
    at its start or at its end, or starts and ends on the same day. *)
Definition singleDay (event : GoogleEvent) : Prop :=
  match dateTime (start event), dateTime (end_ event) with
  | Some start0, Some end0 => dayOf start0 = dayOf end0
  | _, _ => True
  end.

(** Day [d] is inside the range the expander filters by. *)
Definition dayInRange (date endDate d : Z) : bool :=
  (dayOf date <=? d) && (d <? dayOf endDate).

(** The remote end answers every request with [page]. *)
Definition answers (server : Request -> Response) (page : GoogleEventList)
  : Prop :=
  forall url, body (server url) = Some page.

(** A page with as many items as were asked for. *)
Definition fullPage (page : GoogleEventList) : Prop :=
  length (items page) = resultSizes.

(** What the fetch path keeps of a page. *)
Definition keptOf (calendar : GoogleCalendar) (page : GoogleEventList)
  : list GoogleEvent :=
  stampAndFilter calendar (items page).

(** The events cached for a calendar over a list of days, day after
    day. *)
Definition cachedRange (w : World) (calendar : GoogleCalendar)
           (days : list Z) : list GoogleEvent :=
  concat (map (cachedDay w calendar) days).

(** The range of a query made in world [w], as [googleListEvents]
    reads it after its first lines, and the world these lines leave. *)
Definition queryStart (options : ListOptions) (w : World) : Z :=
  fst (fst (normalizeDates options w)).
Definition queryEnd (options : ListOptions) (w : World) : Z :=
  snd (fst (normalizeDates options w)).
Definition datesRead (options : ListOptions) (w : World) : World :=
  snd (normalizeDates options w).

(** The moment the start of a query holds when the call is made. *)
Definition startGiven (options : ListOptions) (w : World) : Z :=
  match startDate options with
  | Some address => moments w address
  | None => clock w
  end.

(** The calendars a query made in world [w] goes through. *)
Definition queriedCalendars (allColorNames : list string)
           (options : ListOptions) (w : World) : list GoogleCalendar :=
  selectCalendars (fst (splitColors allColorNames (include options)))
                  (fst (splitColors allColorNames (exclude options)))
                  (default [] (returned (googleListCalendars w))).

(** [w'] shows a lookup what [w] shows it: the same entries, the same
    time, the same effective refresh interval. *)
Definition sameCacheView (w w' : World) : Prop :=
  cachedEvents w' = cachedEvents w /\ clock w' = clock w /\
  effectiveInterval (settings w') = effectiveInterval (settings w).

(** A request for the events of [calendar] between two moments. *)
Definition requestFor (calendarId : string) (timeMin timeMax : Z)
           (url : Request) : Prop :=
  req_calendar url = calendarId /\ req_timeMin url = timeMin /\
  req_timeMax url = timeMax.

(** Every event cached for a calendar satisfies [P] at the id of that
    calendar. *)
Definition cacheAll (P : string -> GoogleEvent -> Prop) (w : World) : Prop :=
  forall d c entry,
    cachedEvents w !! (d, c) = Some entry -> Forall (P c) (events entry).

(** The event is stamped with a calendar whose id is [calendarId]. *)
Definition ownedBy (calendarId : string) (event : GoogleEvent) : Prop :=
  exists p, parent event = Some p /\ cal_id p = calendarId.

(** Further sample data. *)
Module Sample.

Definition home : GoogleCalendar := mkCalendar "home" "Home".

(** The sample world, logged out. *)
Definition worldLoggedOut : World :=
  initialWorld Example.plainSettings (Example.at_ (Example.jan 1) 9) false
               (Some [Example.work]) [Example.onePage [Example.trip]]
               Example.callerMoments engineAsGiven.

(** An event that ends on the day before it starts. *)
Definition inverted : GoogleEvent :=
  mkEvent "e4" "Broken" "confirmed" None None
          (mkEventTime None (Some (Example.at_ (Example.jan 3) 14)))
          (mkEventTime None (Some (Example.at_ (Example.jan 2) 10))) None.

(** Settings that blacklist the work calendar. *)
Definition strictSettings : Settings :=
  mkSettings "key" [("work", "Work")] false 60.

(** A world whose calendar-list request fails. *)
Definition worldNoList : World :=
  initialWorld Example.plainSettings (Example.at_ (Example.jan 1) 9) true
               None [] Example.callerMoments engineAsGiven.

(** A world whose calendar-list request is answered without items. *)
Definition worldNoItems : World :=
  set_calendarListResponse (Some (mkCalanderList None)) worldNoList.

(** The world after one load of the calendar list, with the blacklist
    edited afterwards. *)
Definition worldLoaded : World :=
  set_settings strictSettings (snd (googleListCalendars Example.world0)).

End Sample.

(** * Properties *)

(** ** Moments and days *)

Ltac moment_arith :=
  unfold isSameDay, isBeforeDay, isAfterDay, isSameOrAfterDay, endOfDay,
    startOfDay, formatMinute, addDays, addSeconds, ofDay, dayOf, msPerDay,
    msPerMinute, msPerSecond in *;
  Z.div_mod_to_equations; lia.

Lemma startOfDay_ofDay m : startOfDay m = ofDay (dayOf m).
Proof. moment_arith. Qed.

Lemma dayOf_ofDay d : dayOf (ofDay d) = d.
Proof. moment_arith. Qed.

Lemma dayOf_startOfDay m : dayOf (startOfDay m) = dayOf m.
Proof. moment_arith. Qed.

Lemma dayOf_endOfDay m : dayOf (endOfDay m) = dayOf m.
Proof. moment_arith. Qed.

Lemma dayOf_addDays n m : dayOf (addDays n m) = dayOf m + n.
Proof. moment_arith. Qed.

Lemma startOfDay_le m : startOfDay m <= m <= endOfDay m.
Proof. moment_arith. Qed.

Lemma formatMinute_addDays_startOfDay n m :
  formatMinute (addDays n (startOfDay m)) = addDays n (startOfDay m).
Proof. moment_arith. Qed.

Lemma isSameDay_spec a b : isSameDay a b = true <-> dayOf a = dayOf b.
Proof.
  unfold isSameDay. rewrite andb_true_iff, !Z.leb_le. moment_arith.
Qed.

Lemma isBeforeDay_spec a b : isBeforeDay a b = true <-> dayOf a < dayOf b.
Proof. unfold isBeforeDay. rewrite Z.ltb_lt. moment_arith. Qed.

Lemma isAfterDay_spec a b : isAfterDay a b = true <-> dayOf b < dayOf a.
Proof. unfold isAfterDay. rewrite Z.ltb_lt. moment_arith. Qed.

Lemma isSameOrAfterDay_spec a b :
  isSameOrAfterDay a b = true <-> dayOf b <= dayOf a.
Proof.
  unfold isSameOrAfterDay.
  rewrite orb_true_iff, isSameDay_spec, isAfterDay_spec. lia.
Qed.

Lemma diffDays_span s e :
  dayOf s <= dayOf e ->
  diffDays (endOfDay e) (startOfDay s) + 1 = dayOf e - dayOf s + 1.
Proof.
  intros H. unfold diffDays.
  rewrite Z.quot_div_nonneg by moment_arith.
  moment_arith.
Qed.

(** ** Multi-day expansion *)

Lemma loopBody_stateAfter tmp0 start0 totalDays k :
  dateTime (start tmp0) = Some start0 ->
  0 <= k ->
  loopBody (summary tmp0) totalDays (stateAfter tmp0 start0 totalDays k)
  = stateAfter tmp0 start0 totalDays (k + 1).
Proof.
  intros Hstart Hk. unfold loopBody, stateAfter. cbn [extraEventsTmp dayCount startMoment tmp].
  assert (Hadd : addDays 1 (addDays k (startOfDay start0))
                 = addDays (k + 1) (startOfDay start0)) by moment_arith.
  rewrite Hadd, formatMinute_addDays_startOfDay.
  assert (Hocc : set_eventType "multiDay"
            (set_summary (dayTitle (summary tmp0) (k + 1) totalDays)
               (if k =? 0 then tmp0
                else set_start_dateTime (addDays k (startOfDay start0))
                       (occurrence tmp0 start0 totalDays k)))
          = occurrence tmp0 start0 totalDays (k + 1)).
  { unfold occurrence, occurrenceStart.
    destruct (Z.eqb_spec k 0) as [->|Hk0].
    - destruct tmp0 as [? ? ? ? ? [? ?] ? ?]. cbn in *. subst. reflexivity.
    - destruct (Z.eqb_spec (k + 1) 1) as [?|_]; [lia|].
      replace (k + 1 - 1) with k by lia. reflexivity. }
  rewrite Hocc.
  destruct (Z.eqb_spec (k + 1) 0) as [?|_]; [lia|].
  rewrite seqZ_app by lia. cbn [seqZ]. rewrite map_app.
  replace (1 + k) with (k + 1) by lia.
  reflexivity.
Qed.

Lemma doWhile_stateAfter tmp0 start0 end0 totalDays n k :
  dateTime (start tmp0) = Some start0 ->
  0 <= k < Z.max 1 (daySpan start0 end0) ->
  Z.max 1 (daySpan start0 end0) - k <= Z.of_nat (S n) ->
  doWhile (S n) (summary tmp0) totalDays (endOfDay end0)
          (stateAfter tmp0 start0 totalDays k)
  = Some (stateAfter tmp0 start0 totalDays (Z.max 1 (daySpan start0 end0))).
Proof.
  intros Hstart. revert k.
  induction n as [|n IH]; intros k Hk Hfuel;
    cbn [doWhile]; rewrite loopBody_stateAfter by (assumption || lia);
    cbn [stateAfter startMoment];
    destruct (isAfterDay (addDays (k + 1) (startOfDay start0)) (endOfDay end0))
      eqn:Hexit; cbn [negb].
  - f_equal. f_equal. lia.
  - exfalso. apply not_true_iff_false in Hexit. apply Hexit.
    apply isAfterDay_spec.
    rewrite dayOf_endOfDay, dayOf_addDays, dayOf_startOfDay.
    unfold daySpan in *. lia.
  - apply isAfterDay_spec in Hexit.
    rewrite dayOf_endOfDay, dayOf_addDays, dayOf_startOfDay in Hexit.
    f_equal. f_equal. unfold daySpan in *. lia.
  - apply not_true_iff_false in Hexit.
    rewrite isAfterDay_spec, dayOf_endOfDay, dayOf_addDays, dayOf_startOfDay
      in Hexit.
    apply IH; unfold daySpan in *; lia.
Qed.

(** The loop always reaches its exit within [loopFuel] passes, and
    leaves one occurrence per pass. *)
Lemma cloneDays_stateAfter tmp0 start0 end0 :
  dateTime (start tmp0) = Some start0 ->
  cloneDays tmp0 start0 end0
  = Some (stateAfter tmp0 start0
            (diffDays (endOfDay end0) (startOfDay start0) + 1)
            (Z.max 1 (daySpan start0 end0))).
Proof.
  intros Hstart. unfold cloneDays, loopFuel.
  replace (mkLoop [] 1 (startOfDay start0) tmp0)
    with (stateAfter tmp0 start0
            (diffDays (endOfDay end0) (startOfDay start0) + 1) 0)
    by (unfold stateAfter; cbn; f_equal; moment_arith).
  apply doWhile_stateAfter; [assumption|lia|].
  rewrite dayOf_endOfDay, dayOf_startOfDay. unfold daySpan. lia.
Qed.

Lemma length_seqZ_nonneg m n : 0 <= n -> Z.of_nat (length (seqZ m n)) = n.
Proof. intros H. rewrite length_seqZ. lia. Qed.

Lemma lookup_occurrences tmp0 start0 totalDays n i :
  1 <= i <= n ->
  map (occurrence tmp0 start0 totalDays) (seqZ 1 n) !! Z.to_nat (i - 1)
  = Some (occurrence tmp0 start0 totalDays i).
Proof.
  intros Hi.
  change (map (occurrence tmp0 start0 totalDays) (seqZ 1 n))
    with (occurrence tmp0 start0 totalDays <$> seqZ 1 n).
  rewrite list_lookup_fmap, lookup_seqZ_lt by lia.
  cbn. do 2 f_equal. lia.
Qed.

Lemma resolveOne_multiDay tmp0 start0 end0 date endDate :
  dateTime (start tmp0) = Some start0 ->
  dateTime (end_ tmp0) = Some end0 ->
  dayOf start0 <> dayOf end0 ->
  resolveOne date endDate tmp0
  = let s := stateAfter tmp0 start0
               (diffDays (endOfDay end0) (startOfDay start0) + 1)
               (Z.max 1 (daySpan start0 end0)) in
    (set_eventType "delete" (tmp s),
     List.filter (inRange date endDate) (extraEventsTmp s)).
Proof.
  intros Hs He Hd. unfold resolveOne. rewrite Hs, He.
  destruct (isSameDay start0 end0) eqn:Hsame.
  - apply isSameDay_spec in Hsame. contradiction.
  - rewrite cloneDays_stateAfter by assumption. reflexivity.
Qed.

Lemma resolveOne_sameDay tmp0 start0 end0 date endDate :
  dateTime (start tmp0) = Some start0 ->
  dateTime (end_ tmp0) = Some end0 ->
  dayOf start0 = dayOf end0 ->
  resolveOne date endDate tmp0 = (tmp0, []).
Proof.
  intros Hs He Hd. unfold resolveOne. rewrite Hs, He.
  apply isSameDay_spec in Hd. rewrite Hd. reflexivity.
Qed.

Lemma resolveOne_allDay tmp0 date endDate :
  dateTime (start tmp0) = None \/ dateTime (end_ tmp0) = None ->
  resolveOne date endDate tmp0 = (tmp0, []).
Proof.
  unfold resolveOne. intros [-> | ->]; [reflexivity|].
  destruct (dateTime (start tmp0)); reflexivity.
Qed.

(** C6, as the code has it.  An event with date-times that ends on a
    later calendar day than it starts, [N] days counting both, is cloned
    into exactly [N] occurrences.  The [i]-th is tagged ["multiDay"], is
    titled with the title of the event followed by [" (Day i/N)"], keeps
    the end (and every other field) of the event, and starts where the
    event starts when [i = 1], and at midnight [i - 1] days after the day
    the event starts on otherwise.  The callback tags the event itself
    ["delete"] and hands the occurrences to the range filter.  An event
    whose start and end fall on the same day is left as it is and yields
    no occurrence. *)
Theorem expander_occurrences tmp0 start0 end0 :
  dateTime (start tmp0) = Some start0 ->
  dateTime (end_ tmp0) = Some end0 ->
  (dayOf start0 < dayOf end0 ->
   exists s,
     cloneDays tmp0 start0 end0 = Some s /\
     Z.of_nat (length (extraEventsTmp s)) = daySpan start0 end0 /\
     (forall i, 1 <= i <= daySpan start0 end0 ->
        exists c,
          extraEventsTmp s !! Z.to_nat (i - 1) = Some c /\
          eventType c = Some "multiDay" /\
          summary c
          = summary tmp0 +:+ " (Day " +:+ pretty i +:+ "/"
              +:+ pretty (daySpan start0 end0) +:+ ")" /\
          dateTime (start c)
          = Some (if i =? 1 then start0
                  else addDays (i - 1) (startOfDay start0)) /\
          date (start c) = date (start tmp0) /\
          end_ c = end_ tmp0 /\
          id c = id tmp0 /\ status c = status tmp0 /\
          colorId c = colorId tmp0 /\ parent c = parent tmp0) /\
     (forall date endDate,
        resolveOne date endDate tmp0
        = (set_eventType "delete" (tmp s),
           List.filter (inRange date endDate) (extraEventsTmp s)))) /\
  (dayOf start0 = dayOf end0 ->
   forall date endDate,
     resolveOne date endDate tmp0 = (tmp0, []) /\
     resolveMultiDayEventsHelper [tmp0] date endDate = [tmp0]).
Proof.
  intros Hs He. split.
  - intros Hd.
    assert (Hmax : Z.max 1 (daySpan start0 end0) = daySpan start0 end0)
      by (unfold daySpan; lia).
    assert (Htotal : diffDays (endOfDay end0) (startOfDay start0) + 1
                     = daySpan start0 end0)
      by (apply diffDays_span; lia).
    eexists. split; [apply cloneDays_stateAfter; assumption|].
    rewrite Hmax, Htotal. cbn [stateAfter extraEventsTmp tmp].
    split; [|split].
    + rewrite length_map. apply length_seqZ_nonneg. unfold daySpan. lia.
    + intros i Hi. eexists. split; [apply lookup_occurrences; assumption|].
      cbn. repeat split; reflexivity.
    + intros date endDate.
      rewrite (resolveOne_multiDay tmp0 start0 end0) by (assumption || lia).
      cbn zeta. rewrite Hmax, Htotal. reflexivity.
  - intros Hd date endDate.
    assert (H1 : resolveOne date endDate tmp0 = (tmp0, []))
      by (eapply resolveOne_sameDay; eassumption).
    split; [exact H1|].
    unfold resolveMultiDayEventsHelper. cbn. rewrite H1. reflexivity.
Qed.

(** C6 as the claim words it fails: the second occurrence of the sample
    event, which starts on Jan-01 at 14:00, starts on Jan-02 at 00:00
    and not one day after the start of the event. *)
Lemma expander_later_starts_not_shifted :
  ~ (forall tmp0 start0 end0 s i c,
       dateTime (start tmp0) = Some start0 ->
       dateTime (end_ tmp0) = Some end0 ->
       dayOf start0 <> dayOf end0 ->
       cloneDays tmp0 start0 end0 = Some s ->
       1 <= i ->
       extraEventsTmp s !! Z.to_nat (i - 1) = Some c ->
       dateTime (start c) = Some (addDays (i - 1) start0)).
Proof.
  intros H.
  specialize (H Example.trip (Example.at_ (Example.jan 1) 14)
                (Example.at_ (Example.jan 3) 10)
                (stateAfter Example.trip (Example.at_ (Example.jan 1) 14) 3 3)
                2
                (occurrence Example.trip (Example.at_ (Example.jan 1) 14)
                            3 2)).
  assert (Hc : dateTime (start (occurrence Example.trip
                                  (Example.at_ (Example.jan 1) 14) 3 2))
               = Some (addDays (2 - 1) (Example.at_ (Example.jan 1) 14))).
  { apply H.
    - reflexivity.
    - reflexivity.
    - vm_compute. discriminate.
    - vm_compute. reflexivity.
    - lia.
    - vm_compute. reflexivity. }
  vm_compute in Hc. discriminate Hc.
Qed.

Lemma expander_occurrences_witness :
  exists s,
    cloneDays Example.trip (Example.at_ (Example.jan 1) 14)
              (Example.at_ (Example.jan 3) 10) = Some s /\
    Z.of_nat (length (extraEventsTmp s)) = 3.
Proof.
  destruct (expander_occurrences Example.trip
              (Example.at_ (Example.jan 1) 14)
              (Example.at_ (Example.jan 3) 10) eq_refl eq_refl)
    as [Hmulti _].
  destruct (Hmulti ltac:(vm_compute; reflexivity)) as (s & Hs & Hlen & _).
  exists s. split; [exact Hs | exact Hlen].
Defined.

(** ** The sample calendar, run *)

Section SampleRuns.
Import Example.

(** C5 on the code.  The query from 2024-01-01 to 2024-01-03 against
    the calendar that holds the one event from Jan-01 14:00 to
    Jan-03 10:00 returns two occurrences, "(Day 1/3)" and "(Day 2/3)":
    the occurrence of Jan-03 falls on the day of the end of the range
    and the range filter of the expander drops it. *)
Theorem sample_query_loses_last_day :
  option_map labels (returned (listEvents (query 1 3) world0))
  = Some [("Trip (Day 1/3)", Some "multiDay", Some (jan 1));
          ("Trip (Day 2/3)", Some "multiDay", Some (jan 2))].
Proof. vm_compute. reflexivity. Qed.

(** C1 on the code.  The fetch returns the three occurrences and
    writes the superseded event, tagged ["delete"] and moved to
    Jan-04, into the bucket of that day; the second call sends no
    request and returns that event along with the occurrences. *)
Theorem cached_list_contains_superseded_event :
  option_map labels (returned firstCall)
  = Some [("Trip (Day 1/3)", Some "multiDay", Some (jan 1));
          ("Trip (Day 2/3)", Some "multiDay", Some (jan 2));
          ("Trip (Day 3/3)", Some "multiDay", Some (jan 3))] /\
  length (requests (snd firstCall)) = 1%nat /\
  length (requests (snd secondCall)) = 1%nat /\
  option_map labels (returned secondCall)
  = Some [("Trip (Day 1/3)", Some "multiDay", Some (jan 1));
          ("Trip (Day 2/3)", Some "multiDay", Some (jan 2));
          ("Trip (Day 3/3)", Some "multiDay", Some (jan 3));
          ("Trip (Day 3/3)", Some "delete", Some (jan 4))].
Proof. vm_compute. repeat split; reflexivity. Qed.

(** C3 on the code.  The second call runs at the time of the first,
    against the entries the first one wrote, sends no request, and
    returns a longer list than the first. *)
Theorem repeated_query_differs :
  clock (snd firstCall) = clock world0 /\
  requests (snd secondCall) = requests (snd firstCall) /\
  option_map (@length GoogleEvent) (returned firstCall) = Some 3%nat /\
  option_map (@length GoogleEvent) (returned secondCall) = Some 4%nat /\
  returned secondCall <> returned firstCall.
Proof.
  assert (H1 : option_map (@length GoogleEvent) (returned firstCall)
               = Some 3%nat) by (vm_compute; reflexivity).
  assert (H2 : option_map (@length GoogleEvent) (returned secondCall)
               = Some 4%nat) by (vm_compute; reflexivity).
  repeat split; try (vm_compute; reflexivity); try assumption.
  intros Heq. rewrite Heq in H2. congruence.
Qed.

(** C2 on the code.  When the request for the first page fails, the
    notice is shown and the call ends with a [TypeError]: nothing is
    returned.  The same happens when the first page is full and the
    request for the second page fails: the events of the first page are
    not returned. *)
Theorem failed_request_throws :
  fst (listEvents (query 1 3) worldDown) = TypeError /\
  notices (snd (listEvents (query 1 3) worldDown))
  = ["Could not list Google Events"] /\
  fst (listEvents (query 1 3) worldDownLater) = TypeError /\
  notices (snd (listEvents (query 1 3) worldDownLater))
  = ["Could not list Google Events"] /\
  length (requests (snd (listEvents (query 1 3) worldDownLater))) = 2%nat.
Proof. vm_compute. repeat split; reflexivity. Qed.

End SampleRuns.

(** ** Day cache *)

Lemma loopDates_spec startDate endDate currentDate :
  In currentDate (loopDates startDate endDate) <->
  exists k, 0 <= k /\ currentDate = addDays k startDate /\
            currentDate <= endDate.
Proof.
  unfold loopDates. rewrite in_map_iff. split.
  - intros (k & <- & Hk). apply in_seq in Hk. exists (Z.of_nat k).
    split; [lia|]. split; [reflexivity|].
    assert (Z.of_nat k < (endDate - startDate) / msPerDay + 1) by lia.
    moment_arith.
  - intros (k & Hk & -> & Hle). exists (Z.to_nat k).
    rewrite Z2Nat.id by lia. split; [reflexivity|].
    apply in_seq. split; [lia|].
    assert (k < (endDate - startDate) / msPerDay + 1) by moment_arith.
    lia.
Qed.

(** With the dates [googleListEvents] passes, the loops visit the days
    of the range, in order. *)
Lemma loopDates_days s e :
  map dayOf (loopDates (startOfDay s) (endOfDay e))
  = seqZ (dayOf s) (daySpan s e).
Proof.
  unfold loopDates, seqZ, daySpan.
  change (@fmap list _ nat Z) with (@map nat Z).
  rewrite map_map.
  replace ((endOfDay e - startOfDay s) / msPerDay + 1)
    with (dayOf e - dayOf s + 1) by moment_arith.
  apply map_ext. intros k.
  rewrite dayOf_addDays, dayOf_startOfDay. lia.
Qed.

Lemma raiseRefreshInterval_interval s :
  refreshInterval (raiseRefreshInterval s) = effectiveInterval s.
Proof.
  unfold raiseRefreshInterval, effectiveInterval.
  destruct (negb (useCustomClient s) && (refreshInterval s <? 60));
    reflexivity.
Qed.

Lemma raiseRefreshInterval_idem s :
  raiseRefreshInterval (raiseRefreshInterval s) = raiseRefreshInterval s.
Proof.
  unfold raiseRefreshInterval.
  destruct (negb (useCustomClient s) && (refreshInterval s <? 60)) eqn:H;
    [|rewrite H; reflexivity].
  cbn. rewrite andb_false_r. reflexivity.
Qed.

Lemma effectiveInterval_raise s :
  effectiveInterval (raiseRefreshInterval s) = effectiveInterval s.
Proof.
  rewrite <- !raiseRefreshInterval_interval, raiseRefreshInterval_idem.
  reflexivity.
Qed.

Lemma set_settings_same w : set_settings (settings w) w = w.
Proof. destruct w. reflexivity. Qed.

Lemma checkLoop_result calendar dates cachedEventList w :
  fst (checkLoop calendar dates cachedEventList w)
  = if forallb (usable w calendar) (map dayOf dates)
    then Some (cachedEventList
                 ++ concat (map (cachedDay w calendar) (map dayOf dates)))
    else None.
Proof.
  revert cachedEventList w.
  induction dates as [|currentDate dates IH]; intros acc w; cbn.
  - rewrite app_nil_r. reflexivity.
  - unfold usable at 1, cachedDay at 1, cacheKey.
    destruct (cachedEvents w !! (dayOf currentDate, cal_id calendar))
      as [entry|]; [|reflexivity].
    unfold expired, addSeconds, msPerSecond. cbn [settings set_settings clock].
    rewrite raiseRefreshInterval_interval.
    destruct (updated entry + effectiveInterval (settings w) * 1000
              <? clock w); [reflexivity|].
    cbn [negb andb]. rewrite IH, <- app_assoc.
    unfold usable, cachedDay. cbn [settings set_settings cachedEvents clock].
    rewrite effectiveInterval_raise. reflexivity.
Qed.

(** A lookup changes nothing but the settings, and the settings only by
    raising the refresh interval. *)
Lemma checkLoop_world calendar dates cachedEventList w :
  snd (checkLoop calendar dates cachedEventList w) = w \/
  snd (checkLoop calendar dates cachedEventList w)
  = set_settings (raiseRefreshInterval (settings w)) w.
Proof.
  revert cachedEventList w.
  induction dates as [|currentDate dates IH]; intros acc w; cbn;
    [left; reflexivity|].
  destruct (cachedEvents w !! cacheKey currentDate calendar) as [entry|];
    [|left; reflexivity].
  destruct (expired _ entry _); [right; reflexivity|].
  right.
  destruct (IH (acc ++ events entry)
               (set_settings (raiseRefreshInterval (settings w)) w))
    as [-> | ->]; [reflexivity|].
  cbn. rewrite raiseRefreshInterval_idem. reflexivity.
Qed.

Lemma checkLoop_settings calendar dates cachedEventList w :
  settings (snd (checkLoop calendar dates cachedEventList w))
  = match dates with
    | [] => settings w
    | currentDate :: _ =>
        match cachedEvents w !! cacheKey currentDate calendar with
        | Some _ => raiseRefreshInterval (settings w)
        | None => settings w
        end
    end.
Proof.
  destruct dates as [|currentDate dates]; cbn; [reflexivity|].
  destruct (cachedEvents w !! cacheKey currentDate calendar) as [entry|];
    [|reflexivity].
  destruct (expired _ entry _); [reflexivity|].
  destruct (checkLoop_world calendar dates (cachedEventList ++ events entry)
              (set_settings (raiseRefreshInterval (settings w)) w))
    as [-> | ->]; cbn; [reflexivity|].
  apply raiseRefreshInterval_idem.
Qed.

Lemma loopDates_head startDate endDate :
  loopDates startDate endDate
  = if startDate <=? endDate
    then startDate :: tl (loopDates startDate endDate)
    else [].
Proof.
  unfold loopDates.
  destruct (Z.leb_spec startDate endDate) as [Hle|Hlt].
  - assert (Hn : exists n, Z.to_nat ((endDate - startDate) / msPerDay + 1)
                           = S n).
    { exists (Z.to_nat ((endDate - startDate) / msPerDay)).
      assert (0 <= (endDate - startDate) / msPerDay) by moment_arith. lia. }
    destruct Hn as [n ->]. cbn [seq map tl]. f_equal. moment_arith.
  - replace (Z.to_nat ((endDate - startDate) / msPerDay + 1)) with O;
      [reflexivity|].
    assert ((endDate - startDate) / msPerDay < 0) by moment_arith. lia.
Qed.

Lemma forallb_false_ex {A} (f : A -> bool) (l : list A) :
  forallb f l = false -> exists x, In x l /\ f x = false.
Proof.
  induction l as [|a l IH]; cbn; [discriminate|].
  destruct (f a) eqn:Ha; cbn.
  - intros H. destruct (IH H) as (x & Hx & Hf). eauto.
  - intros _. eauto.
Qed.

(** C7.  For the days from the day of [s] to the day of [e], the lookup
    returns nothing exactly when one of these days has no entry for the
    calendar, or has an entry older than the effective refresh interval;
    otherwise it returns the events of the entries, day after day. *)
Theorem cache_lookup_spec calendar s e w :
  let days := seqZ (dayOf s) (daySpan s e) in
  let found :=
    fst (checkForCachedEvents calendar (startOfDay s) (endOfDay e) w) in
  (found = None <->
   exists d,
     In d days /\
     (cachedEvents w !! (d, cal_id calendar) = None \/
      exists entry,
        cachedEvents w !! (d, cal_id calendar) = Some entry /\
        updated entry + effectiveInterval (settings w) * 1000 < clock w)) /\
  (found <> None ->
   found = Some (concat (map (cachedDay w calendar) days))).
Proof.
  cbn zeta. unfold checkForCachedEvents.
  rewrite checkLoop_result, loopDates_days. cbn [app].
  destruct (forallb (usable w calendar) (seqZ (dayOf s) (daySpan s e)))
    eqn:Hall.
  - split; [|reflexivity]. split; [discriminate|].
    intros (d & Hd & Hbad). exfalso.
    rewrite forallb_forall in Hall. specialize (Hall d Hd).
    unfold usable in Hall.
    destruct Hbad as [Hnone | (entry & Hentry & Hold)].
    + rewrite Hnone in Hall. discriminate.
    + rewrite Hentry in Hall. apply negb_true_iff, Z.ltb_ge in Hall. lia.
  - split; [|congruence]. split; [|reflexivity]. intros _.
    apply forallb_false_ex in Hall. destruct Hall as (d & Hd & Hbad).
    exists d. split; [assumption|]. unfold usable in Hbad.
    destruct (cachedEvents w !! (d, cal_id calendar)) as [entry|];
      [right|left; reflexivity].
    exists entry. split; [reflexivity|].
    apply negb_false_iff, Z.ltb_lt in Hbad. assumption.
Qed.

(** C10, as the code has it.  With the shared client and a refresh
    interval below 60, a lookup leaves the world as it was except for
    the settings, and the settings as they were except for the refresh
    interval, which it sets to 60 exactly when its loop starts and the
    FIRST day of the range has an entry for the calendar, and leaves
    alone otherwise; so the interval is overwritten only when a day of
    the range is cached, but not whenever one is. *)
Theorem lookup_raises_refresh_interval calendar startDate endDate w :
  useCustomClient (settings w) = false ->
  refreshInterval (settings w) < 60 ->
  let w' := snd (checkForCachedEvents calendar startDate endDate w) in
  w' = set_settings (settings w') w /\
  settings w'
  = (if firstDayCached w calendar startDate endDate
     then set_refreshInterval 60 (settings w)
     else settings w) /\
  googleApiToken (settings w') = googleApiToken (settings w) /\
  calendarBlackList (settings w') = calendarBlackList (settings w) /\
  useCustomClient (settings w') = useCustomClient (settings w) /\
  (refreshInterval (settings w') <> refreshInterval (settings w) ->
   refreshInterval (settings w') = 60 /\
   exists currentDate entry,
     In currentDate (loopDates startDate endDate) /\
     cachedEvents w !! cacheKey currentDate calendar = Some entry).
Proof.
  intros Hshared Hlow. cbn zeta. unfold checkForCachedEvents.
  assert (Hraise : raiseRefreshInterval (settings w)
                   = set_refreshInterval 60 (settings w)).
  { unfold raiseRefreshInterval. rewrite Hshared.
    apply Z.ltb_lt in Hlow. rewrite Hlow. reflexivity. }
  assert (Hsettings :
            settings (snd (checkLoop calendar (loopDates startDate endDate)
                                     [] w))
            = if firstDayCached w calendar startDate endDate
              then set_refreshInterval 60 (settings w)
              else settings w).
  { rewrite checkLoop_settings, Hraise. unfold firstDayCached.
    rewrite loopDates_head.
    destruct (startDate <=? endDate); [|reflexivity]. cbn [andb].
    destruct (cachedEvents w !! cacheKey startDate calendar); reflexivity. }
  split; [|split; [exact Hsettings|]].
  - destruct (checkLoop_world calendar (loopDates startDate endDate) [] w)
      as [-> | ->]; [symmetry; apply set_settings_same|].
    destruct w; reflexivity.
  - rewrite Hsettings.
    destruct (firstDayCached w calendar startDate endDate) eqn:Hfirst;
      cbn; (do 3 (split; [reflexivity|])); [|intros Hne; contradiction].
    intros _. split; [reflexivity|]. unfold firstDayCached in Hfirst.
    apply andb_true_iff in Hfirst. destruct Hfirst as [Hle Hentry].
    destruct (cachedEvents w !! cacheKey startDate calendar) as [entry|] eqn:He;
      [|discriminate].
    exists startDate, entry. split; [|assumption].
    rewrite loopDates_head, Hle. left. reflexivity.
Qed.

Lemma lookup_raises_refresh_interval_witness :
  refreshInterval
    (settings
       (snd (checkForCachedEvents Example.work (ofDay (Example.jan 1))
               (endOfDay (ofDay (Example.jan 2))) Example.worldLow)))
  = 60.
Proof.
  pose proof (lookup_raises_refresh_interval Example.work
                (ofDay (Example.jan 1)) (endOfDay (ofDay (Example.jan 2)))
                Example.worldLow eq_refl ltac:(vm_compute; reflexivity))
    as (_ & Hsettings & _).
  rewrite Hsettings. vm_compute. reflexivity.
Defined.

(** C10, as worded: "overwrites the refresh interval to 60 ... when at
    least one day of the range is present in the cache".  Not so: with
    an entry for the second day of the range and none for the first,
    the lookup stops at the first day and leaves the interval of ten
    seconds as it is. *)
Lemma lookup_with_later_day_cached_keeps_interval :
  (In (addDays 1 (ofDay (Example.jan 1)))
      (loopDates (ofDay (Example.jan 1)) (endOfDay (ofDay (Example.jan 2))))
   /\
   cachedEvents Example.worldSecondDay
     !! cacheKey (addDays 1 (ofDay (Example.jan 1))) Example.work
   = Some (mkCacheValue [] (Example.at_ (Example.jan 1) 9))) /\
  checkForCachedEvents Example.work (ofDay (Example.jan 1))
    (endOfDay (ofDay (Example.jan 2))) Example.worldSecondDay
  = (None, Example.worldSecondDay) /\
  refreshInterval (settings Example.worldSecondDay) = 10 /\
  ~ (forall calendar startDate endDate w,
       useCustomClient (settings w) = false ->
       refreshInterval (settings w) < 60 ->
       (exists currentDate entry,
          In currentDate (loopDates startDate endDate) /\
          cachedEvents w !! cacheKey currentDate calendar = Some entry) ->
       refreshInterval
         (settings (snd (checkForCachedEvents calendar startDate endDate w)))
       = 60).
Proof.
  assert (Hday : In (addDays 1 (ofDay (Example.jan 1)))
                    (loopDates (ofDay (Example.jan 1))
                               (endOfDay (ofDay (Example.jan 2)))) /\
                 cachedEvents Example.worldSecondDay
                   !! cacheKey (addDays 1 (ofDay (Example.jan 1)))
                               Example.work
                 = Some (mkCacheValue [] (Example.at_ (Example.jan 1) 9))).
  { split; [vm_compute; right; left; reflexivity|].
    vm_compute. reflexivity. }
  assert (Hrun : checkForCachedEvents Example.work (ofDay (Example.jan 1))
                   (endOfDay (ofDay (Example.jan 2))) Example.worldSecondDay
                 = (None, Example.worldSecondDay))
    by (vm_compute; reflexivity).
  split; [exact Hday|]. split; [exact Hrun|]. split; [reflexivity|].
  intros Hclaim.
  specialize (Hclaim Example.work (ofDay (Example.jan 1))
                (endOfDay (ofDay (Example.jan 2))) Example.worldSecondDay
                eq_refl ltac:(vm_compute; reflexivity)
                (ex_intro _ _ (ex_intro _ _ Hday))).
  rewrite Hrun in Hclaim. vm_compute in Hclaim. discriminate.
Qed.

(** ** Sorting *)

Lemma insertBy_perm x l : Permutation (insertBy x l) (x :: l).
Proof.
  induction l as [|y l IH]; cbn; [reflexivity|].
  destruct (fst y <? fst x); [|reflexivity].
  rewrite IH. apply perm_swap.
Qed.

Lemma sortCriteria_perm keyed :
  Permutation (fold_right insertBy [] keyed) keyed.
Proof.
  induction keyed as [|x keyed IH]; cbn; [reflexivity|].
  rewrite insertBy_perm, IH. reflexivity.
Qed.

Lemma validCriteria_Some key l keyed :
  validCriteria key l = Some keyed ->
  map snd keyed = l /\
  Forall (fun x => key (snd x) = Some (fst x)) keyed.
Proof.
  revert keyed. induction l as [|e l IH]; intros keyed; cbn.
  - intros [= <-]. split; [reflexivity|constructor].
  - destruct (key e) as [k|] eqn:Hk; [|discriminate].
    destruct (validCriteria key l) as [keyed'|]; [|discriminate].
    intros [= <-]. destruct (IH keyed' eq_refl) as [Hmap Hall].
    cbn. split; [rewrite Hmap; reflexivity|].
    constructor; [exact Hk|exact Hall].
Qed.

Lemma validCriteria_valid key l :
  Forall (fun e => key e <> None) l ->
  exists keyed, validCriteria key l = Some keyed.
Proof.
  induction 1 as [|e l He Hl [keyed IH]]; cbn; [eauto|].
  destruct (key e) as [k|]; [|contradiction]. rewrite IH. eauto.
Qed.

Lemma orderBy_perm engine key l : Permutation (orderBy engine key l) l.
Proof.
  unfold orderBy.
  destruct (validCriteria key l) as [keyed|] eqn:Hkeyed.
  - apply validCriteria_Some in Hkeyed. destruct Hkeyed as [<- _].
    apply Permutation_map. apply sortCriteria_perm.
  - rewrite sortInconsistent_perm, map_map. cbn [snd].
    rewrite map_id. reflexivity.
Qed.

Lemma insertBy_sorted x l :
  StronglySorted criteriaLe l ->
  StronglySorted criteriaLe (insertBy x l).
Proof.
  intros Hs. induction Hs as [|y l Hs IH Hy]; cbn.
  - constructor; constructor.
  - unfold criteriaLe in *. destruct (Z.ltb_spec (fst y) (fst x)) as [Hlt|Hge].
    + constructor; [exact IH|].
      rewrite insertBy_perm. constructor; [lia|assumption].
    + constructor; [constructor; assumption|].
      constructor; [lia|].
      eapply Forall_impl; [exact Hy|]. intros z Hz. cbn beta in *. lia.
Qed.

Lemma sortCriteria_sorted keyed :
  StronglySorted criteriaLe (fold_right insertBy [] keyed).
Proof.
  induction keyed as [|x keyed IH]; cbn; [constructor|].
  apply insertBy_sorted. exact IH.
Qed.

Lemma criteria_sorted_events key keyed :
  Forall (fun x => key (snd x) = Some (fst x)) keyed ->
  StronglySorted criteriaLe keyed ->
  StronglySorted (keyLe key) (map snd keyed).
Proof.
  intros Hkeys Hs. induction Hs as [|x keyed Hs IH Hx]; cbn;
    [constructor|].
  apply Forall_cons_iff in Hkeys. destruct Hkeys as [Hkx Hkeys].
  constructor; [apply IH; assumption|].
  rewrite List.Forall_forall in *. intros e He.
  apply in_map_iff in He. destruct He as (y & <- & Hy).
  unfold keyLe. rewrite Hkx, (Hkeys y Hy). apply (Hx y Hy).
Qed.

Lemma orderBy_sorted engine key l :
  Forall (fun e => key e <> None) l ->
  StronglySorted (keyLe key) (orderBy engine key l).
Proof.
  intros Hvalid. unfold orderBy.
  destruct (validCriteria_valid key l Hvalid) as [keyed Hkeyed].
  rewrite Hkeyed. apply validCriteria_Some in Hkeyed.
  destruct Hkeyed as [_ Hkeys].
  apply criteria_sorted_events; [|apply sortCriteria_sorted].
  rewrite sortCriteria_perm. exact Hkeys.
Qed.

(** For an event with exactly one of the two, the key the code sorts
    by is the effective start. *)
Lemma startKey_effectiveStart utcOffset event :
  oneOf (start event) ->
  startKey utcOffset event = effectiveStart utcOffset event /\
  startKey utcOffset event <> None.
Proof.
  unfold oneOf, startKey, effectiveStart.
  destruct (date (start event)), (dateTime (start event));
    intros H; try contradiction; split; congruence.
Qed.


(** ** Paged fetch *)

(** One pass of the fetch loop, in terms of [callRequest]. *)
Lemma requestLoop_callRequest calendar startString endString tmpRequestResult
      totalEventList w :
  requestLoop (transport w) calendar startString endString tmpRequestResult
              totalEventList w
  = let url := nextUrl calendar startString endString tmpRequestResult in
    match callRequest url w with
    | (None, w1) => (TypeError, createNotice "Could not list Google Events" w1)
    | (Some page, w1) =>
        let totalEventList' :=
          totalEventList ++ stampAndFilter calendar (items page) in
        if (length (items page) =? resultSizes)%nat
        then requestLoop (transport w1) calendar startString endString
                         (Some page) totalEventList' w1
        else (Normal totalEventList', w1)
    end.
Proof.
  unfold callRequest. destruct (transport w) as [|server rest]; cbn zeta;
    [reflexivity|].
  cbn [requestLoop].
  destruct (body (server (nextUrl calendar startString endString
                                  tmpRequestResult))); reflexivity.
Qed.

(** Whatever was fetched before, a pass whose request fails shows the
    notice and throws. *)
Lemma requestLoop_failure calendar startString endString tmpRequestResult
      totalEventList w :
  fst (callRequest (nextUrl calendar startString endString tmpRequestResult)
                   w) = None ->
  let r := requestLoop (transport w) calendar startString endString
                       tmpRequestResult totalEventList w in
  fst r = TypeError /\
  notices (snd r) = notices w ++ ["Could not list Google Events"].
Proof.
  intros Hfail. cbn zeta. rewrite requestLoop_callRequest. cbn zeta.
  destruct (callRequest _ w) as [[page|] w1] eqn:Hcall;
    cbn [fst] in Hfail; [discriminate|].
  split; [reflexivity|].
  unfold callRequest in Hcall.
  destruct (transport w) as [|server rest]; inversion Hcall; reflexivity.
Qed.

(** ** What the stages keep *)

Lemma sent_cachedEvents url elapsed rest w :
  cachedEvents (sent url elapsed rest w) = cachedEvents w.
Proof. reflexivity. Qed.

(** The fetch returns events that passed [stampAndFilter], and leaves
    the cache alone however it ends. *)
Lemma requestLoop_filtered (P : GoogleEvent -> Prop) calendar :
  (forall pageItems, Forall P (stampAndFilter calendar pageItems)) ->
  forall servers startString endString tmpRequestResult totalEventList w,
    Forall P totalEventList ->
    let r := requestLoop servers calendar startString endString
                         tmpRequestResult totalEventList w in
    cachedEvents (snd r) = cachedEvents w /\
    (forall l, fst r = Normal l -> Forall P l).
Proof.
  intros HP servers.
  induction servers as [|server rest IH];
    intros startString endString prev acc w Hacc; cbn;
    [split; [reflexivity|discriminate]|].
  destruct (body (server (nextUrl calendar startString endString prev)))
    as [page|]; [|split; [reflexivity|discriminate]].
  destruct (length (items page) =? resultSizes)%nat.
  - edestruct IH as [Hc Hl];
      [apply Forall_app; split; [exact Hacc|apply HP]|].
    split; [rewrite Hc; reflexivity|exact Hl].
  - split; [reflexivity|]. intros l [= <-].
    apply Forall_app. split; [assumption|apply HP].
Qed.

Lemma stampAndFilter_notCancelled calendar pageItems :
  Forall (fun e => notCancelled e = true) (stampAndFilter calendar pageItems).
Proof.
  unfold stampAndFilter. apply List.Forall_forall. intros e He.
  apply filter_In in He. tauto.
Qed.

Lemma requestEventsFromApi_notCancelled calendar startString endString w :
  let r := requestEventsFromApi calendar startString endString w in
  cachedEvents (snd r) = cachedEvents w /\
  (forall l, fst r = Normal l -> Forall (fun e => notCancelled e = true) l).
Proof.
  unfold requestEventsFromApi. destruct (negb (loggedIn w)).
  - split; [reflexivity|]. intros l [= <-]. constructor.
  - apply requestLoop_filtered; [|constructor].
    apply stampAndFilter_notCancelled.
Qed.

(** The expander changes title, tag and start, never the status. *)
Lemma stateAfter_status tmp0 start0 totalDays k :
  status (tmp (stateAfter tmp0 start0 totalDays k)) = status tmp0 /\
  Forall (fun c => status c = status tmp0)
         (extraEventsTmp (stateAfter tmp0 start0 totalDays k)).
Proof.
  unfold stateAfter. cbn [tmp extraEventsTmp]. split.
  - destruct (k =? 0); reflexivity.
  - apply List.Forall_forall. intros c Hc. apply in_map_iff in Hc.
    destruct Hc as (i & <- & _). reflexivity.
Qed.

Lemma resolveOne_status date endDate tmp0 :
  status (fst (resolveOne date endDate tmp0)) = status tmp0 /\
  Forall (fun c => status c = status tmp0) (snd (resolveOne date endDate tmp0)).
Proof.
  unfold resolveOne.
  destruct (dateTime (start tmp0)) as [start0|] eqn:Hs;
    [|split; [reflexivity|constructor]].
  destruct (dateTime (end_ tmp0)) as [end0|];
    [|split; [reflexivity|constructor]].
  destruct (isSameDay start0 end0); [split; [reflexivity|constructor]|].
  rewrite cloneDays_stateAfter by assumption. cbn [fst snd].
  destruct (stateAfter_status tmp0 start0
              (diffDays (endOfDay end0) (startOfDay start0) + 1)
              (Z.max 1 (daySpan start0 end0))) as [Htmp Hextra].
  split; [exact Htmp|].
  apply List.Forall_forall. intros c Hc. apply filter_In in Hc.
  rewrite List.Forall_forall in Hextra. apply Hextra. tauto.
Qed.

Lemma resolveMultiDayEventsHelper_notCancelled totalEventList date endDate :
  Forall (fun e => notCancelled e = true) totalEventList ->
  Forall (fun e => notCancelled e = true)
         (resolveMultiDayEventsHelper totalEventList date endDate).
Proof.
  intros Hl. unfold resolveMultiDayEventsHelper. cbn zeta.
  rewrite !map_map. apply Forall_app. split.
  - apply List.Forall_forall. intros e He. apply in_map_iff in He.
    destruct He as (tmp0 & <- & Hin).
    rewrite List.Forall_forall in Hl. specialize (Hl tmp0 Hin).
    unfold notCancelled in *.
    rewrite (proj1 (resolveOne_status date endDate tmp0)). exact Hl.
  - apply List.Forall_forall. intros e He. apply in_concat in He.
    destruct He as (cs & Hcs & He). apply in_map_iff in Hcs.
    destruct Hcs as (tmp0 & <- & Hin).
    rewrite List.Forall_forall in Hl. specialize (Hl tmp0 Hin).
    pose proof (proj2 (resolveOne_status date endDate tmp0)) as Hst.
    rewrite List.Forall_forall in Hst. unfold notCancelled in *.
    rewrite (Hst e He). exact Hl.
Qed.

(** [_.groupBy] puts under a key the events with that key, in order. *)
Lemma groupBy_fold (key : GoogleEvent -> Z) (l : list GoogleEvent)
      (groups : gmap Z (list GoogleEvent)) (k : Z) :
  default [] (fold_left
                (fun (groups : gmap Z (list GoogleEvent)) event =>
                   <[key event := default [] (groups !! key event)
                                    ++ [event]]> groups)
                l groups !! k)
  = default [] (groups !! k) ++ List.filter (fun e => key e =? k) l.
Proof.
  revert groups. induction l as [|a l IH]; intros groups; cbn [fold_left].
  - cbn. rewrite app_nil_r. reflexivity.
  - rewrite IH. cbn [List.filter].
    destruct (Z.eqb_spec (key a) k) as [->|Hne].
    + rewrite lookup_insert_eq. cbn. rewrite <- app_assoc.
      reflexivity.
    + rewrite lookup_insert_ne by assumption. reflexivity.
Qed.

Lemma groupBy_lookup key l k :
  default [] (groupBy key l !! k) = List.filter (fun e => key e =? k) l.
Proof. unfold groupBy. rewrite groupBy_fold, lookup_empty. reflexivity. Qed.

(** The entry the fetch path leaves under a key: a new one for the days
    the loop visits, the old one elsewhere. *)
Lemma populate_lookup calendar (groupedEvents : gmap Z (list GoogleEvent))
      startDate endDate w (d : Z) (c : string) :
  cachedEvents (populate calendar groupedEvents startDate endDate w) !! (d, c)
  = if existsb (fun currentDate => dayOf currentDate =? d)
               (loopDates startDate endDate)
       && String.eqb (cal_id calendar) c
    then Some (mkCacheValue (default [] (groupedEvents !! d)) (clock w))
    else cachedEvents w !! (d, c).
Proof.
  unfold populate, cacheKey. cbn [cachedEvents set_cachedEvents].
  generalize (cachedEvents w) as cache.
  induction (loopDates startDate endDate) as [|currentDate dates IH];
    intros cache; cbn [fold_left existsb]; [reflexivity|].
  rewrite IH.
  destruct (existsb (fun currentDate => dayOf currentDate =? d) dates)
    eqn:Hlater;
    destruct (String.eqb_spec (cal_id calendar) c) as [Hc|Hc];
    destruct (Z.eqb_spec (dayOf currentDate) d) as [Hd|Hd];
    cbn [orb andb]; try reflexivity;
    first [ rewrite lookup_insert_ne by congruence; reflexivity
          | subst; rewrite lookup_insert_eq; reflexivity ].
Qed.

Lemma checkForCachedEvents_cachedEvents calendar startDate endDate w :
  cachedEvents (snd (checkForCachedEvents calendar startDate endDate w))
  = cachedEvents w.
Proof.
  unfold checkForCachedEvents.
  destruct (checkLoop_world calendar (loopDates startDate endDate) [] w)
    as [-> | ->]; reflexivity.
Qed.

Lemma cachedDay_clean w calendar d :
  cacheClean w -> Forall (fun e => notCancelled e = true) (cachedDay w calendar d).
Proof.
  intros Hclean. unfold cachedDay.
  destruct (cachedEvents w !! (d, cal_id calendar)) as [entry|] eqn:He;
    [eapply Hclean; eassumption|constructor].
Qed.

Lemma checkForCachedEvents_clean calendar startDate endDate w l :
  cacheClean w ->
  fst (checkForCachedEvents calendar startDate endDate w) = Some l ->
  Forall (fun e => notCancelled e = true) l.
Proof.
  intros Hclean. unfold checkForCachedEvents. rewrite checkLoop_result.
  destruct (forallb _ _); [|discriminate]. intros [= <-]. cbn [app].
  apply List.Forall_forall. intros e He. apply in_concat in He.
  destruct He as (day & Hday & He). apply in_map_iff in Hday.
  destruct Hday as (d & <- & _).
  pose proof (cachedDay_clean w calendar d Hclean) as Hd.
  rewrite List.Forall_forall in Hd. auto.
Qed.

Lemma Forall_filter_keeps {A} (P : A -> Prop) (f : A -> bool) (l : list A) :
  Forall P l -> Forall P (List.filter f l).
Proof.
  rewrite !List.Forall_forall. intros H x Hx. apply filter_In in Hx.
  apply H. tauto.
Qed.

(** The fetch path returns no event tagged ["delete"]. *)
Lemma cacheAndFilter_drops_delete getColorNameFromEvent calendar startDate
      endDate includeColors excludeColors fetched w l :
  fst (cacheAndFilter getColorNameFromEvent calendar startDate endDate
                      includeColors excludeColors fetched w) = Normal l ->
  Forall (fun e => eventType e <> Some "delete") l.
Proof.
  unfold cacheAndFilter. cbn [fst]. intros [= <-].
  apply List.Forall_forall. intros e He. apply filter_In in He.
  destruct He as [_ Hkeep]. unfold freshFilter, isDelete in Hkeep.
  intros Htag. rewrite Htag in Hkeep. cbn in Hkeep. discriminate.
Qed.

Section PipelineProperties.

Variable allColorNames : list string.
Variable getColorNameFromEvent : GoogleEvent -> string.
Variable utcOffset : Z.

Lemma cacheAndFilter_clean calendar startDate endDate includeColors
      excludeColors fetched w :
  cacheClean w ->
  Forall (fun e => notCancelled e = true) fetched ->
  let r := cacheAndFilter getColorNameFromEvent calendar startDate endDate
                          includeColors excludeColors fetched w in
  cacheClean (snd r) /\
  exists l, fst r = Normal l /\ Forall (fun e => notCancelled e = true) l.
Proof.
  intros Hclean Hfetched. unfold cacheAndFilter. cbn [fst snd].
  pose proof (resolveMultiDayEventsHelper_notCancelled fetched
                (Some startDate) (Some endDate) Hfetched) as Htotal.
  split.
  - intros [d c] entry. rewrite populate_lookup.
    destruct (_ && _); [|apply Hclean].
    intros [= <-]. cbn [events]. rewrite groupBy_lookup.
    apply Forall_filter_keeps. exact Htotal.
  - eexists. split; [reflexivity|].
    apply Forall_filter_keeps. exact Htotal.
Qed.

Lemma googleListEventsByCalendar_clean calendar startDate endDate
      includeColors excludeColors w :
  cacheClean w ->
  let r := googleListEventsByCalendar getColorNameFromEvent calendar
             startDate endDate includeColors excludeColors w in
  cacheClean (snd r) /\
  (forall l, fst r = Normal l -> Forall (fun e => notCancelled e = true) l).
Proof.
  intros Hclean. unfold googleListEventsByCalendar.
  pose proof (checkForCachedEvents_cachedEvents calendar startDate endDate w)
    as Hcache.
  pose proof (checkForCachedEvents_clean calendar startDate endDate w)
    as Hhit.
  destruct (checkForCachedEvents calendar startDate endDate w)
    as [[alreadyCachedEvents|] w1]; cbn [fst snd] in *.
  - split.
    + intros key entry. rewrite Hcache. apply Hclean.
    + intros l [= <-]. apply Forall_filter_keeps. auto.
  - assert (Hclean1 : cacheClean w1)
      by (intros key entry; rewrite Hcache; apply Hclean).
    unfold bind.
    pose proof (requestEventsFromApi_notCancelled calendar startDate endDate
                  w1) as [Hcache2 Hfetched].
    destruct (requestEventsFromApi calendar startDate endDate w1)
      as [[fetched|] w2]; cbn [fst snd] in *.
    + assert (Hclean2 : cacheClean w2)
        by (intros key entry; rewrite Hcache2; apply Hclean1).
      destruct (cacheAndFilter_clean calendar startDate endDate includeColors
                  excludeColors fetched w2 Hclean2 (Hfetched _ eq_refl))
        as (Hc & l & Hl & Hfl).
      split; [exact Hc|]. intros l' Hl'. rewrite Hl in Hl'.
      injection Hl' as <-. exact Hfl.
    + split; [|discriminate].
      intros key entry; rewrite Hcache2; apply Hclean1.
Qed.

Lemma collectEvents_clean calendarList startDate endDate includeColors
      excludeColors eventList w :
  cacheClean w ->
  Forall (fun e => notCancelled e = true) eventList ->
  let r := collectEvents getColorNameFromEvent calendarList startDate endDate
                         includeColors excludeColors eventList w in
  cacheClean (snd r) /\
  (forall l, fst r = Normal l -> Forall (fun e => notCancelled e = true) l).
Proof.
  revert eventList w.
  induction calendarList as [|calendar calendarList IH];
    intros eventList w Hclean Hlist; cbn [collectEvents].
  - cbn. split; [assumption|]. intros l [= <-]. assumption.
  - unfold bind.
    pose proof (googleListEventsByCalendar_clean calendar startDate endDate
                  includeColors excludeColors w Hclean) as [Hc Hl].
    destruct (googleListEventsByCalendar getColorNameFromEvent calendar
                startDate endDate includeColors excludeColors w)
      as [[events|] w1]; cbn [fst snd] in *.
    + apply IH; [assumption|].
      apply Forall_app. split; [assumption|]. apply Hl. reflexivity.
    + split; [assumption|discriminate].
Qed.

Lemma googleListCalendars_cachedEvents w :
  cachedEvents (snd (googleListCalendars w)) = cachedEvents w.
Proof.
  unfold googleListCalendars.
  destruct (cachedCalendars w) as [stored|]; [|reflexivity].
  destruct (0 <? length stored)%nat; [reflexivity|].
  destruct (negb (colorsAndTokenLoad w)); [reflexivity|].
  destruct (calendarListResponse w) as [calendarList|]; [|reflexivity].
  destruct (calendarItems calendarList); reflexivity.
Qed.

Lemma mutateMoment_frame f v w :
  let w' := snd (mutateMoment f v w) in
  settings w' = settings w /\ cachedEvents w' = cachedEvents w /\
  cachedCalendars w' = cachedCalendars w /\ clock w' = clock w /\
  loggedIn w' = loggedIn w /\
  calendarListResponse w' = calendarListResponse w /\
  transport w' = transport w /\ notices w' = notices w /\
  requests w' = requests w /\
  colorsAndTokenLoad w' = colorsAndTokenLoad w /\
  sortEngine w' = sortEngine w.
Proof. destruct v; cbn; repeat split; reflexivity. Qed.

(** The first lines of [googleListEvents] change the moments of the
    caller and nothing else. *)
Lemma normalizeDates_frame options w :
  let w' := snd (normalizeDates options w) in
  settings w' = settings w /\ cachedEvents w' = cachedEvents w /\
  cachedCalendars w' = cachedCalendars w /\ clock w' = clock w /\
  loggedIn w' = loggedIn w /\
  calendarListResponse w' = calendarListResponse w /\
  transport w' = transport w /\ notices w' = notices w /\
  requests w' = requests w /\
  colorsAndTokenLoad w' = colorsAndTokenLoad w /\
  sortEngine w' = sortEngine w.
Proof.
  cbn zeta. unfold normalizeDates.
  destruct (startDate options), (endDate options); cbn;
    repeat split; reflexivity.
Qed.

(** [googleListEvents], step by step. *)
Lemma googleListEvents_steps options w :
  googleListEvents allColorNames getColorNameFromEvent utcOffset options w
  = match googleListCalendars (snd (normalizeDates options w)) with
    | (Normal calendarList, w1) =>
        match collectEvents getColorNameFromEvent
                (selectCalendars
                   (fst (splitColors allColorNames (include options)))
                   (fst (splitColors allColorNames (exclude options)))
                   calendarList)
                (fst (fst (normalizeDates options w)))
                (snd (fst (normalizeDates options w)))
                (snd (splitColors allColorNames (include options)))
                (snd (splitColors allColorNames (exclude options))) [] w1
        with
        | (Normal eventList, w2) =>
            (Normal (orderBy (sortEngine w2) (startKey utcOffset) eventList),
             w2)
        | (Throw e, w2) => (Throw e, w2)
        end
    | (Throw e, w1) => (Throw e, w1)
    end.
Proof.
  unfold googleListEvents, bind.
  destruct (normalizeDates options w) as [[startDate endDate] w0].
  cbn [fst snd]. reflexivity.
Qed.

(** The shape of a call of [googleListEvents] that returns. *)
Lemma googleListEvents_returns options w l w' :
  googleListEvents allColorNames getColorNameFromEvent utcOffset options w
  = (Normal l, w') ->
  exists eventList,
    l = orderBy (sortEngine w') (startKey utcOffset) eventList.
Proof.
  rewrite googleListEvents_steps.
  destruct (googleListCalendars _) as [[calendarList|e] w1]; [|discriminate].
  destruct (collectEvents _ _ _ _ _ _ _ _) as [[eventList|e] w2];
    [|discriminate].
  intros [= <- <-]. exists eventList. reflexivity.
Qed.

Lemma googleListEvents_clean options w :
  cacheClean w ->
  let r := googleListEvents allColorNames getColorNameFromEvent utcOffset
                            options w in
  cacheClean (snd r) /\
  (forall l, fst r = Normal l -> Forall (fun e => notCancelled e = true) l).
Proof.
  intros Hclean. cbn zeta. rewrite googleListEvents_steps.
  pose proof (normalizeDates_frame options w) as (_ & Hcache0 & _).
  pose proof (googleListCalendars_cachedEvents
                (snd (normalizeDates options w))) as Hcache.
  assert (Hclean1 : cacheClean (snd (googleListCalendars
                                       (snd (normalizeDates options w)))))
    by (intros key entry; rewrite Hcache, Hcache0; apply Hclean).
  destruct (googleListCalendars _) as [[calendarList|e] w1];
    cbn [fst snd] in *; [|split; [assumption|discriminate]].
  match goal with
  | |- context [collectEvents ?g ?cl ?s ?e ?ic ?ec [] w1] =>
      pose proof (collectEvents_clean cl s e ic ec [] w1 Hclean1
                    (List.Forall_nil _)) as [Hc Hl];
      destruct (collectEvents g cl s e ic ec [] w1) as [[eventList|e'] w2]
  end; cbn [fst snd] in *.
  - split; [assumption|]. intros l [= <-].
    rewrite orderBy_perm. apply Hl. reflexivity.
  - split; [assumption|discriminate].
Qed.

End PipelineProperties.

Lemma notCancelled_spec e : notCancelled e = true <-> status e <> "cancelled".
Proof.
  unfold notCancelled. rewrite negb_true_iff.
  destruct (String.eqb_spec (status e) "cancelled"); split; congruence.
Qed.

Lemma reachable_cacheClean allColorNames getColorNameFromEvent utcOffset w :
  reachable allColorNames getColorNameFromEvent utcOffset w -> cacheClean w.
Proof.
  induction 1 as [s now logged calendars servers objects engine
                 |options w _ IH
                 |w _ IH
                 |w w' _ IH Hsame].
  - intros key entry. cbn. rewrite lookup_empty. discriminate.
  - apply googleListEvents_clean. exact IH.
  - intros key entry. cbn. rewrite lookup_empty. discriminate.
  - intros key entry. rewrite Hsame. apply IH.
Qed.

(** C8.  In every world the plugin can be in, no cached event is
    cancelled, a fetch that returns returns no cancelled event, and a
    call of [googleListEvents] that returns, from the cache or after
    fetching, returns no cancelled event. *)
Theorem cancelled_events_never_listed allColorNames getColorNameFromEvent
        utcOffset w :
  reachable allColorNames getColorNameFromEvent utcOffset w ->
  (forall key entry,
     cachedEvents w !! key = Some entry ->
     Forall (fun e => status e <> "cancelled") (events entry)) /\
  (forall calendar startString endString l,
     fst (requestEventsFromApi calendar startString endString w) = Normal l ->
     Forall (fun e => status e <> "cancelled") l) /\
  (forall options l,
     fst (googleListEvents allColorNames getColorNameFromEvent utcOffset
                           options w) = Normal l ->
     Forall (fun e => status e <> "cancelled") l).
Proof.
  intros Hreach. apply reachable_cacheClean in Hreach.
  assert (Himpl : forall l, Forall (fun e => notCancelled e = true) l ->
                            Forall (fun e => status e <> "cancelled") l).
  { intros l Hl. eapply Forall_impl; [exact Hl|].
    intros e. apply notCancelled_spec. }
  split; [|split].
  - intros key entry Hentry. apply Himpl. eapply Hreach. exact Hentry.
  - intros calendar startString endString l Hl. apply Himpl.
    eapply requestEventsFromApi_notCancelled. exact Hl.
  - intros options l Hl. apply Himpl.
    eapply googleListEvents_clean; [exact Hreach|exact Hl].
Qed.

Lemma StronglySorted_impl_in {A} (R R' : A -> A -> Prop) (l : list A) :
  (forall a b, In a l -> In b l -> R a b -> R' a b) ->
  StronglySorted R l -> StronglySorted R' l.
Proof.
  intros Himpl Hs. induction Hs as [|a l Hs IH Ha]; constructor.
  - apply IH. intros x y Hx Hy. apply Himpl; right; assumption.
  - rewrite List.Forall_forall in *. intros b Hb.
    apply Himpl; [left; reflexivity|right; assumption|auto].
Qed.

(** C9, as the code has it.  A list that [googleListEvents] returns,
    whose events have exactly one of [date] and [dateTime] as start, is
    sorted by the effective start in which an all-day date counts as
    midnight UTC: by that measure no event starts after one that
    follows it. *)
Theorem listEvents_sorted allColorNames getColorNameFromEvent utcOffset
        options w l :
  fst (googleListEvents allColorNames getColorNameFromEvent utcOffset
                        options w) = Normal l ->
  Forall (fun e => oneOf (start e)) l ->
  StronglySorted (startsNoLater utcOffset) l.
Proof.
  intros Hret Hone.
  destruct (googleListEvents allColorNames getColorNameFromEvent utcOffset
              options w) as [c w'] eqn:Hcall.
  cbn [fst] in Hret. subst c.
  apply googleListEvents_returns in Hcall.
  destruct Hcall as (eventList & ->).
  apply StronglySorted_impl_in with (R := keyLe (startKey utcOffset)).
  - intros a b Ha Hb. rewrite List.Forall_forall in Hone.
    unfold keyLe, startsNoLater.
    rewrite (proj1 (startKey_effectiveStart utcOffset a (Hone a Ha))).
    rewrite (proj1 (startKey_effectiveStart utcOffset b (Hone b Hb))).
    tauto.
  - apply orderBy_sorted. rewrite orderBy_perm in Hone.
    eapply Forall_impl; [exact Hone|].
    intros e He. apply startKey_effectiveStart. exact He.
Qed.

Lemma cancelled_events_never_listed_witness :
  Forall (fun e => status e <> "cancelled") Example.mixedList.
Proof.
  apply (cancelled_events_never_listed Example.colorNames Example.colorOf 0
           Example.worldMixed
           (reachable_initial _ _ _ _ _ _ _ _ _ _))
    with (options := Example.query 1 3).
  vm_compute. reflexivity.
Defined.

Lemma listEvents_sorted_witness :
  StronglySorted (startsNoLater (- 5 * 3600000)) Example.nightList.
Proof.
  apply (listEvents_sorted Example.colorNames Example.colorOf
           (- 5 * 3600000) (Example.query 1 2) Example.worldNight).
  - vm_compute. reflexivity.
  - vm_compute. repeat constructor.
Defined.

(** C9 as the claim words it fails.  Five hours behind UTC, the query
    for Jan-01 to Jan-02 against a calendar with an event on Jan-01 at
    22:00 and the all-day event of Jan-02 returns the all-day event
    first: read as midnight UTC it starts on Jan-01 at 19:00, while the
    midnight at which Jan-02 starts for the user is after 22:00. *)
Lemma listEvents_not_sorted_by_local_midnight :
  option_map (map summary)
    (returned (Example.listEventsWest (Example.query 1 2)
                                      Example.worldNight))
  = Some ["Holiday"; "Night"] /\
  ~ (forall allColorNames getColorNameFromEvent utcOffset options w l,
       fst (googleListEvents allColorNames getColorNameFromEvent utcOffset
                             options w) = Normal l ->
       Forall (fun e => oneOf (start e)) l ->
       StronglySorted startsNoLaterLocally l).
Proof.
  split; [vm_compute; reflexivity|].
  intros Hsorted.
  specialize (Hsorted Example.colorNames Example.colorOf (- 5 * 3600000)
                      (Example.query 1 2) Example.worldNight
                      Example.nightList).
  assert (Hs : StronglySorted startsNoLaterLocally Example.nightList).
  { apply Hsorted.
    - vm_compute. reflexivity.
    - vm_compute. repeat constructor. }
  vm_compute in Hs. inversion Hs as [|a l _ Hfirst]; subst.
  inversion Hfirst as [|b l' Hle _]; subst.
  apply Hle. reflexivity.
Qed.

(** ** The fetch path and the range *)

Lemma inRange_spec startDate endDate event m :
  dateTime (start event) = Some m ->
  inRange (Some startDate) (Some endDate) event = true <->
  dayOf startDate <= dayOf m < dayOf endDate.
Proof.
  intros Hm. unfold inRange. rewrite Hm.
  destruct (isBeforeDay m startDate) eqn:Hb.
  - apply isBeforeDay_spec in Hb. split; [discriminate|lia].
  - apply not_true_iff_false in Hb. rewrite isBeforeDay_spec in Hb.
    destruct (isSameOrAfterDay m endDate) eqn:Ha.
    + apply isSameOrAfterDay_spec in Ha. split; [discriminate|lia].
    + apply not_true_iff_false in Ha. rewrite isSameOrAfterDay_spec in Ha.
      split; [lia|reflexivity].
Qed.

(** The occurrences an event contributes start inside the range. *)
Lemma resolveOne_inside startDate endDate tmp0 c :
  In c (snd (resolveOne (Some startDate) (Some endDate) tmp0)) ->
  exists m, dateTime (start c) = Some m /\
            dayOf startDate <= dayOf m < dayOf endDate.
Proof.
  unfold resolveOne.
  destruct (dateTime (start tmp0)) as [start0|] eqn:Hs; [|contradiction].
  destruct (dateTime (end_ tmp0)) as [end0|]; [|contradiction].
  destruct (isSameDay start0 end0); [contradiction|].
  rewrite cloneDays_stateAfter by assumption. cbn [snd stateAfter extraEventsTmp].
  intros Hc. apply filter_In in Hc. destruct Hc as [Hc Hin].
  apply in_map_iff in Hc. destruct Hc as (i & <- & _).
  eexists. split; [reflexivity|].
  eapply inRange_spec; [|exact Hin]. reflexivity.
Qed.

Lemma existsb_dayOf dates d :
  existsb (fun currentDate => dayOf currentDate =? d) dates = true <->
  exists currentDate, In currentDate dates /\ dayOf currentDate = d.
Proof.
  rewrite existsb_exists. split; intros (x & Hx & Hd); exists x;
    (split; [assumption|]); apply Z.eqb_eq; assumption.
Qed.

(** C4, as the code has it.  When the lookup misses and the fetch
    returns, the list returned is the filtered list of the fetched
    events, rewritten by the expander, followed by their occurrences;
    every occurrence in it starts on a day from the day of [startDate]
    up to, and not including, the day of [endDate].  The cache gets an
    entry for each day the loop from [startDate] to [endDate] visits,
    holding the events of that same list (before the filter) grouped
    under that day; every other entry, in particular that of a day of
    an event outside the requested range, is as it was. *)
Theorem fresh_fetch_fills_requested_days getColorNameFromEvent calendar
        startDate endDate includeColors excludeColors w l :
  fst (checkForCachedEvents calendar startDate endDate w) = None ->
  fst (googleListEventsByCalendar getColorNameFromEvent calendar startDate
         endDate includeColors excludeColors w) = Normal l ->
  let w' := snd (googleListEventsByCalendar getColorNameFromEvent calendar
                   startDate endDate includeColors excludeColors w) in
  exists fetched w1,
    requestEventsFromApi calendar startDate endDate
      (snd (checkForCachedEvents calendar startDate endDate w))
    = (Normal fetched, w1) /\
    let resolved :=
      map (resolveOne (Some startDate) (Some endDate)) fetched in
    let totalEventList := map fst resolved ++ concat (map snd resolved) in
    l = List.filter (freshFilter getColorNameFromEvent includeColors
                                 excludeColors) totalEventList /\
    Forall (fun c => exists m, dateTime (start c) = Some m /\
                               dayOf startDate <= dayOf m < dayOf endDate)
           (concat (map snd resolved)) /\
    (forall currentDate,
       In currentDate (loopDates startDate endDate) ->
       cachedEvents w' !! cacheKey currentDate calendar
       = Some (mkCacheValue
                 (List.filter
                    (fun e => groupKey (clock w1) e =? dayOf currentDate)
                    totalEventList)
                 (clock w1))) /\
    (forall d c,
       c <> cal_id calendar \/
       (forall currentDate,
          In currentDate (loopDates startDate endDate) ->
          dayOf currentDate <> d) ->
       cachedEvents w' !! (d, c) = cachedEvents w !! (d, c)).
Proof.
  intros Hmiss. unfold googleListEventsByCalendar.
  pose proof (checkForCachedEvents_cachedEvents calendar startDate endDate w)
    as Hcache.
  destruct (checkForCachedEvents calendar startDate endDate w)
    as [found w0]. cbn [fst snd] in *. subst found. unfold bind.
  pose proof (requestEventsFromApi_notCancelled calendar startDate endDate w0)
    as [Hcache1 _].
  destruct (requestEventsFromApi calendar startDate endDate w0)
    as [[fetched|] w1]; [|discriminate].
  cbn [fst snd] in *. unfold cacheAndFilter. cbn [fst snd].
  intros [= <-]. exists fetched, w1. split; [reflexivity|].
  cbn zeta. split; [reflexivity|]. split; [|split].
  - apply List.Forall_forall. intros c Hc. apply in_concat in Hc.
    destruct Hc as (cs & Hcs & Hc). rewrite map_map in Hcs.
    apply in_map_iff in Hcs. destruct Hcs as (tmp0 & <- & _).
    eapply resolveOne_inside. exact Hc.
  - intros currentDate Hin. unfold cacheKey. rewrite populate_lookup.
    rewrite (proj2 (existsb_dayOf _ _)) by eauto.
    rewrite String.eqb_refl. cbn [andb]. rewrite groupBy_lookup.
    reflexivity.
  - intros d c Hout. rewrite populate_lookup, Hcache1, Hcache.
    destruct (existsb _ _ && _) eqn:Hin; [|reflexivity].
    exfalso. apply andb_true_iff in Hin. destruct Hin as [Hday Hc].
    apply existsb_dayOf in Hday. destruct Hday as (x & Hx & Hd).
    apply String.eqb_eq in Hc.
    destruct Hout as [Hne | Hne]; [congruence|]. eapply Hne; eassumption.
Qed.

Lemma fresh_fetch_fills_requested_days_witness :
  cachedEvents (snd Example.oneDayFetch) !! (Example.jan 1, "work")
  = cachedEvents Example.world0 !! (Example.jan 1, "work").
Proof.
  destruct (fresh_fetch_fills_requested_days Example.colorOf Example.work
              (ofDay (Example.jan 2)) (endOfDay (ofDay (Example.jan 2)))
              [] [] Example.world0 []
              ltac:(vm_compute; reflexivity) ltac:(vm_compute; reflexivity))
    as (fetched & w1 & _ & _ & _ & _ & Hother).
  apply Hother. right. intros currentDate Hin.
  apply loopDates_spec in Hin. destruct Hin as (k & Hk & -> & Hle).
  rewrite dayOf_addDays, dayOf_ofDay.
  unfold Example.jan in *.
  assert (k = 0) by moment_arith.
  lia.
Defined.

(** C4 as the claim words it fails: the sample event spans Jan-01 to
    Jan-03; after the fetch for Jan-02 alone no day of the event other
    than Jan-02 has a bucket, and no occurrence is in any bucket. *)
Lemma cache_not_filled_outside_range :
  ~ (forall d,
       Example.jan 1 <= d <= Example.jan 3 ->
       exists entry,
         cachedEvents (snd Example.oneDayFetch) !! (d, "work") = Some entry) /\
  map_to_list (cachedEvents (snd Example.oneDayFetch))
  = [((Example.jan 2, "work"),
      mkCacheValue [] (Example.at_ (Example.jan 1) 9))].
Proof.
  split.
  - intros H. destruct (H (Example.jan 1)) as [entry Hentry].
    + vm_compute. split; discriminate.
    + vm_compute in Hentry. discriminate.
  - vm_compute. reflexivity.
Qed.

(** * Further properties *)

(** ** Calendar directory *)

Lemma filterCalendarsByBlackList_In s calendars c :
  In c (filterCalendarsByBlackList s calendars) <->
  In c calendars /\ ~ blacklisted s c.
Proof.
  unfold filterCalendarsByBlackList, blacklisted.
  rewrite filter_In, negb_true_iff, <- not_true_iff_false, existsb_exists.
  split; intros [Hin Hnot]; (split; [assumption|]).
  - intros Hb. apply Hnot. apply in_map_iff in Hb.
    destruct Hb as (entry & Hid & Hentry). exists entry.
    split; [assumption|]. apply String.eqb_eq. assumption.
  - intros (entry & Hentry & Hid). apply Hnot. apply in_map_iff.
    exists entry. split; [|assumption]. apply String.eqb_eq. assumption.
Qed.

(** X1.  Whenever [googleListCalendars] returns, what it returns are
    exactly the calendars of its store (as the call leaves it, none
    when the store holds no list) that are not on the blacklist of the
    current settings: no blacklisted calendar is returned, whether the
    list came from the store or was just loaded. *)
Theorem listCalendars_never_blacklisted w calendars :
  fst (googleListCalendars w) = Normal calendars ->
  forall c,
    In c calendars <->
    In c (storedCalendars (snd (googleListCalendars w))) /\
    ~ blacklisted (settings w) c.
Proof.
  unfold googleListCalendars, storedCalendars.
  destruct (cachedCalendars w) as [stored|] eqn:Hstored; [|discriminate].
  destruct (0 <? length stored)%nat eqn:Hlength.
  - intros [= <-] c. cbn [snd]. rewrite Hstored.
    apply filterCalendarsByBlackList_In.
  - destruct (negb (colorsAndTokenLoad w)); [discriminate|].
    destruct (calendarListResponse w) as [[[listed|]]|].
    + intros [= <-] c. cbn. apply filterCalendarsByBlackList_In.
    + intros [= <-] c. cbn. tauto.
    + intros [= <-] c. cbn. rewrite Hstored.
      destruct stored; [cbn; tauto|discriminate].
Qed.

Lemma listCalendars_never_blacklisted_witness :
  In Example.work [] <->
  In Example.work
     (storedCalendars (snd (googleListCalendars Sample.worldLoaded))) /\
  ~ blacklisted Sample.strictSettings Example.work.
Proof.
  apply (listCalendars_never_blacklisted Sample.worldLoaded [] eq_refl
           Example.work).
Defined.

(** X2.  Once a load brought a non-empty list, the list is served from
    the store: a later call does not load again, changes nothing, and
    filters the stored list by the blacklist as it is at that moment. *)
Theorem listCalendars_served_from_store w calendarItems w2 :
  cachedCalendars w = Some [] ->
  colorsAndTokenLoad w = true ->
  calendarListResponse w = listing calendarItems ->
  calendarItems <> [] ->
  cachedCalendars w2 = cachedCalendars (snd (googleListCalendars w)) ->
  googleListCalendars w2
  = (Normal (filterCalendarsByBlackList (settings w2) calendarItems), w2).
Proof.
  intros Hempty Hload Hresp Hitems Hstore.
  assert (Hw2 : cachedCalendars w2 = Some calendarItems).
  { rewrite Hstore. unfold googleListCalendars.
    rewrite Hempty, Hload, Hresp. reflexivity. }
  unfold googleListCalendars. rewrite Hw2.
  destruct calendarItems; [contradiction|reflexivity].
Qed.

Lemma listCalendars_served_from_store_witness :
  googleListCalendars Sample.worldLoaded = (Normal [], Sample.worldLoaded).
Proof.
  apply (listCalendars_served_from_store Example.world0 [Example.work]
           Sample.worldLoaded).
  - reflexivity.
  - reflexivity.
  - reflexivity.
  - discriminate.
  - reflexivity.
Defined.

(** X3.  When colours and token load, and the request for the calendar
    list throws or brings an empty list, the call returns no calendar
    and leaves the empty list in the store, so the next call loads
    again and returns what that load brings. *)
Theorem listCalendars_retries_after_failure w listed :
  cachedCalendars w = Some [] ->
  colorsAndTokenLoad w = true ->
  calendarListResponse w = None \/ calendarListResponse w = listing [] ->
  fst (googleListCalendars w) = Normal [] /\
  cachedCalendars (snd (googleListCalendars w)) = Some [] /\
  fst (googleListCalendars
         (set_calendarListResponse (listing listed)
                                   (snd (googleListCalendars w))))
  = Normal (filterCalendarsByBlackList (settings w) listed).
Proof.
  intros Hempty Hload Hresp. unfold googleListCalendars at 1 2 4.
  rewrite Hempty, Hload. cbn [length Nat.ltb Nat.leb negb].
  destruct Hresp as [-> | ->]; cbn [fst snd listing calendarItems];
    (split; [reflexivity|]); (split; [cbn; assumption || reflexivity|]);
    unfold googleListCalendars; cbn; rewrite ?Hempty, ?Hload; reflexivity.
Qed.

Lemma listCalendars_retries_after_failure_witness :
  fst (googleListCalendars
         (set_calendarListResponse (listing [Example.work])
            (snd (googleListCalendars Sample.worldNoList))))
  = Normal [Example.work].
Proof.
  apply (listCalendars_retries_after_failure Sample.worldNoList
           [Example.work] eq_refl eq_refl (or_introl eq_refl)).
Defined.

(** X22.  When colours and token load and the answer to the request
    for the calendar list has no list of items, the call shows the
    notice and returns no calendar, but leaves the store without a
    list; from then on, as long as the store is not replaced, every
    call of [googleListCalendars], and so every call of
    [googleListEvents], throws a [TypeError], and changes nothing but
    (for [googleListEvents]) the moments of the caller. *)
Theorem listCalendars_without_items_breaks_later_calls w w2 :
  cachedCalendars w = Some [] ->
  colorsAndTokenLoad w = true ->
  calendarListResponse w = Some (mkCalanderList None) ->
  cachedCalendars w2 = cachedCalendars (snd (googleListCalendars w)) ->
  googleListCalendars w
  = (Normal [],
     createNotice "Could not load google calendars"
                  (set_cachedCalendars None w)) /\
  googleListCalendars w2 = (TypeError, w2) /\
  forall allColorNames getColorNameFromEvent utcOffset options,
    googleListEvents allColorNames getColorNameFromEvent utcOffset options w2
    = (TypeError, datesRead options w2).
Proof.
  intros Hempty Hload Hresp Hstore.
  assert (Hfirst : googleListCalendars w
                   = (Normal [],
                      createNotice "Could not load google calendars"
                                   (set_cachedCalendars None w))).
  { unfold googleListCalendars. rewrite Hempty, Hload, Hresp. reflexivity. }
  rewrite Hfirst in Hstore. cbn in Hstore.
  split; [exact Hfirst|]. split.
  - unfold googleListCalendars. rewrite Hstore. reflexivity.
  - intros allColorNames getColorNameFromEvent utcOffset options.
    rewrite googleListEvents_steps. fold (datesRead options w2).
    pose proof (normalizeDates_frame options w2) as (_ & _ & Hsame & _).
    fold (datesRead options w2) in Hsame.
    unfold googleListCalendars. rewrite Hsame, Hstore. reflexivity.
Qed.

Lemma listCalendars_without_items_breaks_later_calls_witness :
  fst (Example.listEvents (Example.query 1 2)
         (snd (googleListCalendars Sample.worldNoItems)))
  = TypeError.
Proof.
  unfold Example.listEvents.
  rewrite (proj2 (proj2 (listCalendars_without_items_breaks_later_calls
                           Sample.worldNoItems
                           (snd (googleListCalendars Sample.worldNoItems))
                           eq_refl eq_refl eq_refl eq_refl))).
  reflexivity.
Defined.

(** ** Day cache, further *)

(** X4.  With a private client, or a refresh interval of at least 60,
    a lookup changes nothing at all, whatever it finds. *)
Theorem lookup_without_floor_changes_nothing calendar startDate endDate w :
  useCustomClient (settings w) = true \/ 60 <= refreshInterval (settings w) ->
  snd (checkForCachedEvents calendar startDate endDate w) = w.
Proof.
  intros Hno.
  assert (Hraise : raiseRefreshInterval (settings w) = settings w).
  { unfold raiseRefreshInterval.
    destruct Hno as [-> | Hge]; [reflexivity|].
    apply Z.ltb_ge in Hge. rewrite Hge, andb_false_r. reflexivity. }
  unfold checkForCachedEvents.
  destruct (checkLoop_world calendar (loopDates startDate endDate) [] w)
    as [-> | ->]; [reflexivity|].
  rewrite Hraise. apply set_settings_same.
Qed.

Lemma lookup_without_floor_changes_nothing_witness :
  snd (checkForCachedEvents Example.work (ofDay (Example.jan 1))
         (endOfDay (ofDay (Example.jan 5))) (snd Example.firstCall))
  = snd Example.firstCall.
Proof.
  apply lookup_without_floor_changes_nothing.
  right. vm_compute. discriminate.
Defined.

(** X5.  After [googleClearCachedEvents] every lookup over a range that
    is not empty misses, and changes nothing. *)
Theorem clear_forces_miss calendar startDate endDate w :
  startDate <= endDate ->
  checkForCachedEvents calendar startDate endDate (googleClearCachedEvents w)
  = (None, googleClearCachedEvents w).
Proof.
  intros Hle. unfold checkForCachedEvents.
  rewrite loopDates_head. apply Z.leb_le in Hle. rewrite Hle.
  cbn [checkLoop]. unfold googleClearCachedEvents at 1.
  cbn [cachedEvents set_cachedEvents]. rewrite lookup_empty. reflexivity.
Qed.

Lemma clear_forces_miss_witness :
  fst (checkForCachedEvents Example.work (ofDay (Example.jan 1))
         (endOfDay (ofDay (Example.jan 5)))
         (googleClearCachedEvents (snd Example.firstCall)))
  = None.
Proof.
  rewrite (clear_forces_miss Example.work (ofDay (Example.jan 1))
             (endOfDay (ofDay (Example.jan 5))) (snd Example.firstCall)).
  - reflexivity.
  - vm_compute. discriminate.
Defined.

(** ** Filters and sorting, further *)

Lemma splitColors_fold allColorNames names pass fail :
  fold_left
    (fun acc elem =>
       if negb (includes allColorNames elem)
       then (fst acc ++ [elem], snd acc)
       else (fst acc, snd acc ++ [elem]))
    names (pass, fail)
  = (pass ++ List.filter (fun n => negb (includes allColorNames n)) names,
     fail ++ List.filter (includes allColorNames) names).
Proof.
  revert pass fail. induction names as [|n names IH]; intros pass fail;
    cbn [fold_left List.filter].
  - rewrite !app_nil_r. reflexivity.
  - destruct (includes allColorNames n); cbn [negb fst snd];
      rewrite IH, <- app_assoc; reflexivity.
Qed.

(** X6.  The [reduce] over an include or exclude list separates it, in
    order, into the names that are no colour name, which select
    calendars, and the colour names, which select colours; a missing
    list gives two empty ones. *)
Theorem splitColors_partition allColorNames names :
  splitColors allColorNames names
  = (List.filter (fun n => negb (includes allColorNames n)) (default [] names),
     List.filter (includes allColorNames) (default [] names)).
Proof. unfold splitColors. apply splitColors_fold. Qed.

Lemma insertBy_filter_other (p : Z * GoogleEvent -> bool) x l :
  p x = false ->
  List.filter p (insertBy x l) = List.filter p l.
Proof.
  intros Hx. induction l as [|y l IH]; cbn [insertBy List.filter].
  - rewrite Hx. reflexivity.
  - destruct (fst y <? fst x); cbn [List.filter].
    + rewrite IH. reflexivity.
    + rewrite Hx. reflexivity.
Qed.

Lemma insertBy_filter_same (p : Z * GoogleEvent -> bool) x l :
  p x = true ->
  (forall y, In y l -> fst y < fst x -> p y = false) ->
  List.filter p (insertBy x l) = x :: List.filter p l.
Proof.
  intros Hx. induction l as [|y l IH]; intros Hpass;
    cbn [insertBy List.filter].
  - rewrite Hx. reflexivity.
  - destruct (Z.ltb_spec (fst y) (fst x)) as [Hlt|Hge]; cbn [List.filter].
    + rewrite (Hpass y (or_introl eq_refl) Hlt).
      apply IH. intros z Hz. apply Hpass. right. exact Hz.
    + rewrite Hx. reflexivity.
Qed.

Lemma sortCriteria_stable key (k : option Z) keyed :
  Forall (fun x => key (snd x) = Some (fst x)) keyed ->
  List.filter (fun x => bool_decide (key (snd x) = k))
              (fold_right insertBy [] keyed)
  = List.filter (fun x => bool_decide (key (snd x) = k)) keyed.
Proof.
  induction 1 as [|x keyed Hx Hkeyed IH]; [reflexivity|].
  cbn [fold_right List.filter].
  destruct (bool_decide (key (snd x) = k)) eqn:Hpx.
  - rewrite insertBy_filter_same, IH; [reflexivity|exact Hpx|].
    intros y Hy Hlt. apply bool_decide_eq_true in Hpx.
    apply bool_decide_eq_false. intros Hky.
    assert (Hyk : key (snd y) = Some (fst y)).
    { apply (Permutation_in _ (sortCriteria_perm keyed)) in Hy.
      rewrite List.Forall_forall in Hkeyed. apply Hkeyed. exact Hy. }
    rewrite Hyk, <- Hpx, Hx in Hky. injection Hky as Heq. lia.
  - rewrite insertBy_filter_other, IH; [reflexivity|exact Hpx].
Qed.

Lemma filter_map_snd (f : GoogleEvent -> bool) (l : list (Z * GoogleEvent)) :
  List.filter f (map snd l) = map snd (List.filter (fun x => f (snd x)) l).
Proof.
  induction l as [|a l IH]; [reflexivity|]. cbn [map List.filter].
  destruct (f (snd a)); cbn [map]; rewrite IH; reflexivity.
Qed.

(** X7.  On a list in which the sort key of every event is a valid
    date, the sort is stable: the events with one and the same key come
    out in the order they went in. *)
Theorem orderBy_stable engine (key : GoogleEvent -> option Z) (k : option Z)
        l :
  Forall (fun e => key e <> None) l ->
  List.filter (fun e => bool_decide (key e = k)) (orderBy engine key l)
  = List.filter (fun e => bool_decide (key e = k)) l.
Proof.
  intros Hvalid. unfold orderBy.
  destruct (validCriteria_valid key l Hvalid) as [keyed Hkeyed].
  rewrite Hkeyed. apply validCriteria_Some in Hkeyed.
  destruct Hkeyed as [<- Hkeys].
  rewrite !filter_map_snd. f_equal.
  apply sortCriteria_stable. exact Hkeys.
Qed.

Lemma orderBy_stable_witness :
  List.filter
    (fun e => bool_decide (startKey 0 e = Some (ofDay (Example.jan 2))))
    (orderBy engineAsGiven (startKey 0)
             [Example.holiday; Example.night; Example.holiday])
  = [Example.holiday; Example.holiday].
Proof.
  rewrite (orderBy_stable engineAsGiven (startKey 0)
             (Some (ofDay (Example.jan 2)))
             [Example.holiday; Example.night; Example.holiday]).
  - vm_compute. reflexivity.
  - repeat constructor; discriminate.
Defined.

(** ** Multi-day expansion, further *)

Lemma resolveOne_singleDay date endDate tmp0 :
  singleDay tmp0 -> resolveOne date endDate tmp0 = (tmp0, []).
Proof.
  unfold singleDay. intros Hsingle.
  destruct (dateTime (start tmp0)) as [start0|] eqn:Hs;
    [|apply resolveOne_allDay; left; assumption].
  destruct (dateTime (end_ tmp0)) as [end0|] eqn:He;
    [|apply resolveOne_allDay; right; assumption].
  eapply resolveOne_sameDay; eassumption.
Qed.

(** X8.  A list in which no event has date-times on two different days
    comes back from the expander as it went in, whatever the range. *)
Theorem expander_keeps_single_day_lists totalEventList date endDate :
  Forall singleDay totalEventList ->
  resolveMultiDayEventsHelper totalEventList date endDate = totalEventList.
Proof.
  intros Hall. unfold resolveMultiDayEventsHelper. cbn zeta.
  induction Hall as [|tmp0 l Htmp Hl IH]; [reflexivity|].
  cbn [map concat]. rewrite (resolveOne_singleDay date endDate tmp0 Htmp).
  cbn [fst snd app]. f_equal. exact IH.
Qed.

Lemma expander_keeps_single_day_lists_witness :
  resolveMultiDayEventsHelper [Example.holiday; Example.cancelledMeeting]
    (Some (ofDay (Example.jan 1))) (Some (ofDay (Example.jan 2)))
  = [Example.holiday; Example.cancelledMeeting].
Proof.
  apply expander_keeps_single_day_lists.
  repeat constructor.
Defined.

Lemma filter_map_swap {A B} (f : B -> bool) (g : A -> B) (l : list A) :
  List.filter f (map g l) = map g (List.filter (fun x => f (g x)) l).
Proof.
  induction l as [|a l IH]; [reflexivity|]. cbn [map List.filter].
  destruct (f (g a)); cbn [map]; rewrite IH; reflexivity.
Qed.

Lemma dayOf_occurrenceStart start0 i :
  1 <= i -> dayOf (occurrenceStart start0 i) = dayOf start0 + i - 1.
Proof.
  intros Hi. unfold occurrenceStart.
  destruct (Z.eqb_spec i 1) as [->|Hne]; [lia|].
  rewrite dayOf_addDays, dayOf_startOfDay. lia.
Qed.

Lemma inRange_occurrence date endDate tmp0 start0 totalDays i :
  1 <= i ->
  inRange (Some date) (Some endDate) (occurrence tmp0 start0 totalDays i)
  = dayInRange date endDate (dayOf start0 + i - 1).
Proof.
  intros Hi. apply eq_true_iff_eq.
  rewrite (inRange_spec date endDate _ (occurrenceStart start0 i))
    by reflexivity.
  rewrite dayOf_occurrenceStart by assumption.
  unfold dayInRange. rewrite andb_true_iff, Z.leb_le, Z.ltb_lt. tauto.
Qed.

(** X9.  Of the [N] occurrences of an event that starts on day [d0],
    the range filter of the expander keeps, in order, exactly those
    numbered [i] whose day [d0 + i - 1] is not before the day of [date]
    and is before the day of [endDate]; without a range it keeps them
    all. *)
Theorem expander_range_filter tmp0 start0 end0 date endDate :
  dateTime (start tmp0) = Some start0 ->
  dateTime (end_ tmp0) = Some end0 ->
  dayOf start0 < dayOf end0 ->
  snd (resolveOne (Some date) (Some endDate) tmp0)
  = map (occurrence tmp0 start0 (daySpan start0 end0))
        (List.filter
           (fun i => dayInRange date endDate (dayOf start0 + i - 1))
           (seqZ 1 (daySpan start0 end0))) /\
  snd (resolveOne None None tmp0)
  = map (occurrence tmp0 start0 (daySpan start0 end0))
        (seqZ 1 (daySpan start0 end0)).
Proof.
  intros Hs He Hd.
  assert (Hmax : Z.max 1 (daySpan start0 end0) = daySpan start0 end0)
    by (unfold daySpan; lia).
  assert (Htotal : diffDays (endOfDay end0) (startOfDay start0) + 1
                   = daySpan start0 end0)
    by (apply diffDays_span; lia).
  rewrite !(resolveOne_multiDay tmp0 start0 end0) by (assumption || lia).
  cbn zeta. rewrite Hmax, Htotal. cbn [snd stateAfter extraEventsTmp].
  split.
  - rewrite filter_map_swap. f_equal. apply filter_ext_in.
    intros i Hi. apply list_elem_of_In, elem_of_seqZ in Hi.
    apply inRange_occurrence. lia.
  - rewrite filter_map_swap. f_equal.
    rewrite <- (filter_ext_in (fun _ => true)); [|reflexivity].
    induction (seqZ 1 (daySpan start0 end0)) as [|i l IH];
      [reflexivity|cbn; rewrite IH; reflexivity].
Qed.

Lemma expander_range_filter_witness :
  snd (resolveOne (Some (ofDay (Example.jan 2)))
                  (Some (endOfDay (ofDay (Example.jan 5)))) Example.trip)
  = [occurrence Example.trip (Example.at_ (Example.jan 1) 14) 3 2;
     occurrence Example.trip (Example.at_ (Example.jan 1) 14) 3 3].
Proof.
  rewrite (proj1 (expander_range_filter Example.trip
                    (Example.at_ (Example.jan 1) 14)
                    (Example.at_ (Example.jan 3) 10)
                    (ofDay (Example.jan 2))
                    (endOfDay (ofDay (Example.jan 5)))
                    eq_refl eq_refl ltac:(vm_compute; reflexivity))).
  vm_compute. reflexivity.
Defined.

(** X10.  The event that the expander supersedes keeps its identity,
    status, colour, calendar and end; it is tagged ["delete"], carries
    the title of the last occurrence, and starts at midnight after the
    last day of the event, so it is grouped under the day after the
    event ends. *)
Theorem superseded_event_moves_past_end tmp0 start0 end0 rangeStart rangeEnd
        now :
  dateTime (start tmp0) = Some start0 ->
  dateTime (end_ tmp0) = Some end0 ->
  dayOf start0 < dayOf end0 ->
  let superseded := fst (resolveOne rangeStart rangeEnd tmp0) in
  superseded
  = mkEvent (id tmp0)
            (dayTitle (summary tmp0) (daySpan start0 end0)
                      (daySpan start0 end0))
            (status tmp0) (Some "delete") (colorId tmp0)
            (mkEventTime (date (start tmp0)) (Some (ofDay (dayOf end0 + 1))))
            (end_ tmp0) (parent tmp0) /\
  groupKey now superseded = dayOf end0 + 1.
Proof.
  intros Hs He Hd.
  assert (Hmax : Z.max 1 (daySpan start0 end0) = daySpan start0 end0)
    by (unfold daySpan; lia).
  assert (Htotal : diffDays (endOfDay end0) (startOfDay start0) + 1
                   = daySpan start0 end0)
    by (apply diffDays_span; lia).
  assert (Hmove : addDays (daySpan start0 end0) (startOfDay start0)
                  = ofDay (dayOf end0 + 1))
    by (unfold daySpan; moment_arith).
  cbn zeta.
  rewrite (resolveOne_multiDay tmp0 start0 end0) by (assumption || lia).
  cbn zeta. rewrite Hmax, Htotal. cbn [fst stateAfter tmp].
  destruct (Z.eqb_spec (daySpan start0 end0) 0) as [H0|_];
    [unfold daySpan in H0; lia|].
  rewrite Hmove. split; [reflexivity|].
  unfold groupKey. cbn. apply dayOf_ofDay.
Qed.

Lemma superseded_event_moves_past_end_witness :
  groupKey 0 (fst (resolveOne None None Example.trip)) = Example.jan 4.
Proof.
  apply (superseded_event_moves_past_end Example.trip
           (Example.at_ (Example.jan 1) 14) (Example.at_ (Example.jan 3) 10)
           None None 0 eq_refl eq_refl ltac:(vm_compute; reflexivity)).
Defined.

Lemma diffDays_inverted s e :
  dayOf e < dayOf s ->
  diffDays (endOfDay e) (startOfDay s) + 1 = daySpan s e + 1.
Proof.
  intros H. unfold diffDays, daySpan, endOfDay, startOfDay, dayOf, msPerDay
    in *.
  Z.to_euclidean_division_equations. lia.
Qed.

(** X11.  An event that ends on an earlier day than it starts goes
    through the loop once: it yields a single occurrence, at the start
    of the event, titled ["(Day 1/T)"] with [T] one more than the
    (non-positive) day span, and is itself tagged ["delete"]. *)
Theorem expander_inverted_event tmp0 start0 end0 rangeStart rangeEnd :
  dateTime (start tmp0) = Some start0 ->
  dateTime (end_ tmp0) = Some end0 ->
  dayOf end0 < dayOf start0 ->
  resolveOne rangeStart rangeEnd tmp0
  = (mkEvent (id tmp0)
             (dayTitle (summary tmp0) 1 (daySpan start0 end0 + 1))
             (status tmp0) (Some "delete") (colorId tmp0)
             (mkEventTime (date (start tmp0))
                          (Some (ofDay (dayOf start0 + 1))))
             (end_ tmp0) (parent tmp0),
     List.filter (inRange rangeStart rangeEnd)
       [mkEvent (id tmp0)
                (dayTitle (summary tmp0) 1 (daySpan start0 end0 + 1))
                (status tmp0) (Some "multiDay") (colorId tmp0)
                (mkEventTime (date (start tmp0)) (Some start0))
                (end_ tmp0) (parent tmp0)]).
Proof.
  intros Hs He Hd.
  assert (Hmax : Z.max 1 (daySpan start0 end0) = 1)
    by (unfold daySpan; lia).
  assert (Hmove : addDays 1 (startOfDay start0) = ofDay (dayOf start0 + 1))
    by moment_arith.
  rewrite (resolveOne_multiDay tmp0 start0 end0) by (assumption || lia).
  cbn zeta. rewrite Hmax, diffDays_inverted by assumption.
  unfold stateAfter. cbn [tmp extraEventsTmp Z.eqb].
  rewrite Hmove. reflexivity.
Qed.

Lemma expander_inverted_event_witness :
  Example.labels (snd (resolveOne None None Sample.inverted))
  = [("Broken (Day 1/1)", Some "multiDay", Some (Example.jan 3))].
Proof.
  rewrite (expander_inverted_event Sample.inverted
             (Example.at_ (Example.jan 3) 14) (Example.at_ (Example.jan 2) 10)
             None None eq_refl eq_refl ltac:(vm_compute; reflexivity)).
  vm_compute. reflexivity.
Defined.

(** ** Paged fetch, further *)

Lemma requestLoop_pages calendar startString endString lastPage rest :
  ~ fullPage lastPage ->
  forall fullPages servers tmpRequestResult totalEventList w,
    Forall2 answers servers (fullPages ++ [lastPage]) ->
    Forall fullPage fullPages ->
    let r := requestLoop (servers ++ rest) calendar startString endString
                         tmpRequestResult totalEventList w in
    fst r = Normal (totalEventList
                      ++ concat (map (keptOf calendar)
                                     (fullPages ++ [lastPage]))) /\
    transport (snd r) = rest /\
    requests (snd r)
    = requests w ++ map (nextUrl calendar startString endString)
                        (tmpRequestResult :: map Some fullPages).
Proof.
  intros Hlast fullPages.
  induction fullPages as [|page fullPages IH];
    intros servers prev acc w Hanswers Hfull; cbn zeta.
  - inversion Hanswers as [|server p servers' ps Hserver Hrest]; subst.
    inversion Hrest; subst. cbn [app requestLoop].
    rewrite Hserver.
    destruct (Nat.eqb_spec (length (items lastPage)) resultSizes) as [Hf|_];
      [contradiction|].
    cbn. rewrite app_nil_r. repeat split; reflexivity.
  - inversion Hanswers as [|server p servers' ps Hserver Hrest]; subst.
    inversion Hfull as [|p ps Hpage Hpages]; subst.
    cbn [app requestLoop]. rewrite Hserver.
    destruct (Nat.eqb_spec (length (items page)) resultSizes) as [_|Hf];
      [|contradiction].
    destruct (IH servers' (Some page) (acc ++ keptOf calendar page)
                 (sent (nextUrl calendar startString endString prev)
                       (latency (server (nextUrl calendar startString
                                                 endString prev)))
                       (servers' ++ rest) w) Hrest Hpages)
      as (Hres & Htransport & Hrequests).
    unfold keptOf in *. rewrite Hres, Htransport, Hrequests.
    cbn [map concat requests sent]. rewrite <- !app_assoc.
    repeat split; reflexivity.
Qed.

(** X12.  When the remote end answers with full pages and then with a
    page that is not full, the fetch returns, in order, what it keeps
    of every page; it sends one request per page, the first without a
    page token and each later one as [nextUrl] builds it from the page
    before (with that page's token when it has one that is not empty),
    and uses up exactly those answers. *)
Theorem fetch_concatenates_pages calendar startString endString w servers
        fullPages lastPage rest :
  loggedIn w = true ->
  transport w = servers ++ rest ->
  Forall2 answers servers (fullPages ++ [lastPage]) ->
  Forall fullPage fullPages ->
  ~ fullPage lastPage ->
  let r := requestEventsFromApi calendar startString endString w in
  fst r = Normal (concat (map (keptOf calendar) (fullPages ++ [lastPage]))) /\
  transport (snd r) = rest /\
  requests (snd r)
  = requests w ++ map (nextUrl calendar startString endString)
                      (None :: map Some fullPages).
Proof.
  intros Hlogged Htransport Hanswers Hfull Hlast.
  unfold requestEventsFromApi. rewrite Hlogged, Htransport. cbn [negb].
  apply (requestLoop_pages calendar startString endString lastPage rest
           Hlast fullPages servers None [] w Hanswers Hfull).
Qed.

Lemma fetch_concatenates_pages_witness :
  fst (requestEventsFromApi Example.work 0 1 Example.worldMixed)
  = Normal [set_parent Example.work Example.trip;
            set_parent Example.work Example.holiday].
Proof.
  apply (fetch_concatenates_pages Example.work 0 1 Example.worldMixed
           [Example.onePage [Example.trip; Example.cancelledMeeting;
                             Example.holiday]]
           []
           (mkEventList [Example.trip; Example.cancelledMeeting;
                         Example.holiday] None)
           []).
  - reflexivity.
  - reflexivity.
  - repeat constructor.
  - constructor.
  - vm_compute. discriminate.
Defined.

Lemma requestLoop_throws servers calendar startString endString
      tmpRequestResult totalEventList w :
  let r := requestLoop servers calendar startString endString
                       tmpRequestResult totalEventList w in
  fst r = TypeError ->
  notices (snd r) = notices w ++ ["Could not list Google Events"].
Proof.
  revert tmpRequestResult totalEventList w.
  induction servers as [|server rest IH]; intros prev acc w; cbn zeta;
    cbn [requestLoop]; [reflexivity|].
  destruct (body (server (nextUrl calendar startString endString prev)))
    as [page|]; [|reflexivity].
  destruct (length (items page) =? resultSizes)%nat; [|discriminate].
  intros Hthrow. apply IH in Hthrow. exact Hthrow.
Qed.

Lemma checkForCachedEvents_frame calendar startDate endDate w :
  let w' := snd (checkForCachedEvents calendar startDate endDate w) in
  cachedEvents w' = cachedEvents w /\ clock w' = clock w /\
  loggedIn w' = loggedIn w /\ transport w' = transport w /\
  notices w' = notices w /\ requests w' = requests w /\
  cachedCalendars w' = cachedCalendars w /\
  calendarBlackList (settings w') = calendarBlackList (settings w) /\
  effectiveInterval (settings w') = effectiveInterval (settings w).
Proof.
  cbn zeta. unfold checkForCachedEvents.
  destruct (checkLoop_world calendar (loopDates startDate endDate) [] w)
    as [-> | ->]; cbn; repeat split; try reflexivity.
  - unfold raiseRefreshInterval. destruct (_ && _); reflexivity.
  - apply effectiveInterval_raise.
Qed.

Section FetchPath.

Variable getColorNameFromEvent : GoogleEvent -> string.

(** X13.  When the fetch for a calendar throws, the notice of the
    failed request is the last one shown and nothing is written to the
    cache, whatever pages were fetched before the failure. *)
Theorem failed_fetch_caches_nothing calendar startDate endDate includeColors
        excludeColors w :
  let r := googleListEventsByCalendar getColorNameFromEvent calendar
             startDate endDate includeColors excludeColors w in
  fst r = TypeError ->
  cachedEvents (snd r) = cachedEvents w /\
  notices (snd r) = notices w ++ ["Could not list Google Events"].
Proof.
  cbn zeta. unfold googleListEventsByCalendar.
  pose proof (checkForCachedEvents_frame calendar startDate endDate w)
    as (Hcache & _ & _ & _ & Hnotices & _).
  destruct (checkForCachedEvents calendar startDate endDate w)
    as [[alreadyCachedEvents|] w1]; cbn [fst snd] in *; [discriminate|].
  unfold bind, requestEventsFromApi.
  destruct (negb (loggedIn w1)); [discriminate|].
  pose proof (requestLoop_throws (transport w1) calendar startDate endDate
                None [] w1) as Hthrow.
  pose proof (requestLoop_filtered (fun _ => True) calendar
                (fun pageItems =>
                   proj2 (List.Forall_forall _ _) (fun _ _ => I))
                (transport w1) startDate endDate None [] w1
                (List.Forall_nil _)) as [Hcache1 _].
  cbn zeta in *.
  destruct (requestLoop (transport w1) calendar startDate endDate None [] w1)
    as [[fetched|e] w2]; cbn [fst snd] in *; [discriminate|].
  intros He. rewrite Hcache1, Hcache, (Hthrow He), Hnotices.
  split; reflexivity.
Qed.

(** X14.  When the plugin is not logged in and the lookup misses, no
    request is sent and nothing is returned, and yet an empty entry,
    stamped with the current time, is written for every day of the
    range. *)
Theorem logged_out_fetch_caches_empty_days calendar startDate endDate
        includeColors excludeColors w :
  loggedIn w = false ->
  fst (checkForCachedEvents calendar startDate endDate w) = None ->
  let r := googleListEventsByCalendar getColorNameFromEvent calendar
             startDate endDate includeColors excludeColors w in
  fst r = Normal [] /\
  requests (snd r) = requests w /\
  forall currentDate,
    In currentDate (loopDates startDate endDate) ->
    cachedEvents (snd r) !! cacheKey currentDate calendar
    = Some (mkCacheValue [] (clock w)).
Proof.
  intros Hout Hmiss. cbn zeta. unfold googleListEventsByCalendar.
  pose proof (checkForCachedEvents_frame calendar startDate endDate w)
    as (_ & Hclock & Hlogged & _ & _ & Hrequests & _).
  destruct (checkForCachedEvents calendar startDate endDate w)
    as [found w1]; cbn [fst snd] in *. subst found.
  unfold bind, requestEventsFromApi. rewrite Hlogged, Hout. cbn [negb].
  unfold cacheAndFilter. cbn [fst snd].
  split; [reflexivity|]. split; [exact Hrequests|].
  intros currentDate Hin. unfold cacheKey. rewrite populate_lookup.
  rewrite (proj2 (existsb_dayOf _ _)) by eauto.
  rewrite String.eqb_refl, Hclock. cbn [andb]. rewrite groupBy_lookup.
  reflexivity.
Qed.

(** X15.  What the fetch path writes, a lookup reads back: right after
    the fetched events were expanded and cached, and as long as the
    effective refresh interval is not negative, the lookup over the
    same range hits and returns, day after day, the events of the
    expanded list that are grouped under that day. *)
Theorem fetch_then_lookup_hits calendar startDate endDate includeColors
        excludeColors fetched w :
  0 <= effectiveInterval (settings w) ->
  let w' := snd (cacheAndFilter getColorNameFromEvent calendar startDate
                   endDate includeColors excludeColors fetched w) in
  let totalEventList :=
    resolveMultiDayEventsHelper fetched (Some startDate) (Some endDate) in
  fst (checkForCachedEvents calendar startDate endDate w')
  = Some (concat
            (map (fun currentDate =>
                    List.filter
                      (fun e => groupKey (clock w) e =? dayOf currentDate)
                      totalEventList)
                 (loopDates startDate endDate))).
Proof.
  intros Hfresh. cbn zeta. unfold checkForCachedEvents, cacheAndFilter.
  cbn [snd]. rewrite checkLoop_result. cbn [app].
  set (w' := populate calendar _ startDate endDate w).
  assert (Hentry : forall currentDate,
             In currentDate (loopDates startDate endDate) ->
             cachedEvents w' !! (dayOf currentDate, cal_id calendar)
             = Some (mkCacheValue
                       (List.filter
                          (fun e => groupKey (clock w) e =? dayOf currentDate)
                          (resolveMultiDayEventsHelper fetched
                             (Some startDate) (Some endDate)))
                       (clock w))).
  { intros currentDate Hin. unfold w'. rewrite populate_lookup.
    rewrite (proj2 (existsb_dayOf _ _)) by eauto.
    rewrite String.eqb_refl. cbn [andb]. rewrite groupBy_lookup.
    reflexivity. }
  assert (Hall : forallb (usable w' calendar)
                         (map dayOf (loopDates startDate endDate)) = true).
  { apply forallb_forall. intros d Hd. apply in_map_iff in Hd.
    destruct Hd as (currentDate & <- & Hin). unfold usable.
    rewrite (Hentry currentDate Hin). cbn [updated].
    apply negb_true_iff, Z.ltb_ge. unfold w'. cbn. lia. }
  rewrite Hall, map_map. f_equal. f_equal. apply map_ext_in.
  intros currentDate Hin. unfold cachedDay.
  rewrite (Hentry currentDate Hin). reflexivity.
Qed.

End FetchPath.

Lemma failed_fetch_caches_nothing_witness :
  cachedEvents
    (snd (googleListEventsByCalendar Example.colorOf Example.work
            (ofDay (Example.jan 1)) (endOfDay (ofDay (Example.jan 3)))
            [] [] Example.worldDownLater))
  = cachedEvents Example.worldDownLater.
Proof.
  apply (failed_fetch_caches_nothing Example.colorOf Example.work
           (ofDay (Example.jan 1)) (endOfDay (ofDay (Example.jan 3)))
           [] [] Example.worldDownLater).
  vm_compute. reflexivity.
Defined.

Lemma logged_out_fetch_caches_empty_days_witness :
  fst (googleListEventsByCalendar Example.colorOf Example.work
         (ofDay (Example.jan 1)) (endOfDay (ofDay (Example.jan 3)))
         [] [] Sample.worldLoggedOut)
  = Normal [].
Proof.
  apply (logged_out_fetch_caches_empty_days Example.colorOf Example.work
           (ofDay (Example.jan 1)) (endOfDay (ofDay (Example.jan 3)))
           [] [] Sample.worldLoggedOut).
  - reflexivity.
  - vm_compute. reflexivity.
Defined.

Lemma fetch_then_lookup_hits_witness :
  option_map Example.labels
    (fst (checkForCachedEvents Example.work (ofDay (Example.jan 1))
            (endOfDay (ofDay (Example.jan 3)))
            (snd (cacheAndFilter Example.colorOf Example.work
                    (ofDay (Example.jan 1))
                    (endOfDay (ofDay (Example.jan 3))) [] []
                    [Example.trip] Example.world0))))
  = Some [("Trip (Day 1/3)", Some "multiDay", Some (Example.jan 1));
          ("Trip (Day 2/3)", Some "multiDay", Some (Example.jan 2))].
Proof.
  rewrite (fetch_then_lookup_hits Example.colorOf Example.work
             (ofDay (Example.jan 1)) (endOfDay (ofDay (Example.jan 3)))
             [] [] [Example.trip] Example.world0).
  - vm_compute. reflexivity.
  - vm_compute. discriminate.
Defined.

(** ** The aggregator, further *)

Lemma loopDates_empty startDate endDate :
  endDate < startDate -> loopDates startDate endDate = [].
Proof.
  intros Hlt. rewrite loopDates_head.
  destruct (Z.leb_spec startDate endDate); [lia|reflexivity].
Qed.

Lemma googleListCalendars_frame w :
  let w' := snd (googleListCalendars w) in
  settings w' = settings w /\ cachedEvents w' = cachedEvents w /\
  clock w' = clock w /\ transport w' = transport w /\
  requests w' = requests w /\ loggedIn w' = loggedIn w /\
  sortEngine w' = sortEngine w /\ moments w' = moments w.
Proof.
  cbn zeta. unfold googleListCalendars.
  destruct (cachedCalendars w) as [stored|]; [|cbn; tauto].
  destruct (0 <? length stored)%nat; [cbn; tauto|].
  destruct (negb (colorsAndTokenLoad w)); [cbn; tauto|].
  destruct (calendarListResponse w) as [[[listed|]]|]; cbn; tauto.
Qed.

(** What [googleListCalendars] returns depends on the settings, the
    store, the answer to the request and the collaborators only. *)
Lemma googleListCalendars_agree w0 w :
  settings w0 = settings w ->
  cachedCalendars w0 = cachedCalendars w ->
  calendarListResponse w0 = calendarListResponse w ->
  colorsAndTokenLoad w0 = colorsAndTokenLoad w ->
  fst (googleListCalendars w0) = fst (googleListCalendars w).
Proof.
  intros Hsettings Hstore Hresp Hload. unfold googleListCalendars.
  rewrite Hsettings, Hstore, Hresp, Hload.
  destruct (cachedCalendars w) as [stored|]; [|reflexivity].
  destruct (0 <? length stored)%nat; [reflexivity|].
  destruct (negb (colorsAndTokenLoad w)); [reflexivity|].
  destruct (calendarListResponse w) as [[[listed|]]|]; reflexivity.
Qed.

Lemma googleListCalendars_datesRead options w :
  fst (googleListCalendars (datesRead options w))
  = fst (googleListCalendars w).
Proof.
  pose proof (normalizeDates_frame options w)
    as (Hsettings & _ & Hstore & _ & _ & Hresp & _ & _ & _ & Hload & _).
  apply googleListCalendars_agree; assumption.
Qed.

(** The dates a query works with, from the moments the caller holds:
    the start of the day of the start, the end of the day of the end;
    one and the same object passed for both ends at the end of its
    day. *)
Lemma normalizeDates_dates options w :
  fst (normalizeDates options w)
  = match startDate options, endDate options with
    | Some a, Some b =>
        if a =? b
        then (endOfDay (startOfDay (moments w a)),
              endOfDay (startOfDay (moments w a)))
        else (startOfDay (moments w a), endOfDay (moments w b))
    | Some a, None =>
        (startOfDay (moments w a), endOfDay (startOfDay (moments w a)))
    | None, Some b => (startOfDay (clock w), endOfDay (moments w b))
    | None, None =>
        (startOfDay (clock w), endOfDay (startOfDay (clock w)))
    end.
Proof.
  unfold normalizeDates.
  destruct (startDate options) as [a|], (endDate options) as [b|];
    cbn; rewrite ?Z.eqb_refl; try reflexivity.
  rewrite (Z.eqb_sym b a).
  destruct (Z.eqb_spec a b) as [->|Hne]; reflexivity.
Qed.

Lemma normalizeDates_moments options w address :
  moments (snd (normalizeDates options w)) address
  = let held :=
      if bool_decide (startDate options = Some address)
      then startOfDay (moments w address) else moments w address in
    if bool_decide (endDate options = Some address)
    then endOfDay held else held.
Proof.
  unfold normalizeDates.
  destruct (startDate options) as [a|], (endDate options) as [b|]; cbn;
    repeat match goal with
      | |- context [bool_decide (Some ?x = Some ?y)] =>
          destruct (decide (x = y)) as [->|?];
          [rewrite (bool_decide_eq_true_2 (Some y = Some y)) by reflexivity
          |rewrite (bool_decide_eq_false_2 (Some x = Some y)) by congruence]
      | |- context [bool_decide (None = Some ?y)] =>
          rewrite (bool_decide_eq_false_2 (None = Some y)) by discriminate
      end;
    rewrite ?Z.eqb_refl;
    repeat match goal with
      | H : ?x <> ?y |- context [?y =? ?x] =>
          rewrite (proj2 (Z.eqb_neq y x)) by congruence
      | H : ?x <> ?y |- context [?x =? ?y] =>
          rewrite (proj2 (Z.eqb_neq x y)) by congruence
      end;
    reflexivity.
Qed.

Lemma loopDates_one m :
  map dayOf (loopDates (endOfDay m) (endOfDay m))
  = seqZ (dayOf (endOfDay m)) (daySpan (endOfDay m) (endOfDay m)).
Proof.
  generalize (endOfDay m) as x. intros x. unfold loopDates, daySpan.
  rewrite Z.sub_diag.
  replace (dayOf x - dayOf x + 1) with 1 by lia.
  change (map dayOf [addDays 0 x] = [0 + dayOf x]).
  unfold addDays. cbn [map]. rewrite Z.add_0_l, Z.mul_0_l, Z.add_0_r.
  reflexivity.
Qed.

(** The loops over the dates of a query visit the days from the day of
    its start to the day of its end, in order. *)
Lemma queryDays options w :
  map dayOf (loopDates (queryStart options w) (queryEnd options w))
  = seqZ (dayOf (queryStart options w))
         (daySpan (queryStart options w) (queryEnd options w)).
Proof.
  unfold queryStart, queryEnd. rewrite normalizeDates_dates.
  assert (Hpair : forall s e,
             map dayOf (loopDates (startOfDay s) (endOfDay e))
             = seqZ (dayOf (startOfDay s))
                    (daySpan (startOfDay s) (endOfDay e))).
  { intros s e. rewrite loopDates_days. unfold daySpan.
    rewrite dayOf_endOfDay, !dayOf_startOfDay. reflexivity. }
  destruct (startDate options) as [a|], (endDate options) as [b|];
    cbn [fst snd]; try apply Hpair.
  destruct (a =? b); cbn [fst snd]; [apply loopDates_one|apply Hpair].
Qed.

Lemma googleListEvents_unfold allColorNames getColorNameFromEvent utcOffset
      options w :
  googleListEvents allColorNames getColorNameFromEvent utcOffset options w
  = match fst (googleListCalendars w) with
    | Normal _ =>
        match collectEvents getColorNameFromEvent
                (queriedCalendars allColorNames options w)
                (queryStart options w) (queryEnd options w)
                (snd (splitColors allColorNames (include options)))
                (snd (splitColors allColorNames (exclude options))) []
                (snd (googleListCalendars (datesRead options w))) with
        | (Normal eventList, w') =>
            (Normal (orderBy (sortEngine w') (startKey utcOffset) eventList),
             w')
        | (Throw e, w') => (Throw e, w')
        end
    | Throw e => (Throw e, snd (googleListCalendars (datesRead options w)))
    end.
Proof.
  rewrite googleListEvents_steps.
  unfold queriedCalendars, returned, queryEnd, queryStart.
  rewrite <- (googleListCalendars_datesRead options w). unfold datesRead.
  destruct (googleListCalendars (snd (normalizeDates options w)))
    as [[calendarList|e] w1]; reflexivity.
Qed.

(** The sort of the host engine and the moments the caller holds are
    out of reach of the lookup, the fetch and the cache. *)
Lemma checkForCachedEvents_host calendar startDate endDate w :
  let w' := snd (checkForCachedEvents calendar startDate endDate w) in
  sortEngine w' = sortEngine w /\ moments w' = moments w.
Proof.
  cbn zeta. unfold checkForCachedEvents.
  destruct (checkLoop_world calendar (loopDates startDate endDate) [] w)
    as [-> | ->]; split; reflexivity.
Qed.

Lemma requestLoop_host servers calendar startString endString :
  forall tmpRequestResult totalEventList w,
    let w' := snd (requestLoop servers calendar startString endString
                               tmpRequestResult totalEventList w) in
    sortEngine w' = sortEngine w /\ moments w' = moments w.
Proof.
  induction servers as [|server rest IH]; intros prev acc w; cbn zeta;
    cbn [requestLoop]; [split; reflexivity|].
  destruct (body (server (nextUrl calendar startString endString prev)))
    as [page|]; [|split; reflexivity].
  destruct (length (items page) =? resultSizes)%nat; [|split; reflexivity].
  match goal with
  | |- context [requestLoop rest _ _ _ ?p ?a ?w1] =>
      destruct (IH p a w1) as [-> ->]
  end.
  split; reflexivity.
Qed.

Lemma googleListEventsByCalendar_host getColorNameFromEvent calendar
      startDate endDate includeColors excludeColors w :
  let w' := snd (googleListEventsByCalendar getColorNameFromEvent calendar
                   startDate endDate includeColors excludeColors w) in
  sortEngine w' = sortEngine w /\ moments w' = moments w.
Proof.
  cbn zeta. unfold googleListEventsByCalendar.
  pose proof (checkForCachedEvents_host calendar startDate endDate w)
    as [Hengine Hmoments].
  destruct (checkForCachedEvents calendar startDate endDate w)
    as [[alreadyCachedEvents|] w1]; cbn [fst snd] in *;
    [split; assumption|].
  unfold bind, requestEventsFromApi.
  destruct (negb (loggedIn w1)); [split; assumption|].
  pose proof (requestLoop_host (transport w1) calendar startDate endDate
                None [] w1) as [Hengine1 Hmoments1].
  destruct (requestLoop (transport w1) calendar startDate endDate None [] w1)
    as [[fetched|e] w2]; cbn [fst snd] in *;
    rewrite <- Hengine, <- Hmoments, <- Hengine1, <- Hmoments1;
    split; reflexivity.
Qed.

Lemma collectEvents_host getColorNameFromEvent startDate endDate
      includeColors excludeColors calendarList :
  forall eventList w,
    let w' := snd (collectEvents getColorNameFromEvent calendarList
                     startDate endDate includeColors excludeColors
                     eventList w) in
    sortEngine w' = sortEngine w /\ moments w' = moments w.
Proof.
  induction calendarList as [|calendar calendarList IH];
    intros eventList w; cbn zeta; cbn [collectEvents];
    [split; reflexivity|].
  unfold bind.
  pose proof (googleListEventsByCalendar_host getColorNameFromEvent calendar
                startDate endDate includeColors excludeColors w)
    as [Hengine Hmoments].
  destruct (googleListEventsByCalendar getColorNameFromEvent calendar
              startDate endDate includeColors excludeColors w)
    as [[events|e] w1]; cbn [fst snd] in *; [|split; assumption].
  match goal with
  | |- context [collectEvents _ _ _ _ _ _ ?acc w1] =>
      destruct (IH acc w1) as [-> ->]
  end.
  split; assumption.
Qed.

Section AggregatorProperties.

Variable allColorNames : list string.
Variable getColorNameFromEvent : GoogleEvent -> string.
Variable utcOffset : Z.

Lemma collectEvents_empty_range calendarList startDate endDate includeColors
      excludeColors eventList w :
  endDate < startDate ->
  collectEvents getColorNameFromEvent calendarList startDate endDate
                includeColors excludeColors eventList w
  = (Normal eventList, w).
Proof.
  intros Hlt. revert eventList.
  induction calendarList as [|calendar calendarList IH]; intros eventList;
    cbn [collectEvents]; [reflexivity|].
  unfold bind, googleListEventsByCalendar, checkForCachedEvents.
  rewrite loopDates_empty by assumption. cbn [checkLoop List.filter].
  rewrite IH, app_nil_r. reflexivity.
Qed.

(** X16.  A query whose end date, a moment object of its own, falls
    on an earlier day than its start date sends no request and neither
    reads nor writes the cache: apart from setting the two moments to
    the ends of their days and loading the calendar list, nothing
    happens.  It returns the empty list when the calendar list loads,
    and throws what that load throws otherwise. *)
Theorem reversed_range_lists_nothing options w b :
  endDate options = Some b ->
  startDate options <> Some b ->
  dayOf (moments w b) < dayOf (startGiven options w) ->
  googleListEvents allColorNames getColorNameFromEvent utcOffset options w
  = match googleListCalendars (datesRead options w) with
    | (Normal _, w1) => (Normal [], w1)
    | (Throw e, w1) => (Throw e, w1)
    end.
Proof.
  intros Hb Hne Hlt. rewrite googleListEvents_unfold.
  rewrite <- (googleListCalendars_datesRead options w).
  rewrite collectEvents_empty_range.
  - destruct (googleListCalendars (datesRead options w)) as [[l|e] w1];
      reflexivity.
  - unfold queryEnd, queryStart, startGiven in *.
    rewrite normalizeDates_dates, Hb.
    destruct (startDate options) as [a|].
    + destruct (Z.eqb_spec a b) as [->|_]; [congruence|]. cbn [fst snd].
      generalize dependent (moments w a). intros s.
      generalize (moments w b). intros e Hlt. moment_arith.
    + cbn [fst snd]. generalize dependent (clock w). intros s.
      generalize (moments w b). intros e Hlt. moment_arith.
Qed.

(** X17.  When the lookup misses and the fetch returns, no event of
    the returned list is tagged ["delete"]. *)
Theorem fresh_list_has_no_superseded_event calendar startDate endDate
        includeColors excludeColors w l :
  fst (checkForCachedEvents calendar startDate endDate w) = None ->
  fst (googleListEventsByCalendar getColorNameFromEvent calendar startDate
         endDate includeColors excludeColors w) = Normal l ->
  Forall (fun e => eventType e <> Some "delete") l.
Proof.
  unfold googleListEventsByCalendar.
  destruct (checkForCachedEvents calendar startDate endDate w)
    as [found w1]. cbn [fst]. intros ->. unfold bind.
  destruct (requestEventsFromApi calendar startDate endDate w1)
    as [[fetched|] w2]; [|discriminate].
  apply cacheAndFilter_drops_delete.
Qed.

End AggregatorProperties.

Lemma reversed_range_lists_nothing_witness :
  fst (Example.listEvents (Example.query 5 1) Example.world0) = Normal [].
Proof.
  unfold Example.listEvents.
  rewrite (reversed_range_lists_nothing Example.colorNames Example.colorOf 0
             (Example.query 5 1) Example.world0 3).
  - reflexivity.
  - reflexivity.
  - discriminate.
  - vm_compute. reflexivity.
Defined.

Lemma fresh_list_has_no_superseded_event_witness :
  Forall (fun e => eventType e <> Some "delete")
         (default [] (returned Example.oneDayFetch)).
Proof.
  apply (fresh_list_has_no_superseded_event Example.colorOf Example.work
           (ofDay (Example.jan 2)) (endOfDay (ofDay (Example.jan 2)))
           [] [] Example.world0).
  - vm_compute. reflexivity.
  - vm_compute. reflexivity.
Defined.

Lemma sameCacheView_usable w w' calendar d :
  sameCacheView w w' ->
  usable w' calendar d = usable w calendar d /\
  cachedDay w' calendar d = cachedDay w calendar d.
Proof.
  intros (Hcache & Hclock & Hinterval). unfold usable, cachedDay.
  rewrite Hcache, Hclock, Hinterval. split; reflexivity.
Qed.

Lemma forallb_pointwise {A} (f g : A -> bool) (l : list A) :
  (forall x, f x = g x) -> forallb f l = forallb g l.
Proof.
  intros H. induction l as [|a l IH]; [reflexivity|].
  cbn. rewrite H, IH. reflexivity.
Qed.

Section CachedQueries.

Variable allColorNames : list string.
Variable getColorNameFromEvent : GoogleEvent -> string.
Variable utcOffset : Z.

Lemma googleListEventsByCalendar_cached calendar startDate endDate
      includeColors excludeColors w :
  forallb (usable w calendar) (map dayOf (loopDates startDate endDate))
  = true ->
  let r := googleListEventsByCalendar getColorNameFromEvent calendar
             startDate endDate includeColors excludeColors w in
  fst r = Normal (List.filter
                    (colorFilter getColorNameFromEvent includeColors
                                 excludeColors)
                    (cachedRange w calendar
                                 (map dayOf (loopDates startDate endDate)))) /\
  sameCacheView w (snd r) /\ requests (snd r) = requests w /\
  transport (snd r) = transport w.
Proof.
  intros Hall. cbn zeta. unfold googleListEventsByCalendar.
  pose proof (checkForCachedEvents_frame calendar startDate endDate w)
    as (Hcache & Hclock & _ & Htransport & _ & Hrequests & _ & _ & Hint).
  assert (Hfound : fst (checkForCachedEvents calendar startDate endDate w)
                   = Some (cachedRange w calendar
                             (map dayOf (loopDates startDate endDate)))).
  { unfold checkForCachedEvents. rewrite checkLoop_result, Hall.
    reflexivity. }
  destruct (checkForCachedEvents calendar startDate endDate w)
    as [found w1]. cbn [fst snd] in *. subst found.
  repeat split; assumption.
Qed.

Lemma collectEvents_cached startDate endDate includeColors excludeColors
      calendarList :
  forall eventList w,
    (forall c, In c calendarList ->
               forallb (usable w c) (map dayOf (loopDates startDate endDate))
               = true) ->
    let r := collectEvents getColorNameFromEvent calendarList startDate
                           endDate includeColors excludeColors eventList w in
    fst r
    = Normal (eventList
                ++ concat
                     (map (fun c =>
                             List.filter
                               (colorFilter getColorNameFromEvent
                                            includeColors excludeColors)
                               (cachedRange w c
                                  (map dayOf (loopDates startDate endDate))))
                          calendarList)) /\
    sameCacheView w (snd r) /\ requests (snd r) = requests w /\
    transport (snd r) = transport w.
Proof.
  induction calendarList as [|calendar calendarList IH];
    intros eventList w Hall; cbn zeta; cbn [collectEvents map concat].
  - rewrite app_nil_r. cbn. repeat split; reflexivity.
  - unfold bind.
    destruct (googleListEventsByCalendar_cached calendar startDate endDate
                includeColors excludeColors w
                (Hall calendar (or_introl eq_refl)))
      as (Hres & Hview & Hrequests & Htransport).
    destruct (googleListEventsByCalendar getColorNameFromEvent calendar
                startDate endDate includeColors excludeColors w)
      as [c w1]. cbn [fst snd] in *. subst c.
    assert (Hall1 : forall c, In c calendarList ->
              forallb (usable w1 c)
                      (map dayOf (loopDates startDate endDate)) = true).
    { intros c Hc. rewrite <- (Hall c (or_intror Hc)).
      apply forallb_pointwise. intros d.
      apply (sameCacheView_usable w w1 c d Hview). }
    match goal with
    | |- context [collectEvents _ _ _ _ _ _ ?acc w1] =>
        destruct (IH acc w1 Hall1)
          as (Hres1 & Hview1 & Hrequests1 & Htransport1)
    end.
    rewrite Hres1, Hrequests1, Htransport1, Hrequests, Htransport.
    split; [|split; [|split; reflexivity]].
    + rewrite <- app_assoc. do 4 f_equal. apply map_ext. intros c.
      unfold cachedRange. do 2 f_equal. apply map_ext. intros d.
      apply (sameCacheView_usable w w1 c d Hview).
    + destruct Hview as (H1 & H2 & H3). destruct Hview1 as (H4 & H5 & H6).
      unfold sameCacheView.
      rewrite H4, H5, H6, H1, H2, H3. repeat split; reflexivity.
Qed.

(** X18.  When, for every calendar the query goes through, every day
    of the range has a cache entry that is not older than the effective
    refresh interval, [googleListEvents] sends no request and leaves
    the transport and the cache as they are.  When the calendar list
    loads it returns the sorted concatenation, calendar after calendar
    and day after day, of the cached events that pass the colour
    filter; otherwise it throws what that load throws. *)
Theorem cached_ranges_send_no_request options w :
  let days := seqZ (dayOf (queryStart options w))
                   (daySpan (queryStart options w) (queryEnd options w)) in
  (forall c d,
     In c (queriedCalendars allColorNames options w) -> In d days ->
     usable w c d = true) ->
  let r := googleListEvents allColorNames getColorNameFromEvent utcOffset
                            options w in
  fst r
  = match fst (googleListCalendars w) with
    | Normal _ =>
        Normal
          (orderBy (sortEngine w) (startKey utcOffset)
             (concat
                (map (fun c =>
                        List.filter
                          (colorFilter getColorNameFromEvent
                             (snd (splitColors allColorNames
                                               (include options)))
                             (snd (splitColors allColorNames
                                               (exclude options))))
                          (cachedRange w c days))
                     (queriedCalendars allColorNames options w))))
    | Throw e => Throw e
    end /\
  requests (snd r) = requests w /\
  transport (snd r) = transport w /\
  cachedEvents (snd r) = cachedEvents w.
Proof.
  cbn zeta. intros Hall. rewrite googleListEvents_unfold.
  pose proof (queryDays options w) as Hdays.
  pose proof (normalizeDates_frame options w)
    as (Hsettings0 & Hcache0 & _ & Hclock0 & _ & _ & Htransport0 & _
        & Hrequests0 & _ & Hengine0).
  fold (datesRead options w) in *.
  pose proof (googleListCalendars_frame (datesRead options w))
    as (Hsettings & Hcache & Hclock & Htransport & Hrequests & _ & Hengine
        & _).
  cbn zeta in *.
  set (w1 := snd (googleListCalendars (datesRead options w))) in *.
  assert (Hview : sameCacheView w w1).
  { unfold sameCacheView.
    rewrite Hcache, Hcache0, Hclock, Hclock0, Hsettings, Hsettings0. tauto. }
  destruct (fst (googleListCalendars w)) as [calendarList|e]; cbn [fst snd].
  - destruct (collectEvents_cached (queryStart options w)
                (queryEnd options w)
                (snd (splitColors allColorNames (include options)))
                (snd (splitColors allColorNames (exclude options)))
                (queriedCalendars allColorNames options w) [] w1)
      as (Hres & Hview1 & Hrequests1 & Htransport1).
    { intros c Hc. rewrite Hdays. apply forallb_forall. intros d Hd.
      rewrite (proj1 (sameCacheView_usable w _ c d Hview)). auto. }
    pose proof (collectEvents_host getColorNameFromEvent
                  (queryStart options w) (queryEnd options w)
                  (snd (splitColors allColorNames (include options)))
                  (snd (splitColors allColorNames (exclude options)))
                  (queriedCalendars allColorNames options w) [] w1)
      as [Hengine2 _].
    destruct (collectEvents _ _ _ _ _ _ _ _) as [res w2].
    cbn [fst snd] in *. subst res. cbn [fst snd].
    rewrite Hrequests1, Htransport1, Hrequests, Htransport, Hrequests0,
      Htransport0.
    destruct Hview1 as (Hc1 & _). rewrite Hc1, Hcache, Hcache0.
    split; [|repeat split; reflexivity].
    rewrite Hengine2, Hengine, Hengine0.
    cbn [app]. do 3 f_equal. apply map_ext. intros c. rewrite Hdays.
    unfold cachedRange. do 2 f_equal. apply map_ext. intros d.
    apply (sameCacheView_usable w _ c d Hview).
  - rewrite Hrequests, Htransport, Hrequests0, Htransport0, Hcache, Hcache0.
    repeat split; reflexivity.
Qed.

End CachedQueries.

Lemma cached_ranges_send_no_request_witness :
  requests (snd Example.secondCall) = requests (snd Example.firstCall).
Proof.
  apply (cached_ranges_send_no_request Example.colorNames Example.colorOf 0
           (Example.query 1 5) (snd Example.firstCall)).
  intros c d Hc Hd. vm_compute in Hc. destruct Hc as [<-|[]].
  apply list_elem_of_In, elem_of_seqZ in Hd. vm_compute in Hd.
  destruct Hd as [Hlo Hhi].
  assert (Hcases : d = 19723 \/ d = 19724 \/ d = 19725 \/ d = 19726
                   \/ d = 19727).
  { destruct d as [|d|d]; try (exfalso; apply Hlo; reflexivity).
    change (Z.pos d < 19728) in Hhi.
    change (19723 <= Z.pos d) in Hlo. lia. }
  destruct Hcases as [-> | [-> | [-> | [-> | ->]]]];
    vm_compute; reflexivity.
Defined.

(** ** What is requested, and for whom *)

Lemma requestLoop_requests servers calendar startString endString :
  forall tmpRequestResult totalEventList w,
    exists new,
      requests (snd (requestLoop servers calendar startString endString
                                 tmpRequestResult totalEventList w))
      = requests w ++ new /\
      Forall (requestFor (cal_id calendar) startString endString) new.
Proof.
  induction servers as [|server rest IH]; intros prev acc w;
    cbn [requestLoop].
  - eexists. cbn. split; [reflexivity|]. repeat constructor.
  - destruct (body (server (nextUrl calendar startString endString prev)))
      as [page|].
    + destruct (length (items page) =? resultSizes)%nat.
      * match goal with
        | |- context [requestLoop rest _ _ _ ?p ?a ?w1] =>
            destruct (IH p a w1) as (new & Hnew & Hall)
        end.
        exists (nextUrl calendar startString endString prev :: new).
        rewrite Hnew. cbn [requests sent]. rewrite <- app_assoc.
        split; [reflexivity|]. constructor; [|assumption].
        repeat split.
      * eexists. cbn. split; [reflexivity|]. repeat constructor.
    + eexists. cbn. split; [reflexivity|]. repeat constructor.
Qed.

Lemma selectCalendars_In includeCalendars excludeCalendars calendarList c :
  In c (selectCalendars includeCalendars excludeCalendars calendarList) ->
  In c calendarList.
Proof.
  unfold selectCalendars.
  destruct (0 <? length includeCalendars)%nat;
    [intros H; apply filter_In in H; tauto|].
  destruct (0 <? length excludeCalendars)%nat;
    [intros H; apply filter_In in H; tauto|tauto].
Qed.

Lemma queriedCalendars_not_blacklisted allColorNames options w c :
  In c (queriedCalendars allColorNames options w) ->
  ~ blacklisted (settings w) c.
Proof.
  unfold queriedCalendars. intros Hc. apply selectCalendars_In in Hc.
  unfold returned, googleListCalendars in Hc.
  destruct (cachedCalendars w) as [stored|]; [|contradiction].
  destruct (0 <? length stored)%nat; cbn in Hc.
  - apply filterCalendarsByBlackList_In in Hc. tauto.
  - destruct (negb (colorsAndTokenLoad w)); [contradiction|].
    destruct (calendarListResponse w) as [[[listed|]]|]; cbn in Hc;
      try contradiction.
    apply filterCalendarsByBlackList_In in Hc. tauto.
Qed.

Section Requests.

Variable allColorNames : list string.
Variable getColorNameFromEvent : GoogleEvent -> string.
Variable utcOffset : Z.

Lemma googleListEventsByCalendar_requests calendar startDate endDate
      includeColors excludeColors w :
  exists new,
    requests (snd (googleListEventsByCalendar getColorNameFromEvent calendar
                     startDate endDate includeColors excludeColors w))
    = requests w ++ new /\
    Forall (requestFor (cal_id calendar) startDate endDate) new.
Proof.
  unfold googleListEventsByCalendar.
  pose proof (checkForCachedEvents_frame calendar startDate endDate w)
    as (_ & _ & _ & _ & _ & Hrequests & _).
  destruct (checkForCachedEvents calendar startDate endDate w)
    as [[alreadyCachedEvents|] w1]; cbn [fst snd] in *.
  - exists []. rewrite app_nil_r. split; [assumption|constructor].
  - unfold bind, requestEventsFromApi.
    destruct (negb (loggedIn w1)).
    + exists []. cbn. rewrite app_nil_r. split; [assumption|constructor].
    + destruct (requestLoop_requests (transport w1) calendar startDate
                  endDate None [] w1) as (new & Hnew & Hall).
      exists new. split; [|assumption]. rewrite <- Hrequests, <- Hnew.
      destruct (requestLoop (transport w1) calendar startDate endDate None
                            [] w1) as [[fetched|e] w2]; reflexivity.
Qed.

Lemma collectEvents_requests startDate endDate includeColors excludeColors
      calendarList :
  forall eventList w,
    exists new,
      requests (snd (collectEvents getColorNameFromEvent calendarList
                       startDate endDate includeColors excludeColors
                       eventList w))
      = requests w ++ new /\
      Forall (fun url =>
                exists c, In c calendarList /\
                          requestFor (cal_id c) startDate endDate url)
             new.
Proof.
  induction calendarList as [|calendar calendarList IH];
    intros eventList w; cbn [collectEvents].
  - exists []. cbn. rewrite app_nil_r. split; [reflexivity|constructor].
  - unfold bind.
    destruct (googleListEventsByCalendar_requests calendar startDate endDate
                includeColors excludeColors w) as (new1 & Hnew1 & Hall1).
    assert (Hall1' : Forall (fun url =>
                exists c, In c (calendar :: calendarList) /\
                          requestFor (cal_id c) startDate endDate url)
             new1).
    { eapply Forall_impl; [exact Hall1|]. intros url Hurl.
      exists calendar. split; [left; reflexivity|assumption]. }
    destruct (googleListEventsByCalendar getColorNameFromEvent calendar
                startDate endDate includeColors excludeColors w)
      as [[events|] w1]; cbn [fst snd] in *.
    + match goal with
      | |- context [collectEvents _ _ _ _ _ _ ?acc w1] =>
          destruct (IH acc w1) as (new2 & Hnew2 & Hall2)
      end.
      exists (new1 ++ new2). rewrite Hnew2, Hnew1, <- app_assoc.
      split; [reflexivity|]. apply Forall_app. split; [assumption|].
      eapply Forall_impl; [exact Hall2|]. intros url (c & Hc & Hurl).
      exists c. split; [right; assumption|assumption].
    + exists new1. split; assumption.
Qed.

(** X19.  Whatever [googleListEvents] does, every request it sends is
    for a calendar that is not on the blacklist, and asks for the time
    between the two dates the query works with (the start of the day of
    the start and the end of the day of the end, as [normalizeDates]
    leaves them). *)
Theorem requests_only_for_listed_calendars options w :
  exists new,
    requests (snd (googleListEvents allColorNames getColorNameFromEvent
                                    utcOffset options w))
    = requests w ++ new /\
    Forall (fun url =>
              ~ In (req_calendar url)
                   (map fst (calendarBlackList (settings w))) /\
              req_timeMin url = queryStart options w /\
              req_timeMax url = queryEnd options w)
           new.
Proof.
  rewrite googleListEvents_unfold.
  pose proof (normalizeDates_frame options w)
    as (_ & _ & _ & _ & _ & _ & _ & _ & Hrequests0 & _).
  fold (datesRead options w) in Hrequests0.
  pose proof (googleListCalendars_frame (datesRead options w))
    as (_ & _ & _ & _ & Hrequests & _).
  cbn zeta in Hrequests.
  destruct (fst (googleListCalendars w)) as [calendarList|e].
  - destruct (collectEvents_requests (queryStart options w)
                (queryEnd options w)
                (snd (splitColors allColorNames (include options)))
                (snd (splitColors allColorNames (exclude options)))
                (queriedCalendars allColorNames options w) []
                (snd (googleListCalendars (datesRead options w))))
      as (new & Hnew & Hall).
    exists new. split.
    + rewrite <- Hrequests0, <- Hrequests, <- Hnew.
      destruct (collectEvents _ _ _ _ _ _ _ _) as [[eventList|e] w1];
        reflexivity.
    + eapply Forall_impl; [exact Hall|].
      intros url (c & Hc & Hcal & Hmin & Hmax).
      split; [|split; assumption].
      rewrite Hcal.
      apply (queriedCalendars_not_blacklisted allColorNames options w c Hc).
  - exists []. cbn [snd]. rewrite Hrequests, Hrequests0, app_nil_r.
    split; [reflexivity|constructor].
Qed.

End Requests.

(** ** Events and their calendars *)

Section CacheInvariant.

(** A property of events, per calendar id, that the page filter
    establishes and the expander keeps. *)
Variable P : string -> GoogleEvent -> Prop.
Hypothesis P_stamp :
  forall calendar pageItems,
    Forall (P (cal_id calendar)) (stampAndFilter calendar pageItems).
Hypothesis P_resolve :
  forall c rangeStart rangeEnd tmp0,
    P c tmp0 ->
    P c (fst (resolveOne rangeStart rangeEnd tmp0)) /\
    Forall (P c) (snd (resolveOne rangeStart rangeEnd tmp0)).

Variable allColorNames : list string.
Variable getColorNameFromEvent : GoogleEvent -> string.
Variable utcOffset : Z.

Lemma resolveMultiDayEventsHelper_all c totalEventList rangeStart rangeEnd :
  Forall (P c) totalEventList ->
  Forall (P c) (resolveMultiDayEventsHelper totalEventList rangeStart rangeEnd).
Proof.
  intros Hl. unfold resolveMultiDayEventsHelper. cbn zeta.
  rewrite !map_map. rewrite List.Forall_forall in Hl.
  apply Forall_app. split; apply List.Forall_forall; intros e He.
  - apply in_map_iff in He. destruct He as (tmp0 & <- & Hin).
    apply P_resolve. auto.
  - apply in_concat in He. destruct He as (cs & Hcs & He).
    apply in_map_iff in Hcs. destruct Hcs as (tmp0 & <- & Hin).
    pose proof (proj2 (P_resolve c rangeStart rangeEnd tmp0 (Hl tmp0 Hin)))
      as Hocc.
    rewrite List.Forall_forall in Hocc. auto.
Qed.

Lemma googleListEventsByCalendar_all calendar startDate endDate includeColors
      excludeColors w :
  cacheAll P w ->
  let r := googleListEventsByCalendar getColorNameFromEvent calendar
             startDate endDate includeColors excludeColors w in
  cacheAll P (snd r) /\
  (forall l, fst r = Normal l -> Forall (P (cal_id calendar)) l).
Proof.
  intros Hinv. cbn zeta. unfold googleListEventsByCalendar.
  pose proof (checkForCachedEvents_frame calendar startDate endDate w)
    as (Hcache & _).
  assert (Hhit : forall l,
             fst (checkForCachedEvents calendar startDate endDate w) = Some l ->
             Forall (P (cal_id calendar)) l).
  { unfold checkForCachedEvents. intros l. rewrite checkLoop_result.
    destruct (forallb _ _); [|discriminate]. intros [= <-]. cbn [app].
    apply List.Forall_forall. intros e He. apply in_concat in He.
    destruct He as (day & Hday & He). apply in_map_iff in Hday.
    destruct Hday as (d & <- & _). unfold cachedDay in He.
    destruct (cachedEvents w !! (d, cal_id calendar)) as [entry|] eqn:Hentry;
      [|contradiction].
    pose proof (Hinv d (cal_id calendar) entry Hentry) as Hd.
    rewrite List.Forall_forall in Hd. auto. }
  destruct (checkForCachedEvents calendar startDate endDate w)
    as [[alreadyCachedEvents|] w1]; cbn [fst snd] in *.
  - split.
    + intros d c entry. rewrite Hcache. apply Hinv.
    + intros l [= <-]. apply Forall_filter_keeps. auto.
  - clear Hhit. unfold bind, requestEventsFromApi.
    destruct (negb (loggedIn w1)).
    + unfold cacheAndFilter. cbn [fst snd]. split.
      * intros d c entry. rewrite populate_lookup.
        destruct (_ && _); [|rewrite Hcache; apply Hinv].
        intros [= <-]. cbn [events]. rewrite groupBy_lookup.
        apply Forall_filter_keeps. cbn. constructor.
      * intros l [= <-]. constructor.
    + pose proof (requestLoop_filtered (P (cal_id calendar)) calendar
                    (P_stamp calendar) (transport w1) startDate endDate None
                    [] w1 (List.Forall_nil _)) as [Hcache1 Hfetched].
      cbn zeta in *.
      destruct (requestLoop (transport w1) calendar startDate endDate None []
                            w1) as [[fetched|] w2]; cbn [fst snd] in *.
      * pose proof (resolveMultiDayEventsHelper_all (cal_id calendar) fetched
                      (Some startDate) (Some endDate) (Hfetched _ eq_refl))
          as Htotal.
        unfold cacheAndFilter. cbn [fst snd]. split.
        -- intros d c entry. rewrite populate_lookup.
           destruct (existsb _ _ && String.eqb (cal_id calendar) c) eqn:Hkey;
             [|rewrite Hcache1, Hcache; apply Hinv].
           apply andb_true_iff in Hkey. destruct Hkey as [_ Hc].
           apply String.eqb_eq in Hc. subst c.
           intros [= <-]. cbn [events]. rewrite groupBy_lookup.
           apply Forall_filter_keeps. exact Htotal.
        -- intros l [= <-]. apply Forall_filter_keeps. exact Htotal.
      * split; [|discriminate].
        intros d c entry. rewrite Hcache1, Hcache. apply Hinv.
Qed.

Lemma collectEvents_all startDate endDate includeColors excludeColors
      (Q : GoogleEvent -> Prop) calendarList :
  (forall c e, In c calendarList -> P (cal_id c) e -> Q e) ->
  forall eventList w,
    cacheAll P w ->
    Forall Q eventList ->
    let r := collectEvents getColorNameFromEvent calendarList startDate
                           endDate includeColors excludeColors eventList w in
    cacheAll P (snd r) /\ (forall l, fst r = Normal l -> Forall Q l).
Proof.
  induction calendarList as [|calendar calendarList IH];
    intros HQ eventList w Hinv Hlist; cbn zeta; cbn [collectEvents].
  - cbn. split; [assumption|]. intros l [= <-]. assumption.
  - unfold bind.
    pose proof (googleListEventsByCalendar_all calendar startDate endDate
                  includeColors excludeColors w Hinv) as [Hinv1 Hres].
    destruct (googleListEventsByCalendar getColorNameFromEvent calendar
                startDate endDate includeColors excludeColors w)
      as [[events|] w1]; cbn [fst snd] in *.
    + apply IH; [intros c e Hc; apply HQ; right; assumption|assumption|].
      apply Forall_app. split; [assumption|].
      eapply Forall_impl; [apply Hres; reflexivity|].
      intros e. apply HQ. left. reflexivity.
    + split; [assumption|discriminate].
Qed.

Lemma googleListEvents_all options w :
  cacheAll P w ->
  let r := googleListEvents allColorNames getColorNameFromEvent utcOffset
                            options w in
  cacheAll P (snd r) /\
  (forall l,
     fst r = Normal l ->
     Forall (fun e => exists c,
                 In c (queriedCalendars allColorNames options w) /\
                 P (cal_id c) e) l).
Proof.
  intros Hinv. cbn zeta. rewrite googleListEvents_unfold.
  pose proof (normalizeDates_frame options w) as (_ & Hcache0 & _).
  fold (datesRead options w) in Hcache0.
  pose proof (googleListCalendars_frame (datesRead options w))
    as (_ & Hcache & _).
  cbn zeta in Hcache.
  assert (Hinv1 : cacheAll P (snd (googleListCalendars (datesRead options w))))
    by (intros d c entry; rewrite Hcache, Hcache0; apply Hinv).
  destruct (fst (googleListCalendars w)) as [calendarList|e];
    [|split; [assumption|discriminate]].
  pose proof (collectEvents_all (queryStart options w)
                (queryEnd options w)
                (snd (splitColors allColorNames (include options)))
                (snd (splitColors allColorNames (exclude options)))
                (fun e => exists c,
                     In c (queriedCalendars allColorNames options w) /\
                     P (cal_id c) e)
                (queriedCalendars allColorNames options w)
                (fun c e Hc He => ex_intro _ c (conj Hc He))
                [] (snd (googleListCalendars (datesRead options w))) Hinv1
                (List.Forall_nil _))
    as [Hinv2 Hres].
  cbn zeta in *.
  destruct (collectEvents _ _ _ _ _ _ _ _) as [[eventList|e] w1];
    cbn [fst snd] in *.
  - split; [assumption|]. intros l [= <-].
    rewrite orderBy_perm. apply Hres. reflexivity.
  - split; [assumption|discriminate].
Qed.

End CacheInvariant.

Lemma stampAndFilter_ownedBy calendar pageItems :
  Forall (ownedBy (cal_id calendar)) (stampAndFilter calendar pageItems).
Proof.
  unfold stampAndFilter. apply List.Forall_forall. intros e He.
  apply filter_In in He. destruct He as [He _].
  apply in_map_iff in He. destruct He as (e0 & <- & _).
  exists calendar. split; reflexivity.
Qed.

Lemma stateAfter_parent tmp0 start0 totalDays k :
  parent (tmp (stateAfter tmp0 start0 totalDays k)) = parent tmp0 /\
  Forall (fun c => parent c = parent tmp0)
         (extraEventsTmp (stateAfter tmp0 start0 totalDays k)).
Proof.
  unfold stateAfter. cbn [tmp extraEventsTmp]. split.
  - destruct (k =? 0); reflexivity.
  - apply List.Forall_forall. intros c Hc. apply in_map_iff in Hc.
    destruct Hc as (i & <- & _). reflexivity.
Qed.

Lemma resolveOne_ownedBy c rangeStart rangeEnd tmp0 :
  ownedBy c tmp0 ->
  ownedBy c (fst (resolveOne rangeStart rangeEnd tmp0)) /\
  Forall (ownedBy c) (snd (resolveOne rangeStart rangeEnd tmp0)).
Proof.
  intros Hown. unfold resolveOne.
  destruct (dateTime (start tmp0)) as [start0|] eqn:Hs;
    [|split; [assumption|constructor]].
  destruct (dateTime (end_ tmp0)) as [end0|];
    [|split; [assumption|constructor]].
  destruct (isSameDay start0 end0); [split; [assumption|constructor]|].
  rewrite cloneDays_stateAfter by assumption. cbn [fst snd].
  destruct (stateAfter_parent tmp0 start0
              (diffDays (endOfDay end0) (startOfDay start0) + 1)
              (Z.max 1 (daySpan start0 end0))) as [Htmp Hextra].
  unfold ownedBy in *. split.
  - cbn [parent set_eventType]. rewrite Htmp. exact Hown.
  - apply List.Forall_forall. intros e He. apply filter_In in He.
    rewrite List.Forall_forall in Hextra.
    rewrite (Hextra e (proj1 He)). exact Hown.
Qed.

Lemma reachable_cacheOwned allColorNames getColorNameFromEvent utcOffset w :
  reachable allColorNames getColorNameFromEvent utcOffset w ->
  cacheAll ownedBy w.
Proof.
  induction 1 as [s now logged calendars servers objects engine
                 |options w _ IH
                 |w _ IH
                 |w w' _ IH Hsame].
  - intros d c entry. cbn. rewrite lookup_empty. discriminate.
  - apply (googleListEvents_all ownedBy stampAndFilter_ownedBy
             resolveOne_ownedBy). exact IH.
  - intros d c entry. cbn. rewrite lookup_empty. discriminate.
  - intros d c entry. rewrite Hsame. apply IH.
Qed.

(** X20.  In every world the plugin can be in, every event cached for
    a calendar is stamped with a calendar of that id, and every event
    [googleListEvents] returns, from the cache or after fetching, is
    stamped with a calendar that has the id of one of the calendars the
    query goes through, and therefore is not on the blacklist. *)
Theorem listed_events_belong_to_queried_calendars allColorNames
        getColorNameFromEvent utcOffset w :
  reachable allColorNames getColorNameFromEvent utcOffset w ->
  (forall d c entry,
     cachedEvents w !! (d, c) = Some entry ->
     Forall (fun e => exists p, parent e = Some p /\ cal_id p = c)
            (events entry)) /\
  (forall options l,
     fst (googleListEvents allColorNames getColorNameFromEvent utcOffset
                           options w) = Normal l ->
     Forall (fun e =>
               exists p c,
                 parent e = Some p /\
                 In c (queriedCalendars allColorNames options w) /\
                 cal_id p = cal_id c /\
                 ~ blacklisted (settings w) p) l).
Proof.
  intros Hreach. apply reachable_cacheOwned in Hreach.
  split; [exact Hreach|].
  intros options l Hl.
  pose proof (proj2 (googleListEvents_all ownedBy stampAndFilter_ownedBy
                       resolveOne_ownedBy allColorNames getColorNameFromEvent
                       utcOffset options w Hreach) l Hl) as Hall.
  eapply Forall_impl; [exact Hall|].
  intros e (c & Hc & p & Hp & Hid). exists p, c.
  repeat split; try assumption.
  pose proof (queriedCalendars_not_blacklisted allColorNames options w c Hc)
    as Hnot.
  unfold blacklisted in *. rewrite Hid. exact Hnot.
Qed.

Lemma listed_events_belong_to_queried_calendars_witness :
  Forall (fun e => exists p, parent e = Some p /\ cal_id p = "work")
         (default [] (events <$> cachedEvents (snd Example.firstCall)
                                   !! (Example.jan 4, "work"))).
Proof.
  destruct (cachedEvents (snd Example.firstCall) !! (Example.jan 4, "work"))
    as [entry|] eqn:Hentry; [|constructor].
  apply (proj1 (listed_events_belong_to_queried_calendars
                  Example.colorNames Example.colorOf 0
                  (snd Example.firstCall)
                  (reachable_listEvents _ _ _ (Example.query 1 5)
                     Example.world0
                     (reachable_initial _ _ _ _ _ _ _ _ _ _)))
           (Example.jan 4) "work" entry Hentry).
Defined.

(** ** The dates of a query *)

(** X21.  The dates a query works with come from the moment objects
    the caller passes, which the call changes in place.  With two
    different objects the query runs from the start of the day of the
    first to the end of the day of the second; without an end date it
    covers the single day of the start; without a start date it starts
    today.  With one and the same object for both ends, start and end
    are both the end of its day.  After the call the object passed as
    start holds the start of its day, the object passed as end the end
    of its day, and no other moment has changed. *)
Theorem query_dates_from_caller_moments allColorNames getColorNameFromEvent
        utcOffset options w :
  (queryStart options w, queryEnd options w)
  = match startDate options, endDate options with
    | Some a, Some b =>
        if a =? b
        then (endOfDay (moments w a), endOfDay (moments w a))
        else (startOfDay (moments w a), endOfDay (moments w b))
    | Some a, None => (startOfDay (moments w a), endOfDay (moments w a))
    | None, Some b => (startOfDay (clock w), endOfDay (moments w b))
    | None, None => (startOfDay (clock w), endOfDay (clock w))
    end /\
  forall address,
    moments (snd (googleListEvents allColorNames getColorNameFromEvent
                                   utcOffset options w)) address
    = let held :=
        if bool_decide (startDate options = Some address)
        then startOfDay (moments w address) else moments w address in
      if bool_decide (endDate options = Some address)
      then endOfDay held else held.
Proof.
  split.
  - unfold queryStart, queryEnd. rewrite <- surjective_pairing.
    rewrite normalizeDates_dates.
    assert (Hend : forall m, endOfDay (startOfDay m) = endOfDay m)
      by (intros m; moment_arith).
    destruct (startDate options) as [a|], (endDate options) as [b|];
      rewrite ?Hend; reflexivity.
  - intros address. rewrite <- normalizeDates_moments.
    rewrite googleListEvents_unfold. fold (datesRead options w).
    pose proof (googleListCalendars_frame (datesRead options w))
      as (_ & _ & _ & _ & _ & _ & _ & Hmoments).
    cbn zeta in Hmoments.
    destruct (fst (googleListCalendars w)) as [calendarList|e];
      [|cbn [snd]; rewrite Hmoments; reflexivity].
    pose proof (collectEvents_host getColorNameFromEvent
                  (queryStart options w) (queryEnd options w)
                  (snd (splitColors allColorNames (include options)))
                  (snd (splitColors allColorNames (exclude options)))
                  (queriedCalendars allColorNames options w) []
                  (snd (googleListCalendars (datesRead options w))))
      as [_ Hmoments1].
    cbn zeta in Hmoments1.
    destruct (collectEvents _ _ _ _ _ _ _ _) as [[eventList|e] w1];
      cbn [snd] in *; rewrite Hmoments1, Hmoments; reflexivity.
Qed.

(** One moment object, holding Jan-01 00:00, passed as both dates: the
    single request asks for the time from the end of Jan-01 to the end
    of Jan-01, and the object is left holding the end of Jan-01. *)
Lemma same_object_query_requests_end_of_day :
  let r := Example.listEvents (mkListOptions (Some 2) (Some 2) None None)
                              Example.world0 in
  requests (snd r)
  = [mkRequest "work" (endOfDay (ofDay (Example.jan 1)))
               (endOfDay (ofDay (Example.jan 1))) None] /\
  moments (snd r) 2 = endOfDay (ofDay (Example.jan 1)).
Proof. vm_compute. split; reflexivity. Qed.
